(** * iloveimg-nodejs: token lifecycle, task lifecycle and error classification

    A shallow embedding of [src/Error.js], [src/Auth.js], [src/TaskI.js],
    [src/Task.js], [src/ILoveIMGApi.js], [src/util/task.util.js] and the zod
    schemas of [src/schema/Auth.js], [src/schema/Task.js],
    [src/schema/Tool.js] and [src/schema/ILoveIMGApi.js], followed by the
    properties of the specification that concern them and by further
    properties of the code.

    JavaScript values are an inductive type; objects are association lists
    in insertion order.  Methods are computations in a small state and
    exception monad over the object's private fields and a [World] that
    supplies the clock and the replies of the network and records the
    requests sent and the calls made to the signer. *)

From Stdlib Require Import ZArith List String Ascii Bool Lia DecimalString.
Import ListNotations.

Set Warnings "-register-all".

Local Open Scope string_scope.
Local Open Scope Z_scope.

(* ================================================================== *)
(** ** JavaScript values *)
(* ================================================================== *)

Module Js.

(** The numbers held in values are the integers together with [NaN]:
    [JNum n] is the number that the literal [n] denotes, so the double
    nearest to [n].  A string is held as its UTF-8 encoding.  Fractional
    doubles and infinities occur as results of [Number(...)] only, see
    [JsNumber]. *)
Inductive JsValue : Type :=
| JUndefined
| JNull
| JBool (b : bool)
| JNum (n : Z)
| JNaN
| JStr (s : string)
| JArr (items : list JsValue)
| JObj (fields : list (string * JsValue)).

(** [!!v] *)
Definition truthy (v : JsValue) : bool :=
  match v with
  | JUndefined | JNull | JNaN => false
  | JBool b => b
  | JNum n => negb (n =? 0)
  | JStr s => negb (String.eqb s "")
  | JArr _ | JObj _ => true
  end.

(** [a || b] *)
Definition js_or (a b : JsValue) : JsValue := if truthy a then a else b.

(** [typeof v] *)
Definition typeof (v : JsValue) : string :=
  match v with
  | JUndefined => "undefined"
  | JNull | JArr _ | JObj _ => "object"
  | JBool _ => "boolean"
  | JNum _ | JNaN => "number"
  | JStr _ => "string"
  end.

Definition is_string (v : JsValue) : bool := String.eqb (typeof v) "string".

(** [Array.isArray(v)] *)
Definition isArray (v : JsValue) : bool :=
  match v with JArr _ => true | _ => false end.

(** [v.length] of an array, as the number it is. *)
Definition array_length (v : JsValue) : Z :=
  match v with JArr xs => Z.of_nat (List.length xs) | _ => 0 end.

Fixpoint lookup (k : string) (fs : list (string * JsValue)) : option JsValue :=
  match fs with
  | [] => None
  | (k', v) :: rest => if String.eqb k k' then Some v else lookup k rest
  end.

(** [key in obj] for an own property. *)
Definition has_key (k : string) (fs : list (string * JsValue)) : bool :=
  match lookup k fs with Some _ => true | None => false end.

(** [v.k] where [v] is neither [undefined] nor [null]: an own property of an
    object, and [undefined] otherwise.  None of the keys read by the modelled
    code ([response], [data], [message], [exp], ...) is inherited from a
    prototype of a primitive or of an array. *)
Definition prop (v : JsValue) (k : string) : JsValue :=
  match v with
  | JObj fs => match lookup k fs with Some x => x | None => JUndefined end
  | _ => JUndefined
  end.

(** Is [v.k] a [TypeError]? *)
Definition nullish (v : JsValue) : bool :=
  match v with JUndefined | JNull => true | _ => false end.

(** Assignment [obj.k = v]: keeps the position of an existing key,
    appends a new one. *)
Fixpoint set_field (k : string) (v : JsValue) (fs : list (string * JsValue))
  : list (string * JsValue) :=
  match fs with
  | [] => [(k, v)]
  | (k', v') :: rest =>
      if String.eqb k k' then (k, v) :: rest else (k', v') :: set_field k v rest
  end.

(** [{ ...base, ...v }]: the own properties of an object are copied in order;
    spreading [undefined] or [null] adds nothing.  The values spread by the
    modelled code are results of zod object schemas, hence objects or
    [undefined]. *)
Definition spread (base : list (string * JsValue)) (v : JsValue)
  : list (string * JsValue) :=
  match v with
  | JObj fs => fold_left (fun acc kv => set_field (fst kv) (snd kv) acc) fs base
  | _ => base
  end.

Definition string_of_Z (n : Z) : string :=
  NilZero.string_of_int (Z.to_int n).

(** A string stands for the JavaScript string of which it is the UTF-8
    encoding; [units] gives the UTF-16 code units of that string.  A byte
    that begins no well-formed sequence is read as the code unit of its
    value. *)
Definition byte_of (c : ascii) : Z := Z.of_nat (nat_of_ascii c).

Definition continues (b : Z) : bool := ((128 <=? b) && (b <=? 191))%bool.

Fixpoint units (s : string) : list Z :=
  match s with
  | EmptyString => []
  | String c0 r0 =>
      let b0 := byte_of c0 in
      match r0 with
      | String c1 r1 =>
          let b1 := byte_of c1 in
          if ((194 <=? b0) && (b0 <=? 223) && continues b1)%bool
          then ((b0 - 192) * 64 + (b1 - 128)) :: units r1
          else
            match r1 with
            | String c2 r2 =>
                let b2 := byte_of c2 in
                if ((224 <=? b0) && (b0 <=? 239) && continues b1
                    && continues b2)%bool
                then ((b0 - 224) * 4096 + (b1 - 128) * 64 + (b2 - 128))
                       :: units r2
                else
                  match r2 with
                  | String c3 r3 =>
                      let b3 := byte_of c3 in
                      if ((240 <=? b0) && (b0 <=? 244) && continues b1
                          && continues b2 && continues b3)%bool
                      then
                        let cp := (b0 - 240) * 262144 + (b1 - 128) * 4096
                                  + (b2 - 128) * 64 + (b3 - 128) in
                        (55296 + (cp - 65536) / 1024)
                          :: (56320 + (cp - 65536) mod 1024) :: units r3
                      else b0 :: units r0
                  | EmptyString => b0 :: units r0
                  end
            | EmptyString => b0 :: units r0
            end
      | EmptyString => [b0]
      end
  end.

(** [s.length] *)
Definition js_length (s : string) : nat := List.length (units s).

(** The code units of [WhiteSpace] and [LineTerminator], which
    [String.prototype.trim] and [Number] remove. *)
Definition is_space (u : Z) : bool :=
  (((9 <=? u) && (u <=? 13)) || (u =? 32) || (u =? 160) || (u =? 5760)
   || ((8192 <=? u) && (u <=? 8202)) || (u =? 8232) || (u =? 8233)
   || (u =? 8239) || (u =? 8287) || (u =? 12288) || (u =? 65279))%bool.

(** [!!s.trim()]: some character of [s] is not white space. *)
Definition trim_nonempty (s : string) : bool :=
  existsb (fun u => negb (is_space u)) (units s).

(** Numbers that are not values of [JNum]: results of [Number(...)]. *)
Inductive JsNumber : Type :=
| NotANumber
| Infinite (negative : bool)
| Finite (m e : Z).   (* m * 2^e *)

(** [p / (q * 2^E)] as a fraction of integers. *)
Definition scaled (p q E : Z) : Z * Z :=
  if 0 <=? E then (p, q * 2 ^ E) else (p * 2 ^ (- E), q).

(** The double nearest to [p / q], ties to even, for positive [p] and [q]. *)
Definition round_ratio (p q : Z) : JsNumber :=
  let E0 := Z.log2 p - Z.log2 q - 53 in
  let '(n0, d0) := scaled p q E0 in
  let E1 := if 2 ^ 53 <=? n0 / d0 then E0 + 1 else E0 in
  let E := Z.max E1 (-1074) in
  let '(n, d) := scaled p q E in
  let m := n / d in
  let r := n mod d in
  let m' := if ((d <? 2 * r) || ((d =? 2 * r) && Z.odd m))%bool
            then m + 1 else m in
  if ((971 <? E) || ((E =? 971) && (2 ^ 53 <=? m')))%bool
  then Infinite false else Finite m' E.

Definition digits_of (n : Z) : Z := Z.of_nat (String.length (string_of_Z n)).

(** The double nearest to [m * 10^e10], for [m >= 0]. *)
Definition round_decimal (m e10 : Z) : JsNumber :=
  if m =? 0 then Finite 0 0
  else if 310 <=? e10 + digits_of m - 1 then Infinite false
  else if e10 + digits_of m <=? -326 then Finite 0 0
  else if 0 <=? e10 then round_ratio (m * 10 ^ e10) 1
  else round_ratio m (10 ^ (- e10)).

Definition negate (x : JsNumber) : JsNumber :=
  match x with
  | NotANumber => NotANumber
  | Infinite b => Infinite (negb b)
  | Finite m e => Finite (- m) e
  end.

Definition digit_of (base u : Z) : option Z :=
  let d := if ((48 <=? u) && (u <=? 57))%bool then u - 48
           else if ((97 <=? u) && (u <=? 102))%bool then u - 87
           else if ((65 <=? u) && (u <=? 70))%bool then u - 55
           else -1 in
  if ((0 <=? d) && (d <? base))%bool then Some d else None.

(** The longest prefix of digits: its value on top of [acc], its length on
    top of [n], and what follows it. *)
Fixpoint take_digits (base acc : Z) (n : nat) (l : list Z)
  : Z * nat * list Z :=
  match l with
  | u :: rest =>
      match digit_of base u with
      | Some d => take_digits base (base * acc + d) (S n) rest
      | None => (acc, n, l)
      end
  | [] => (acc, n, [])
  end.

Definition take_sign (l : list Z) : bool * list Z :=
  match l with
  | 43 :: r => (false, r)
  | 45 :: r => (true, r)
  | _ => (false, l)
  end.

(** [ExponentPart], absent or to the end of the text. *)
Definition exponent_part (l : list Z) : option Z :=
  match l with
  | [] => Some 0
  | u :: r =>
      if ((u =? 101) || (u =? 69))%bool then
        let '(neg, r1) := take_sign r in
        match take_digits 10 0 0 r1 with
        | (v, S _, []) => Some (if neg then - v else v)
        | _ => None
        end
      else None
  end.

Definition same_units (a b : list Z) : bool :=
  if list_eq_dec Z.eq_dec a b then true else false.

(** [StrDecimalLiteral] *)
Definition decimal_literal (l : list Z) : JsNumber :=
  let '(neg, l1) := take_sign l in
  let unsigned :=
    if same_units l1 (units "Infinity") then Infinite false
    else
      let '(ip, ni, l2) := take_digits 10 0 0 l1 in
      let '(mant, nf, l3) :=
        match l2 with
        | 46 :: r => take_digits 10 ip 0 r
        | _ => (ip, 0%nat, l2)
        end in
      match (ni + nf)%nat, exponent_part l3 with
      | S _, Some ex => round_decimal mant (ex - Z.of_nat nf)
      | _, _ => NotANumber
      end in
  if neg then negate unsigned else unsigned.

(** [NonDecimalIntegerLiteral] after its prefix. *)
Definition integer_literal (base : Z) (l : list Z) : JsNumber :=
  match take_digits base 0 0 l with
  | (v, S _, []) => if v =? 0 then Finite 0 0 else round_ratio v 1
  | _ => NotANumber
  end.

Fixpoint drop_space (l : list Z) : list Z :=
  match l with
  | u :: rest => if is_space u then drop_space rest else l
  | [] => []
  end.

Definition trimmed (l : list Z) : list Z :=
  rev (drop_space (rev (drop_space l))).

(** [Number(s)] for a string: [StringToNumber]. *)
Definition number_of_string (s : string) : JsNumber :=
  match trimmed (units s) with
  | [] => Finite 0 0
  | 48 :: p :: rest =>
      if ((p =? 120) || (p =? 88))%bool then integer_literal 16 rest
      else if ((p =? 111) || (p =? 79))%bool then integer_literal 8 rest
      else if ((p =? 98) || (p =? 66))%bool then integer_literal 2 rest
      else decimal_literal (48 :: p :: rest)
  | l => decimal_literal l
  end.

(** [a > x] for an integer [a]: false as soon as [x] is [NaN]. *)
Definition gt_number (a : Z) (x : JsNumber) : bool :=
  match x with
  | NotANumber => false
  | Infinite negative => negative
  | Finite m e => if 0 <=? e then m * 2 ^ e <? a else m <? a * 2 ^ (- e)
  end.

(** The integer double nearest to the integer [a >= 2^53]. *)
Definition nearest_double (a : Z) : option Z :=
  match round_ratio a 1 with
  | Finite m e => Some (m * 2 ^ e)
  | _ => None
  end.

(** The decimal numeral with [k] significant digits that the double [x]
    of [n] digits is printed as, if one with so few digits converts back to
    [x]: of the two next to [x], the nearer, the even one on a tie. *)
Definition numeral_of (x n : Z) (k : nat) : option Z :=
  let p := 10 ^ (n - Z.of_nat k) in
  let lo := x / p * p in
  let hi := lo + p in
  let back v := match nearest_double v with
                | Some y => y =? x
                | None => false
                end in
  match back lo, back hi with
  | true, true =>
      if x - lo <? hi - x then Some lo
      else if hi - x <? x - lo then Some hi
      else if Z.even (lo / p) then Some lo else Some hi
  | true, false => Some lo
  | false, true => Some hi
  | false, false => None
  end.

Fixpoint first_numeral (x n : Z) (k : nat) (fuel : nat) : Z :=
  match fuel with
  | O => x
  | S fuel' =>
      if n <=? Z.of_nat k then x
      else match numeral_of x n k with
           | Some v => v
           | None => first_numeral x n (S k) fuel'
           end
  end.

Fixpoint strip_zeros (rev_digits : string) : string :=
  match rev_digits with
  | String "0" rest => strip_zeros rest
  | _ => rev_digits
  end.

Fixpoint rev_string (acc s : string) : string :=
  match s with
  | EmptyString => acc
  | String c rest => rev_string (String c acc) rest
  end.

(** [Number::toString] for a positive integer. *)
Definition string_of_positive (a : Z) : string :=
  if a <? 2 ^ 53 then string_of_Z a
  else
    match nearest_double a with
    | None => "Infinity"
    | Some x =>
        let v := first_numeral x (digits_of x) 1 17 in
        let d := string_of_Z v in
        if digits_of v <=? 21 then d
        else
          match rev_string "" (strip_zeros (rev_string "" d)) with
          | String c EmptyString =>
              String c "e+" ++ string_of_Z (digits_of v - 1)
          | String c rest =>
              String c ("." ++ rest) ++ "e+" ++ string_of_Z (digits_of v - 1)
          | EmptyString => d
          end
    end.

(** [`${n}`] for a number. *)
Definition string_of_number (n : Z) : string :=
  if n <? 0 then "-" ++ string_of_positive (- n) else string_of_positive n.

(** Conversion to string as done by a template literal.  Objects render
    through [Object.prototype.toString], arrays through [join]. *)
Fixpoint to_string (v : JsValue) : string :=
  match v with
  | JUndefined => "undefined"
  | JNull => "null"
  | JBool true => "true"
  | JBool false => "false"
  | JNum n => string_of_number n
  | JNaN => "NaN"
  | JStr s => s
  | JArr xs =>
      (fix join (l : list JsValue) : string :=
         match l with
         | [] => ""
         | x :: rest =>
             let here := match x with
                         | JUndefined | JNull => ""
                         | _ => to_string x
                         end in
             match rest with
             | [] => here
             | _ :: _ => here ++ "," ++ join rest
             end
         end) xs
  | JObj _ => "[object Object]"
  end.

(** [Number(v)] *)
Definition to_number (v : JsValue) : JsNumber :=
  match v with
  | JUndefined | JNaN => NotANumber
  | JNull => Finite 0 0
  | JBool b => Finite (if b then 1 else 0) 0
  | JNum n => Finite n 0
  | JStr s => number_of_string s
  | JArr _ => number_of_string (to_string v)
  | JObj _ => NotANumber
  end.

(** [a + b] where both operands are numbers. *)
Definition add_number (a : Z) (b : JsValue) : JsValue :=
  match b with JNum n => JNum (a + n) | _ => JNaN end.

(** A parameter default [x = d]: used when the argument is [undefined]. *)
Definition default_arg (v d : JsValue) : JsValue :=
  match v with JUndefined => d | _ => v end.

End Js.
Export Js.


(* ================================================================== *)
(** ** The zod combinators used by the schemas *)
(* ================================================================== *)

Module Zod.

(** The schema constructors that occur in [src/schema]. *)
Inductive Schema : Type :=
| ZString                                   (* z.string() *)
| ZNumber                                   (* z.number() *)
| ZBoolean                                  (* z.boolean() *)
| ZEnum (values : list string)              (* z.enum([...]) *)
| ZLength (s : Schema) (n : nat)            (* s.length(n), s a string *)
| ZMin (s : Schema) (lo : Z)                (* s.min(lo), s a number *)
| ZMax (s : Schema) (hi : Z)                (* s.max(hi), s a number *)
| ZOptional (s : Schema)                    (* s.optional() *)
| ZNullable (s : Schema)                    (* s.nullable() *)
| ZDefault (s : Schema) (d : JsValue)       (* s.default(d) *)
| ZOr (a b : Schema)                        (* a.or(b) *)
| ZRefine (s : Schema) (check : JsValue -> bool)  (* s.refine(check) *)
| ZArrayMin (elem : Schema) (n : nat)       (* z.array(elem).min(n) *)
| ZObject (shape : list (string * Schema)). (* z.object({...}) *)

Definition is_undefined (v : JsValue) : bool :=
  match v with JUndefined => true | _ => false end.

(** [schema.parse(v)]: the parsed value, or [None] when zod raises a
    [ZodError].  An object schema keeps the keys of its shape only; a key is
    written to the result when the input has it or its parsed value is
    defined. *)
Fixpoint parse (sch : Schema) (v : JsValue) {struct sch} : option JsValue :=
  match sch with
  | ZString => match v with JStr _ => Some v | _ => None end
  | ZNumber => match v with JNum _ => Some v | _ => None end
  | ZBoolean => match v with JBool _ => Some v | _ => None end
  | ZEnum values =>
      match v with
      | JStr s => if existsb (String.eqb s) values then Some v else None
      | _ => None
      end
  | ZLength s n =>
      match parse s v with
      | Some (JStr x) => if Nat.eqb (js_length x) n then Some (JStr x) else None
      | _ => None
      end
  | ZMin s lo =>
      match parse s v with
      | Some (JNum x) => if lo <=? x then Some (JNum x) else None
      | _ => None
      end
  | ZMax s hi =>
      match parse s v with
      | Some (JNum x) => if x <=? hi then Some (JNum x) else None
      | _ => None
      end
  | ZOptional s => if is_undefined v then Some JUndefined else parse s v
  | ZNullable s => match v with JNull => Some JNull | _ => parse s v end
  | ZDefault s d => if is_undefined v then parse s d else parse s v
  | ZOr a b => match parse a v with Some r => Some r | None => parse b v end
  | ZRefine s check =>
      match parse s v with
      | Some r => if check r then Some r else None
      | None => None
      end
  | ZArrayMin elem n =>
      match v with
      | JArr xs =>
          let parsed :=
            (fix each (l : list JsValue) : option (list JsValue) :=
               match l with
               | [] => Some []
               | x :: rest =>
                   match parse elem x, each rest with
                   | Some y, Some ys => Some (y :: ys)
                   | _, _ => None
                   end
               end) xs in
          match parsed with
          | Some ys => if Nat.leb n (List.length xs) then Some (JArr ys) else None
          | None => None
          end
      | _ => None
      end
  | ZObject shape =>
      match v with
      | JObj fs =>
          option_map JObj
            ((fix each (l : list (string * Schema))
                : option (list (string * JsValue)) :=
                match l with
                | [] => Some []
                | (k, s) :: rest =>
                    match parse s (prop v k), each rest with
                    | Some r, Some out =>
                        if (has_key k fs || negb (is_undefined r))%bool
                        then Some ((k, r) :: out)
                        else Some out
                    | _, _ => None
                    end
                end) shape)
      | _ => None
      end
  end.

End Zod.
Export Zod.

(* ================================================================== *)
(** ** The schemas of [src/schema/Auth.js] and [src/schema/Task.js] *)
(* ================================================================== *)

Module Schema.

Definition debug_only : Schema := ZObject [("debug", ZOptional ZBoolean)].

Definition key_16_24_32 : Schema :=
  ZOptional (ZOr (ZOr (ZLength ZString 16) (ZLength ZString 24))
                 (ZLength ZString 32)).

Definition SelfSignedTokenOptions : Schema :=
  ZObject
    [ ("iss", ZDefault (ZOptional ZString) (JStr "api.ilovepdf.com"));
      ("age", ZDefault (ZOptional ZNumber) (JNum 3600));
      ("file_encryption_key", key_16_24_32) ].

Definition TaskStartGenericOptions : Schema := debug_only.

Definition TaskAddFileGenericOptions : Schema :=
  ZObject [("cloud_file", ZString); ("debug", ZOptional ZBoolean)].

Definition TaskRemoveFileGenericOptions : Schema :=
  ZObject [("server_filename", ZString); ("debug", ZOptional ZBoolean)].

Definition TaskProcessGenericOptions : Schema :=
  ZObject
    [ ("ignore_errors", ZDefault (ZOptional ZBoolean) (JBool true));
      ("output_filename", ZOptional ZString);
      ("packaged_filename", ZOptional ZString);
      ("file_encryption_key", key_16_24_32);
      ("try_image_repair", ZDefault (ZOptional ZBoolean) (JBool true));
      ("custom_int", ZOptional ZNumber);
      ("custom_string", ZOptional ZString);
      ("webhook", ZOptional ZString);
      ("debug", ZOptional ZBoolean) ].

Definition TaskDownloadGenericOptions : Schema := debug_only.
Definition TaskDetailsGenericOptions : Schema := debug_only.
Definition TaskDeleteGenericOptions : Schema := debug_only.

Definition TaskProcessConvertImageOptions : Schema :=
  ZOptional
    (ZObject
       [ ("to", ZDefault
                  (ZOptional (ZEnum ["jpg"; "png"; "gif"; "gif_animation"; "heic"]))
                  (JStr "jpg"));
         ("gif_time", ZDefault (ZOptional ZNumber) (JNum 50));
         ("gif_loop", ZDefault (ZOptional ZBoolean) (JBool true)) ]).

(** [(val) => [2, 4].includes(val)] *)
Definition multiplier_ok (val : JsValue) : bool :=
  match val with JNum n => ((n =? 2) || (n =? 4))%bool | _ => false end.

Definition TaskProcessUpscaleImageOptions : Schema :=
  ZObject [("multiplier", ZRefine ZNumber multiplier_ok)].

(** The refinement of a watermark element: [text] is required when [type]
    is ['text'], [image] when it is ['image']. *)
Definition element_ok (data : JsValue) : bool :=
  match prop data "type" with
  | JStr t =>
      if String.eqb t "text" then truthy (prop data "text")
      else if String.eqb t "image" then truthy (prop data "image")
      else true
  | _ => true
  end.

Definition TaskProcessWatermarkImageElementsProps : Schema :=
  ZRefine
    (ZObject
       [ ("type", ZEnum ["image"; "text"]);
         ("text", ZOptional ZString);
         ("image", ZOptional ZString);
         ("gravity",
           ZDefault
             (ZOptional
                (ZEnum ["North"; "NorthEast"; "NorthWest"; "Center";
                        "CenterEast"; "CenterWest"; "East"; "West"; "South";
                        "SouthEast"; "SouthWest"]))
             (JStr "Center"));
         ("vertical_adjustment_percent", ZDefault (ZOptional ZNumber) (JNum 0));
         ("horizontal_adjustment_percent", ZDefault (ZOptional ZNumber) (JNum 0));
         ("rotation", ZDefault (ZOptional (ZMax (ZMin ZNumber 0) 360)) (JNum 0));
         ("font_family",
           ZDefault
             (ZOptional
                (ZEnum ["Arial"; "Arial Unicode MS"; "Verdana"; "Courier";
                        "Times New Roman"; "Comic Sans MS"; "WenQuanYi Zen Hei";
                        "Lohit Marathi"]))
             (JStr "Arial"));
         ("font_style",
           ZDefault (ZOptional (ZNullable (ZEnum ["Bold"; "Italic"]))) JNull);
         ("font_size", ZDefault (ZOptional ZNumber) (JNum 14));
         ("font_color", ZDefault (ZOptional ZString) (JStr "#000000"));
         ("transparency",
           ZDefault (ZOptional (ZMax (ZMin ZNumber 1) 100)) (JNum 100));
         ("mosaic", ZDefault (ZOptional ZBoolean) (JBool false)) ])
    element_ok.

Definition TaskProcessWatermarkImageOptions : Schema :=
  ZObject [("elements", ZArrayMin TaskProcessWatermarkImageElementsProps 1)].

End Schema.

(* ================================================================== *)
(** ** Thrown values and [src/Error.js] *)
(* ================================================================== *)

Module Error.

(** The classes of the error objects built by the library and its
    collaborators.  [ILoveApiError] and [NetworkError] extend [AxiosError]. *)
Inductive ErrorClass : Type :=
| PlainError | TypeError | ZodError | AxiosError | ILoveApiError | NetworkError.

(** What a [throw] carries: any value (the tests throw plain objects), or an
    instance of an error class with its message and own properties. *)
Inductive Thrown : Type :=
| Raw (v : JsValue)
| ErrorObj (cls : ErrorClass) (message : string)
           (own : list (string * JsValue)).

(** [new Error(message)] *)
Definition new_Error (message : string) : Thrown := ErrorObj PlainError message [].

Definition extends_AxiosError (cls : ErrorClass) : bool :=
  match cls with
  | AxiosError | ILoveApiError | NetworkError => true
  | _ => false
  end.

(** [error.k] for a thrown value that is an object.  [isAxiosError] is found
    on [AxiosError.prototype]. *)
Definition field (e : Thrown) (k : string) : JsValue :=
  match e with
  | Raw v => prop v k
  | ErrorObj cls message own =>
      if String.eqb k "message" then JStr message
      else match lookup k own with
           | Some x => x
           | None =>
               if (String.eqb k "isAxiosError" && extends_AxiosError cls)%bool
               then JBool true else JUndefined
           end
  end.

(** [axios.isAxiosError(payload)]: [isObject(payload) &&
    payload.isAxiosError === true]. *)
Definition isAxiosError (e : Thrown) : bool :=
  match e with
  | Raw (JObj _) | ErrorObj _ _ _ =>
      match field e "isAxiosError" with JBool true => true | _ => false end
  | Raw _ => false
  end.

(** The [AxiosError] constructor keeps each truthy argument among [code],
    [config], [request] and [response] as an own property. *)
Definition kept (k : string) (v : JsValue) : list (string * JsValue) :=
  if truthy v then [(k, v)] else [].

Definition axios_super (error : Thrown) : list (string * JsValue) :=
  kept "code" (field error "code") ++ kept "config" (field error "config")
  ++ kept "request" (field error "request")
  ++ kept "response" (field error "response").

(** [new ILoveApiError(message, status, error)] *)
Definition new_ILoveApiError (message : string) (status : JsValue)
    (error : Thrown) : Thrown :=
  ErrorObj ILoveApiError message
    (set_field "status" status
       (set_field "name" (JStr "ILoveApiError") (axios_super error))).

(** [new NetworkError(message, error)] *)
Definition new_NetworkError (message : string) (error : Thrown) : Thrown :=
  ErrorObj NetworkError message
    (set_field "name" (JStr "NetworkError") (axios_super error)).

(** [typeof x === 'string' && x.trim()] *)
Definition usable_message (x : JsValue) : bool :=
  match x with JStr s => trim_nonempty s | _ => false end.

(** The [message] and [code] extracted from a response body. *)
Definition resolve_message (responseData : JsValue) : JsValue * JsValue :=
  if usable_message (prop responseData "message") then
    (prop responseData "message", js_or (prop responseData "code") (JNum (-1)))
  else if (truthy (prop responseData "error")
           && usable_message (prop (prop responseData "error") "message"))%bool
  then
    (prop (prop responseData "error") "message",
     js_or (prop (prop responseData "error") "code") (JNum (-1)))
  else (JStr "Unknown API error occurred.", JNum (-1)).

(** [`${message} (Status: ${status}, Code: ${code})`] *)
Definition formattedMessage (message status code : JsValue) : string :=
  to_string message ++ " (Status: " ++ to_string status ++ ", Code: "
  ++ to_string code ++ ")".

(** [classifyError(error)].  The function has no normal exit: the result is
    the value it throws. *)
Definition classifyError (error : Thrown) : Thrown :=
  if isAxiosError error then
    if truthy (field error "response") then
      let status := prop (field error "response") "status" in
      let responseData := js_or (prop (field error "response") "data") (JObj []) in
      let '(message, code) := resolve_message responseData in
      new_ILoveApiError (formattedMessage message status code) status error
    else if truthy (field error "request") then
      new_NetworkError "No response received from the server." error
    else
      new_NetworkError "An error occurred while setting up the request." error
  else error.

End Error.
Export Error.

(* ================================================================== *)
(** ** The world: clock, network, and the record of what was done *)
(* ================================================================== *)

Module Eff.

(** An axios instance: its base URL and default headers. *)
Record AxiosInstance : Type := mkAxios {
  baseURL : string;
  headers : list (string * string)
}.

(** [instance.defaults.headers[k] = v] *)
Fixpoint set_header (k v : string) (hs : list (string * string))
  : list (string * string) :=
  match hs with
  | [] => [(k, v)]
  | (k', v') :: rest =>
      if String.eqb k k' then (k, v) :: rest else (k', v') :: set_header k v rest
  end.

Definition with_header (k v : string) (c : AxiosInstance) : AxiosInstance :=
  mkAxios (baseURL c) (set_header k v (headers c)).

(** [axios.create({ baseURL, headers })] *)
Definition axios_create (url : string) (hs : list (string * string))
  : AxiosInstance := mkAxios url hs.

Inductive Method : Type := GET | POST | DELETE.

Record HttpRequest : Type := mkRequest {
  req_method : Method;
  req_client : AxiosInstance;
  req_path : string;
  req_body : JsValue
}.

(** The promise of a request is fulfilled with a response or rejected. *)
Inductive NetOutcome : Type :=
| Resolved (response : JsValue)
| Rejected (error : Thrown).

(** The observable work: requests sent, and calls to [jsonwebtoken]. *)
Inductive Event : Type :=
| EvHttp (r : HttpRequest)
| EvSign (payload secret : JsValue)
| EvVerify (token secret : JsValue).

(** [w_now] is [Date.now()], in milliseconds, for the duration of one
    method call; [w_net n r] is the outcome of request [r] when [n] requests
    were sent before it. *)
Record World : Type := mkWorld {
  w_now : Z;
  w_net : nat -> HttpRequest -> NetOutcome;
  w_sent : nat;
  w_log : list Event
}.

(** How a computation ends. *)
Inductive Completion (A : Type) : Type :=
| Normal (a : A)
| Throw (e : Thrown).
Arguments Normal {A} a.
Arguments Throw {A} e.

(** A method of an object whose fields are [S].  An exception does not undo
    the assignments made before it, so the fields and the world are returned
    on both exits. *)
Definition M (S A : Type) : Type := S -> World -> Completion A * S * World.

Definition ret {S A} (a : A) : M S A := fun s w => (Normal a, s, w).

Definition bind {S A B} (m : M S A) (k : A -> M S B) : M S B :=
  fun s w =>
    match m s w with
    | (Normal a, s', w') => k a s' w'
    | (Throw e, s', w') => (Throw e, s', w')
    end.

Definition throw {S A} (e : Thrown) : M S A := fun s w => (Throw e, s, w).

(** [try { body } catch (error) { handler(error) }] *)
Definition try_catch {S A} (body : M S A) (handler : Thrown -> M S A) : M S A :=
  fun s w =>
    match body s w with
    | (Throw e, s', w') => handler e s' w'
    | done => done
    end.

Definition gets {S A} (f : S -> A) : M S A := fun s w => (Normal (f s), s, w).
Definition modify {S} (f : S -> S) : M S unit := fun s w => (Normal tt, f s, w).

(** Run a method of a member object held in a field. *)
Definition on_field {S T A} (get : S -> T) (set : T -> S -> S) (m : M T A)
  : M S A :=
  fun s w => let '(r, t', w') := m (get s) w in (r, set t' s, w').

Definition of_completion {S A} (c : Completion A) : M S A :=
  fun s w => (c, s, w).

(** [Date.now()] *)
Definition Date_now {S} : M S Z := fun s w => (Normal (w_now w), s, w).

Definition emit {S} (e : Event) : M S unit :=
  fun s w =>
    (Normal tt, s, mkWorld (w_now w) (w_net w) (w_sent w) (w_log w ++ [e])).

(** [await client.get/post/delete(path, body)] *)
Definition request {S} (m : Method) (c : AxiosInstance) (path : string)
    (body : JsValue) : M S JsValue :=
  fun s w =>
    let r := mkRequest m c path body in
    let w' := mkWorld (w_now w) (w_net w) (Datatypes.S (w_sent w))
                (w_log w ++ [EvHttp r]) in
    match w_net w (w_sent w) r with
    | Resolved response => (Normal response, s, w')
    | Rejected error => (Throw error, s, w')
    end.

(** [v.k], a [TypeError] when [v] is [undefined] or [null]. *)
Definition get {S} (v : JsValue) (k : string) : M S JsValue :=
  if nullish v
  then throw (ErrorObj TypeError
                ("Cannot read properties of " ++ to_string v ++ " (reading '"
                 ++ k ++ "')") [])
  else ret (prop v k).

(** [await schema.parseAsync(v)] *)
Definition parseAsync {S} (sch : Schema) (v : JsValue) : M S JsValue :=
  match parse sch v with
  | Some r => ret r
  | None => throw (ErrorObj ZodError "Invalid input" [])
  end.

Declare Scope js_scope.
Delimit Scope js_scope with js.
Notation "x <- m ;; k" := (bind m (fun x => k))
  (at level 61, m at next level, right associativity) : js_scope.
Notation "m ;;; k" := (bind m (fun _ => k))
  (at level 61, right associativity) : js_scope.

End Eff.
Export Eff.
Local Open Scope js_scope.

(* ================================================================== *)
(** ** [src/Auth.js] *)
(* ================================================================== *)

(** The three functions of [jsonwebtoken] that [Auth] calls.  [verify]
    reads the clock, given here in milliseconds. *)
Class JsonWebToken : Type := {
  jwt_decode : JsValue -> Completion JsValue;
  jwt_verify : Z -> JsValue -> JsValue -> Completion JsValue;
  jwt_sign : JsValue -> JsValue -> Completion JsValue
}.

Module Auth.

Definition TIME_DELAY : Z := 30.

Definition ILOVEIMG_API_URL : string := "api.ilovepdf.com".
Definition ILOVEIMG_API_URL_PROTOCOL : string := "https".
Definition ILOVEIMG_API_VERSION : string := "v1".

Definition content_type : string * string :=
  ("Content-Type", "application/json;charset=UTF-8").

Record Auth : Type := mkAuth {
  token : JsValue;
  publicKey : JsValue;
  secretKey : JsValue;
  axiosInstance : AxiosInstance;
  tokenOptions : JsValue
}.

Definition set_token (t : JsValue) (a : Auth) : Auth :=
  mkAuth t (publicKey a) (secretKey a) (axiosInstance a) (tokenOptions a).

(** [new Auth(publicKey, secretKey = '', params = {})] *)
Definition new (publicKey0 secretKey0 params0 : JsValue) : Completion Auth :=
  let secretKey1 := default_arg secretKey0 (JStr "") in
  let params1 := default_arg params0 (JObj []) in
  if (negb (truthy publicKey0) || negb (is_string publicKey0))%bool then
    Throw (new_Error "publicKey is required and must be a string.")
  else if (truthy secretKey1 && negb (is_string secretKey1))%bool then
    Throw (new_Error "secretKey must be a string.")
  else
    match parse Schema.SelfSignedTokenOptions params1 with
    | None => Throw (ErrorObj ZodError "Invalid input" [])
    | Some opts =>
        Normal
          (mkAuth JUndefined publicKey0 secretKey1
             (axios_create
                (ILOVEIMG_API_URL_PROTOCOL ++ "://" ++ ILOVEIMG_API_URL ++ "/"
                 ++ ILOVEIMG_API_VERSION)
                [content_type])
             opts)
    end.

Section WithJwt.
Context {J : JsonWebToken}.

(** [Math.floor(Date.now() / 1000)] *)
Definition seconds (ms : Z) : Z := ms / 1000.

(** [verifyToken()] *)
Definition verifyToken : M Auth JsValue :=
  tok <- gets token ;;
  if truthy tok then
    try_catch
      (decoded <- of_completion (jwt_decode tok) ;;
       sk <- gets secretKey ;;
       if truthy sk then
         emit (EvVerify tok sk) ;;;
         now <- Date_now ;;
         of_completion (jwt_verify now tok sk) ;;;
         ret decoded
       else
         now <- Date_now ;;
         let timeNow := seconds now in
         exp <- get decoded "exp" ;;
         let isExpired := gt_number timeNow (to_number exp) in
         if isExpired then throw (new_Error "Token is expired.")
         else ret decoded)
      (fun _ =>
         modify (set_token JUndefined) ;;;
         gets token)
  else gets token.

(** [#getTokenFromServer()] *)
Definition getTokenFromServer : M Auth JsValue :=
  try_catch
    (client <- gets axiosInstance ;;
     pk <- gets publicKey ;;
     response <- request POST client "/auth" (JObj [("public_key", pk)]) ;;
     data <- get response "data" ;;
     tok <- get data "token" ;;
     if negb (truthy tok) then throw (new_Error "Auth token cannot be retrieved")
     else
       modify (set_token tok) ;;;
       gets token)
    (fun error => throw (classifyError error)).

(** The payload signed by [#getTokenLocally()]. *)
Definition local_payload (a : Auth) (timeNow : Z) : JsValue :=
  JObj
    [ ("iss", prop (tokenOptions a) "iss");
      ("iat", JNum (timeNow - TIME_DELAY));
      ("nbf", JNum (timeNow - TIME_DELAY));
      ("exp", add_number timeNow (prop (tokenOptions a) "age"));
      ("jti", publicKey a);
      ("file_encryption_key", prop (tokenOptions a) "file_encryption_key") ].

(** [#getTokenLocally()] *)
Definition getTokenLocally : M Auth JsValue :=
  now <- Date_now ;;
  let timeNow := seconds now in
  payload <- gets (fun a => local_payload a timeNow) ;;
  sk <- gets secretKey ;;
  emit (EvSign payload sk) ;;;
  signed <- of_completion (jwt_sign payload sk) ;;
  modify (set_token signed) ;;;
  gets token.

(** [getToken()] *)
Definition getToken : M Auth JsValue :=
  verifyToken ;;;
  tok <- gets token ;;
  if truthy tok then ret tok
  else
    sk <- gets secretKey ;;
    fresh <- (if truthy sk then getTokenLocally else getTokenFromServer) ;;
    modify (set_token fresh) ;;;
    gets token.

End WithJwt.

End Auth.

(* ================================================================== *)
(** ** [src/util/task.util.js] *)
(* ================================================================== *)

Module TaskUtils.

(** The table [toolValidators], read at the property key of [tool]. *)
Definition toolValidators (key : string) : option (JsValue -> option JsValue) :=
  if String.eqb key "convertimage" then
    Some (parse Schema.TaskProcessConvertImageOptions)
  else if String.eqb key "removebackgroundimage" then
    Some (fun _ => Some (JObj []))
  else if String.eqb key "upscaleimage" then
    Some (parse Schema.TaskProcessUpscaleImageOptions)
  else if String.eqb key "watermarkimage" then
    Some (parse Schema.TaskProcessWatermarkImageOptions)
  else None.

(** [options?.[tool]] *)
Definition optional_member (options tool : JsValue) : JsValue :=
  if nullish options then JUndefined else prop options (to_string tool).

(** [validateProcessToolOptions(tool, options)] *)
Definition validateProcessToolOptions {S} (tool options : JsValue)
  : M S JsValue :=
  match toolValidators (to_string tool) with
  | None => throw (new_Error ("Unsupported tool: " ++ to_string tool))
  | Some validator =>
      match validator (optional_member options tool) with
      | Some r => ret r
      | None => throw (ErrorObj ZodError "Invalid input" [])
      end
  end.

End TaskUtils.

(* ================================================================== *)
(** ** [src/TaskI.js] *)
(* ================================================================== *)

Module TaskI.

Import Auth.

Record TaskI : Type := mkTaskI {
  auth : Auth;
  fixed_server : AxiosInstance;
  tool : JsValue;
  task_id : JsValue;
  remaining_files : JsValue;
  files : JsValue;
  server : option AxiosInstance
}.

(** [new TaskI(auth, fixedServer, taskType)] *)
Definition new (auth0 : Auth) (fixedServer : AxiosInstance) (taskType : JsValue)
  : TaskI :=
  mkTaskI auth0 fixedServer taskType JUndefined JUndefined JUndefined None.

Definition set_auth (a : Auth) (t : TaskI) : TaskI :=
  mkTaskI a (fixed_server t) (tool t) (task_id t) (remaining_files t) (files t)
    (server t).
Definition set_fixed_server (c : AxiosInstance) (t : TaskI) : TaskI :=
  mkTaskI (auth t) c (tool t) (task_id t) (remaining_files t) (files t)
    (server t).
Definition _setTool (x : JsValue) (t : TaskI) : TaskI :=
  mkTaskI (auth t) (fixed_server t) x (task_id t) (remaining_files t) (files t)
    (server t).
Definition _setTaskId (x : JsValue) (t : TaskI) : TaskI :=
  mkTaskI (auth t) (fixed_server t) (tool t) x (remaining_files t) (files t)
    (server t).
Definition _setRemainingFiles (x : JsValue) (t : TaskI) : TaskI :=
  mkTaskI (auth t) (fixed_server t) (tool t) (task_id t) x (files t) (server t).
Definition _setUploadedFiles (x : JsValue) (t : TaskI) : TaskI :=
  mkTaskI (auth t) (fixed_server t) (tool t) (task_id t) (remaining_files t) x
    (server t).
Definition _setServer (x : option AxiosInstance) (t : TaskI) : TaskI :=
  mkTaskI (auth t) (fixed_server t) (tool t) (task_id t) (remaining_files t)
    (files t) x.

(** [x || undefined] *)
Definition or_undefined (x : JsValue) : JsValue := js_or x JUndefined.

Definition getTool (t : TaskI) : JsValue := or_undefined (tool t).
Definition getTaskId (t : TaskI) : JsValue := or_undefined (task_id t).
Definition getRemainingFiles (t : TaskI) : JsValue :=
  or_undefined (remaining_files t).
Definition getUploadedFiles (t : TaskI) : JsValue := or_undefined (files t).
(** An axios instance is truthy; [None] is [undefined]. *)
Definition getServer (t : TaskI) : option AxiosInstance := server t.

Definition need_start : string :=
  "You need to retrieve task id and assigned server first using start() method.".
Definition need_files : string :=
  "You need to add files first using addFile() method.".

(** [!this.#task_id || !this.#server] *)
Definition not_started (t : TaskI) : bool :=
  (negb (truthy (task_id t))
   || match server t with Some _ => false | None => true end)%bool.

(** [!Array.isArray(this.#files) || !this.#files.length] *)
Definition no_files (t : TaskI) : bool :=
  (negb (isArray (files t)) || (array_length (files t) =? 0))%bool.

(** The guard that opens every method but [start]; past it the task's
    client is at hand and is given to the rest of the method. *)
Definition started {A} (k : AxiosInstance -> M TaskI A) : M TaskI A :=
  fun t w =>
    if not_started t then throw (new_Error need_start) t w
    else match server t with
         | Some srv => k srv t w
         | None => throw (new_Error need_start) t w
         end.

Definition rethrow_classified {A} (body : M TaskI A) : M TaskI A :=
  try_catch body (fun error => throw (classifyError error)).

Section WithJwt.
Context {J : JsonWebToken}.

(** [start(options = {})] *)
Definition start (options : JsValue) : M TaskI JsValue :=
  validatedOptions <-
    parseAsync Schema.TaskStartGenericOptions (default_arg options (JObj [])) ;;
  let isDebug := truthy (prop validatedOptions "debug") in
  rethrow_classified
    (tok <- on_field auth set_auth getToken ;;
     modify (fun t =>
       set_fixed_server
         (with_header "Authorization" ("Bearer " ++ to_string tok)
            (fixed_server t)) t) ;;;
     fixed <- gets fixed_server ;;
     tl <- gets tool ;;
     response <-
       (if isDebug
        then request GET fixed ("/start/" ++ to_string tl ++ "?debug=true") JUndefined
        else request GET fixed ("/start/" ++ to_string tl) JUndefined) ;;
     data <- get response "data" ;;
     if negb isDebug then
       if (negb (truthy data) || negb (truthy (prop data "server"))
           || negb (truthy (prop data "task"))
           || negb (truthy (prop data "remaining_files")))%bool
       then throw (new_Error "Invalid response: missing required fields")
       else
         modify (_setServer
           (Some (axios_create
                    (ILOVEIMG_API_URL_PROTOCOL ++ "://"
                     ++ to_string (prop data "server") ++ "/"
                     ++ ILOVEIMG_API_VERSION)
                    [content_type;
                     ("Authorization", "Bearer " ++ to_string tok)]))) ;;;
         modify (_setTaskId (prop data "task")) ;;;
         modify (_setRemainingFiles (prop data "remaining_files")) ;;;
         modify (_setUploadedFiles (JArr [])) ;;;
         ret (JObj [ ("server", prop data "server");
                     ("task_id", prop data "task");
                     ("remaining_files", prop data "remaining_files") ])
     else ret data).

End WithJwt.

(** [addFile(options)] *)
Definition addFile (options : JsValue) : M TaskI JsValue :=
  started (fun srv =>
    _vOptions <- parseAsync Schema.TaskAddFileGenericOptions options ;;
    rethrow_classified
      (id <- gets task_id ;;
       response <- request POST srv "/upload"
                     (JObj (spread [("task", id)] _vOptions)) ;;
       get response "data")).

(** [deleteFile(options)] *)
Definition deleteFile (options : JsValue) : M TaskI JsValue :=
  started (fun srv =>
    _vOptions <- parseAsync Schema.TaskRemoveFileGenericOptions options ;;
    let isDebug := truthy (prop _vOptions "debug") in
    rethrow_classified
      (id <- gets task_id ;;
       response <- request DELETE srv "/upload"
                     (JObj [("data", JObj (spread [("task", id)] _vOptions))]) ;;
       if isDebug then get response "data" else ret JUndefined)).

(** [process(options = {}, toolOptions = {})] *)
Definition process (options toolOptions : JsValue) : M TaskI JsValue :=
  started (fun srv =>
    empty <- gets no_files ;;
    if empty then throw (new_Error need_files)
    else
      fs <- gets files ;;
      _vOptions <- parseAsync Schema.TaskProcessGenericOptions
                     (default_arg options (JObj [])) ;;
      tl <- gets tool ;;
      _vToolOptions <- TaskUtils.validateProcessToolOptions tl
                         (default_arg toolOptions (JObj [])) ;;
      rethrow_classified
        (id <- gets task_id ;;
         response <- request POST srv "/process"
                       (JObj (spread
                                (spread [("task", id); ("tool", tl); ("files", fs)]
                                   _vOptions)
                                _vToolOptions)) ;;
         get response "data")).

(** [download(options = {})] *)
Definition download (options : JsValue) : M TaskI JsValue :=
  started (fun srv =>
    _vOptions <- parseAsync Schema.TaskDownloadGenericOptions
                   (default_arg options (JObj [])) ;;
    let isDebug := truthy (prop _vOptions "debug") in
    rethrow_classified
      (id <- gets task_id ;;
       response <-
         (if isDebug
          then request GET srv ("/download/" ++ to_string id ++ "?debug=true") JUndefined
          else request GET srv ("/download/" ++ to_string id) JUndefined) ;;
       if isDebug then get response "data" else ret response)).

(** [details(options = {})] *)
Definition details (options : JsValue) : M TaskI JsValue :=
  started (fun srv =>
    _vOptions <- parseAsync Schema.TaskDetailsGenericOptions
                   (default_arg options (JObj [])) ;;
    let isDebug := truthy (prop _vOptions "debug") in
    rethrow_classified
      (id <- gets task_id ;;
       response <-
         (if isDebug
          then request GET srv ("/task/" ++ to_string id ++ "?debug=true") JUndefined
          else request GET srv ("/task/" ++ to_string id) JUndefined) ;;
       get response "data")).

(** [delete(options = {})] *)
Definition delete (options : JsValue) : M TaskI JsValue :=
  started (fun srv =>
    _vOptions <- parseAsync Schema.TaskDeleteGenericOptions
                   (default_arg options (JObj [])) ;;
    let isDebug := truthy (prop _vOptions "debug") in
    rethrow_classified
      (id <- gets task_id ;;
       response <-
         (if isDebug
          then request DELETE srv ("/task/" ++ to_string id ++ "?debug=true") JUndefined
          else request DELETE srv ("/task/" ++ to_string id) JUndefined) ;;
       if isDebug then get response "data" else ret JUndefined)).

End TaskI.

(* ================================================================== *)
(** ** [src/Task.js] *)
(* ================================================================== *)

Module Task.

Import Auth.

Record Task : Type := mkTask {
  auth : Auth;
  task_id : JsValue;
  server : AxiosInstance
}.

Definition set_auth (a : Auth) (t : Task) : Task :=
  mkTask a (task_id t) (server t).
Definition _setServer (x : AxiosInstance) (t : Task) : Task :=
  mkTask (auth t) (task_id t) x.

Definition need_task : string :=
  "taskId and taskServer are required and should be string.".

(** [new Task(publicKey, secretKey = '', taskId, taskServer, params = {})] *)
Definition new (publicKey0 secretKey0 taskId taskServer params0 : JsValue)
  : Completion Task :=
  let secretKey1 := default_arg secretKey0 (JStr "") in
  let params1 := default_arg params0 (JObj []) in
  if (negb (truthy taskId) || negb (truthy taskServer)
      || negb (is_string taskId) || negb (is_string taskServer))%bool
  then Throw (new_Error need_task)
  else
    match Auth.new publicKey0 secretKey1 params1 with
    | Throw e => Throw e
    | Normal a =>
        Normal
          (mkTask a taskId
             (axios_create
                (ILOVEIMG_API_URL_PROTOCOL ++ "://" ++ to_string taskServer
                 ++ "/" ++ ILOVEIMG_API_VERSION)
                [content_type]))
    end.

Section WithJwt.
Context {J : JsonWebToken}.

(** [download(options = {})] *)
Definition download (options : JsValue) : M Task JsValue :=
  _vOptions <- parseAsync Schema.TaskDownloadGenericOptions
                 (default_arg options (JObj [])) ;;
  let isDebug := truthy (prop _vOptions "debug") in
  try_catch
    (tok <- on_field auth set_auth getToken ;;
     modify (fun t =>
       _setServer (with_header "Authorization" ("Bearer " ++ to_string tok)
                     (server t)) t) ;;;
     srv <- gets server ;;
     id <- gets task_id ;;
     response <-
       (if isDebug
        then request GET srv ("/download/" ++ to_string id ++ "?debug=true") JUndefined
        else request GET srv ("/download/" ++ to_string id) JUndefined) ;;
     if isDebug then get response "data" else ret response)
    (fun error => throw (classifyError error)).

(** [details(options = {})] *)
Definition details (options : JsValue) : M Task JsValue :=
  _vOptions <- parseAsync Schema.TaskDetailsGenericOptions
                 (default_arg options (JObj [])) ;;
  let isDebug := truthy (prop _vOptions "debug") in
  try_catch
    (tok <- on_field auth set_auth getToken ;;
     modify (fun t =>
       _setServer (with_header "Authorization" ("Bearer " ++ to_string tok)
                     (server t)) t) ;;;
     srv <- gets server ;;
     id <- gets task_id ;;
     response <-
       (if isDebug
        then request GET srv ("/task/" ++ to_string id ++ "?debug=true") JUndefined
        else request GET srv ("/task/" ++ to_string id) JUndefined) ;;
     get response "data")
    (fun error => throw (classifyError error)).

End WithJwt.

End Task.

(* ================================================================== *)
(** ** [src/schema/Tool.js] and [src/schema/ILoveIMGApi.js] *)
(* ================================================================== *)

Module ToolSchema.

Definition ToolTypes : Schema :=
  ZEnum ["convertimage"; "removebackgroundimage"; "upscaleimage";
         "watermarkimage"].

End ToolSchema.

Module ApiSchema.

Definition TaskStatusTypes : Schema :=
  ZEnum ["TaskWaiting"; "TaskProcessing"; "TaskSuccess";
         "TaskSuccessWithWarnings"; "TaskError"; "TaskDeleted";
         "TaskNotFound"].

Definition ListTasksOptions : Schema :=
  ZObject
    [ ("page", ZOptional ZNumber);
      ("tool", ZOptional ToolSchema.ToolTypes);
      ("status", ZOptional TaskStatusTypes);
      ("custom_int", ZOptional ZNumber);
      ("debug", ZOptional ZBoolean) ].

End ApiSchema.

(* ================================================================== *)
(** ** [src/ILoveIMGApi.js] *)
(* ================================================================== *)

Module ILoveIMGApi.

Import Auth.

Record ILoveIMGApi : Type := mkApi {
  publicKey : JsValue;
  secretKey : JsValue;
  auth : Auth;
  fixedServer : AxiosInstance
}.

Definition set_auth (a : Auth) (i : ILoveIMGApi) : ILoveIMGApi :=
  mkApi (publicKey i) (secretKey i) a (fixedServer i).
Definition set_fixedServer (c : AxiosInstance) (i : ILoveIMGApi) : ILoveIMGApi :=
  mkApi (publicKey i) (secretKey i) (auth i) c.

(** [new ILoveIMGApi(publicKey, secretKey = '', params = {})] *)
Definition new (publicKey0 secretKey0 params0 : JsValue)
  : Completion ILoveIMGApi :=
  let secretKey1 := default_arg secretKey0 (JStr "") in
  let params1 := default_arg params0 (JObj []) in
  match Auth.new publicKey0 secretKey1 params1 with
  | Throw e => Throw e
  | Normal a =>
      Normal
        (mkApi publicKey0 secretKey1 a
           (axios_create
              (ILOVEIMG_API_URL_PROTOCOL ++ "://" ++ ILOVEIMG_API_URL ++ "/"
               ++ ILOVEIMG_API_VERSION)
              [content_type]))
  end.

(** [newTask(type)].  The session is given the token manager and the fixed
    client of the entry point; here it holds them by value. *)
Definition newTask (type : JsValue) (i : ILoveIMGApi) : Completion TaskI.TaskI :=
  match parse ToolSchema.ToolTypes type with
  | None => Throw (ErrorObj ZodError "Invalid input" [])
  | Some _ => Normal (TaskI.new (auth i) (fixedServer i) type)
  end.

Definition need_secret : string := "Secret key required for list tasks.".

Section WithJwt.
Context {J : JsonWebToken}.

(** [listTasks(options = {})] *)
Definition listTasks (options : JsValue) : M ILoveIMGApi JsValue :=
  sk <- gets secretKey ;;
  if (negb (truthy sk) || negb (is_string sk))%bool
  then throw (new_Error need_secret)
  else
    _vOptions <- parseAsync ApiSchema.ListTasksOptions
                   (default_arg options (JObj [])) ;;
    try_catch
      (tok <- on_field auth set_auth getToken ;;
       modify (fun i =>
         set_fixedServer
           (with_header "Authorization" ("Bearer " ++ to_string tok)
              (fixedServer i)) i) ;;;
       fixed <- gets fixedServer ;;
       response <- request POST fixed "/task"
                     (JObj (spread [("secret_key", sk)] _vOptions)) ;;
       get response "data")
      (fun error => throw (classifyError error)).

End WithJwt.

End ILoveIMGApi.

(* ================================================================== *)
(** ** Sessions driven through the public methods *)
(* ================================================================== *)

Module Session.

Import TaskI.

(** A call of one of the public asynchronous methods of a [TaskI]. *)
Inductive Call : Type :=
| CallStart (options : JsValue)
| CallAddFile (options : JsValue)
| CallDeleteFile (options : JsValue)
| CallProcess (options toolOptions : JsValue)
| CallDownload (options : JsValue)
| CallDetails (options : JsValue)
| CallDelete (options : JsValue).

Definition run {J : JsonWebToken} (c : Call) : M TaskI JsValue :=
  match c with
  | CallStart o => start o
  | CallAddFile o => addFile o
  | CallDeleteFile o => deleteFile o
  | CallProcess o t => process o t
  | CallDownload o => download o
  | CallDetails o => details o
  | CallDelete o => delete o
  end.

(** [getUploadedFiles()] returns the private array itself, not a copy of
    it: a caller that holds it can change its elements, and the session
    reads what the caller wrote.  [caller_writes items t] is the session
    once the caller has made that array hold [items]; where no array is
    handed out there is nothing to write into. *)
Definition caller_writes (items : list JsValue) (t : TaskI) : TaskI :=
  match getUploadedFiles t with
  | JArr _ =>
      mkTaskI (auth t) (fixed_server t) (tool t) (task_id t)
        (remaining_files t) (JArr items) (server t)
  | _ => t
  end.

(** The sessions obtained from a new [TaskI] without the test-only setters:
    by public calls, each made in a world of its own (between two calls
    time passes and the network changes), and by writes of the caller into
    the array that [getUploadedFiles] hands out.  The flag tells whether
    the caller ever wrote. *)
Inductive reachable {J : JsonWebToken} : bool -> TaskI -> Prop :=
| reach_new : forall a fixed taskType,
    reachable false (TaskI.new a fixed taskType)
| reach_call : forall wrote t c w r t' w',
    reachable wrote t -> run c t w = (r, t', w') -> reachable wrote t'
| reach_write : forall wrote t items,
    reachable wrote t -> reachable true (caller_writes items t).

(** The sessions on which no [start] was ever fulfilled. *)
Inductive unstarted {J : JsonWebToken} : TaskI -> Prop :=
| unstarted_new : forall a fixed taskType,
    unstarted (TaskI.new a fixed taskType)
| unstarted_call : forall t c w r t' w',
    unstarted t -> run c t w = (r, t', w') ->
    (forall o v, c = CallStart o -> r <> Normal v) ->
    unstarted t'.

(** Successive [addFile] calls, all fulfilled. *)
Inductive added : TaskI -> TaskI -> Prop :=
| added_none : forall t, added t t
| added_more : forall t options w r t' w' t'',
    addFile options t w = (Normal r, t', w') -> added t' t'' -> added t t''.

End Session.

(* ================================================================== *)
(** ** The wording of the specification, where it differs from the code *)
(* ================================================================== *)

Module Claimed.

(** The specification's test on a message: "a non-empty string". *)
Definition nonempty_string (x : JsValue) : bool :=
  match x with JStr s => negb (String.eqb s "") | _ => false end.

(** The message and code of an [ILoveApiError] as the specification words
    them: [data.message] if it is a non-empty string, else
    [data.error.message] if that is a non-empty string, else the default. *)
Definition resolve_message (responseData : JsValue) : JsValue * JsValue :=
  if nonempty_string (prop responseData "message") then
    (prop responseData "message", js_or (prop responseData "code") (JNum (-1)))
  else if nonempty_string (prop (prop responseData "error") "message") then
    (prop (prop responseData "error") "message",
     js_or (prop (prop responseData "error") "code") (JNum (-1)))
  else (JStr "Unknown API error occurred.", JNum (-1)).

(** The message the specification expects for a transport error that carries
    a response. *)
Definition api_message (error : Thrown) : string :=
  let response := field error "response" in
  let '(message, code) :=
    resolve_message (js_or (prop response "data") (JObj [])) in
  formattedMessage message (prop response "status") code.

End Claimed.

(* ================================================================== *)
(** ** A stand-in for [jsonwebtoken], to run the model *)
(* ================================================================== *)

Module Toy.

(** A token is the decimal text of its expiry, in seconds; it verifies
    against any secret until then. *)
Fixpoint digits_value (acc : Z) (s : string) : option Z :=
  match s with
  | EmptyString => Some acc
  | String c rest =>
      let n := nat_of_ascii c in
      if (Nat.leb 48 n && Nat.leb n 57)%bool
      then digits_value (10 * acc + Z.of_nat (n - 48)) rest
      else None
  end.

Definition decode (tok : JsValue) : Completion JsValue :=
  match tok with
  | JStr s =>
      match digits_value 0 s with
      | Some e => Normal (JObj [("exp", JNum e)])
      | None => Normal JNull
      end
  | _ => Normal JNull
  end.

Definition verify (now : Z) (tok secret : JsValue) : Completion JsValue :=
  match decode tok with
  | Normal (JObj fs) =>
      if gt_number (now / 1000) (to_number (prop (JObj fs) "exp"))
      then Throw (new_Error "jwt expired") else Normal (JObj fs)
  | _ => Throw (new_Error "jwt malformed")
  end.

Definition sign (payload secret : JsValue) : Completion JsValue :=
  Normal (JStr (to_string (prop payload "exp"))).

#[export] Instance jwt : JsonWebToken :=
  {| jwt_decode := decode; jwt_verify := verify; jwt_sign := sign |}.

(** A network that never answers. *)
Definition offline : nat -> HttpRequest -> NetOutcome :=
  fun _ _ => Rejected (ErrorObj AxiosError "Network Error"
                         [("request", JObj [])]).

(** A network whose every reply has the given body. *)
Definition replying (data : JsValue) : nat -> HttpRequest -> NetOutcome :=
  fun _ _ => Resolved (JObj [("status", JNum 200); ("data", data)]).

Definition world (now : Z) (net : nat -> HttpRequest -> NetOutcome) : World :=
  mkWorld now net 0 [].

Definition client : AxiosInstance :=
  axios_create "https://api.ilovepdf.com/v1" [Auth.content_type].

Definition auth_with (tok secret : JsValue) : Auth.Auth :=
  Auth.mkAuth tok (JStr "publicKey") secret client
    (JObj [("iss", JStr "api.ilovepdf.com"); ("age", JNum 3600)]).

End Toy.

(* ================================================================== *)
(** ** Properties *)
(* ================================================================== *)

(** The concrete runs below use the stand-in for [jsonwebtoken]. *)
#[local] Existing Instance Toy.jwt.

(** *** Vocabulary of the statements *)

(** [!x || typeof x !== 'string'] *)
Definition bad_string (x : JsValue) : bool :=
  (negb (truthy x) || negb (is_string x))%bool.

(** [frames m]: whatever the exit of [m], the fields are unchanged. *)
Definition frames {S A} (m : M S A) : Prop :=
  forall s w, snd (fst (m s w)) = s.

(** [wp m Q s w]: the exit of [m] from fields [s] in world [w] satisfies [Q]. *)
Definition wp {S A} (m : M S A) (Q : Completion A -> S -> World -> Prop)
    (s : S) (w : World) : Prop :=
  let '(r, s', w') := m s w in Q r s' w'.

(** The four fields of the task state. *)
Definition task_state (t : TaskI.TaskI)
  : JsValue * option AxiosInstance * JsValue * JsValue :=
  (TaskI.task_id t, TaskI.server t, TaskI.remaining_files t, TaskI.files t).

(** The request of a non-debug [start], once the token [tok] is in hand. *)
Definition start_request (t : TaskI.TaskI) (tok : JsValue) : HttpRequest :=
  mkRequest GET
    (with_header "Authorization" ("Bearer " ++ to_string tok)
       (TaskI.fixed_server t))
    ("/start/" ++ to_string (TaskI.tool t)) JUndefined.

(** A reply that lacks a truthy [server], [task] or [remaining_files]. *)
Definition incomplete (data : JsValue) : bool :=
  (negb (truthy data) || negb (truthy (prop data "server"))
   || negb (truthy (prop data "task"))
   || negb (truthy (prop data "remaining_files")))%bool.

(** The request that [process] sends once both option sets are validated. *)
Definition process_request (t : TaskI.TaskI) (srv : AxiosInstance)
    (vOptions vToolOptions : JsValue) : HttpRequest :=
  mkRequest POST srv "/process"
    (JObj (spread
             (spread [ ("task", TaskI.task_id t); ("tool", TaskI.tool t);
                       ("files", TaskI.files t) ] vOptions)
             vToolOptions)).

(** The options [{ upscaleimage: { multiplier: m } }]. *)
Definition upscale_options (m : JsValue) : JsValue :=
  JObj [("upscaleimage", JObj [("multiplier", m)])].

(** The cached token of [a] passes the checks of [verifyToken] at clock
    [now]: it decodes, and either the secret key is set and
    [jsonwebtoken.verify] accepts it, or no secret key is set and its [exp]
    claim is not earlier than the time in seconds. *)
Definition verifies {J : JsonWebToken} (a : Auth.Auth) (now : Z) : bool :=
  match jwt_decode (Auth.token a) with
  | Throw _ => false
  | Normal decoded =>
      if truthy (Auth.secretKey a) then
        match jwt_verify now (Auth.token a) (Auth.secretKey a) with
        | Normal _ => true
        | Throw _ => false
        end
      else
        (negb (nullish decoded)
         && negb (gt_number (now / 1000) (to_number (prop decoded "exp"))))%bool
  end.

(** The calls to [jsonwebtoken.verify] made by one [verifyToken]. *)
Definition verify_events {J : JsonWebToken} (a : Auth.Auth) : list Event :=
  if truthy (Auth.token a) then
    match jwt_decode (Auth.token a) with
    | Normal _ =>
        if truthy (Auth.secretKey a)
        then [EvVerify (Auth.token a) (Auth.secretKey a)] else []
    | Throw _ => []
    end
  else [].

(** [w'] is [w] with the events [evs] added and no request sent. *)
Definition extends (w w' : World) (evs : list Event) : Prop :=
  w_now w' = w_now w /\ w_net w' = w_net w /\ w_sent w' = w_sent w
  /\ w_log w' = (w_log w ++ evs)%list.

(** *** Sample errors, sessions and worlds *)

(** A transport error whose response body carries a message made of a
    single space. *)
Definition blank_message_error : Thrown :=
  Raw (JObj
    [ ("isAxiosError", JBool true);
      ("response",
        JObj [ ("status", JNum 400);
               ("data", JObj [("message", JStr " "); ("code", JNum 7)]) ]) ]).

(** The error of the test suite: a 401 with a message and a code. *)
Definition unauthorized_error : Thrown :=
  Raw (JObj
    [ ("isAxiosError", JBool true);
      ("response",
        JObj [ ("status", JNum 401);
               ("data", JObj [ ("message", JStr "Unauthorized");
                               ("code", JNum 666) ]) ]) ]).

(** A new session for the upscale tool, with a secret key to sign with. *)
Definition new_session : TaskI.TaskI :=
  TaskI.new (Toy.auth_with JUndefined (JStr "secretKey")) Toy.client
    (JStr "upscaleimage").

(** A session past [start], with no file. *)
Definition started_session : TaskI.TaskI :=
  TaskI.mkTaskI (Toy.auth_with JUndefined (JStr "secretKey")) Toy.client
    (JStr "upscaleimage") (JStr "assigned-task-id") (JNum 255) (JArr [])
    (Some (axios_create "https://assigned-server/v1" [Auth.content_type])).

(** A session ready for [process]: started, with one uploaded file, the
    latter put there by [_setUploadedFiles]. *)
Definition ready_session : TaskI.TaskI :=
  TaskI._setUploadedFiles
    (JArr [JObj [ ("server_filename", JStr "loremipsumdolorsitamet.jpg");
                  ("filename", JStr "lorem.jpg") ]])
    started_session.

(** A world whose replies lack the task id. *)
Definition taskless_world : World :=
  Toy.world 1700000000000
    (Toy.replying (JObj [("server", JStr "assigned-server");
                         ("remaining_files", JNum 255)])).

(** A world that assigns a server and a task. *)
Definition assigning_world : World :=
  Toy.world 1700000000000
    (Toy.replying (JObj [("server", JStr "assigned-server");
                         ("task", JStr "assigned-task-id");
                         ("remaining_files", JNum 255);
                         ("server_filename", JStr "stored.jpg")])).

(** The new session after a fulfilled [start]. *)
Definition after_start : TaskI.TaskI :=
  snd (fst (TaskI.start JUndefined new_session assigning_world)).

(** A no-break space, U+00A0, and the letter e with an acute accent,
    U+00E9, in UTF-8. *)
Definition nbsp : string :=
  String (ascii_of_nat 194) (String (ascii_of_nat 160) EmptyString).
Definition e_acute : string :=
  String (ascii_of_nat 195) (String (ascii_of_nat 169) EmptyString).

(** A transport error whose response has the given status and body. *)
Definition reply_error (status : Z) (data : JsValue) : Thrown :=
  Raw (JObj
    [ ("isAxiosError", JBool true);
      ("response", JObj [("status", JNum status); ("data", data)]) ]).

(** A file as the server reports it. *)
Definition stored_file : JsValue :=
  JObj [ ("server_filename", JStr "stored.jpg"); ("filename", JStr "a.jpg") ].

(** That session once the caller has put a file into the array that
    [getUploadedFiles] returned. *)
Definition written_session : TaskI.TaskI :=
  Session.caller_writes [stored_file] after_start.

(** Token managers: one without secret key whose token expired at second
    100, one with a secret key whose token lasts until second 2000, and one
    with a secret key and no token. *)
Definition expired_bearer : Auth.Auth := Toy.auth_with (JStr "100") (JStr "").
Definition live_bearer : Auth.Auth := Toy.auth_with (JStr "2000") (JStr "secretKey").
Definition signer : Auth.Auth := Toy.auth_with JUndefined (JStr "secretKey").

(** *** Vocabulary of the further properties *)

Section ParseFields.
Variables (v : JsValue) (fs : list (string * JsValue)).

(** The fields of an object schema parsed one after the other, as
    [parse] does for [ZObject]. *)
Fixpoint parse_fields (shape : list (string * Schema))
  : option (list (string * JsValue)) :=
  match shape with
  | [] => Some []
  | (k, s) :: rest =>
      match parse s (prop v k), parse_fields rest with
      | Some r, Some out =>
          if (has_key k fs || negb (is_undefined r))%bool
          then Some ((k, r) :: out)
          else Some out
      | _, _ => None
      end
  end.

End ParseFields.

(** The shape of an object schema. *)
Definition shape_of (sch : Schema) : list (string * Schema) :=
  match sch with ZObject shape => shape | _ => [] end.

(** The keys of an object schema. *)
Definition keys_of (sch : Schema) : list string := map fst (shape_of sch).

(** The world after one more request. *)
Definition sent (w : World) (r : HttpRequest) : World :=
  mkWorld (w_now w) (w_net w) (S (w_sent w)) (w_log w ++ [EvHttp r]).

(** What a method that awaits [response.data] makes of the outcome of its
    request. *)
Definition data_of (o : NetOutcome) : Completion JsValue :=
  match o with
  | Resolved response =>
      if nullish response
      then Throw (ErrorObj TypeError
                    ("Cannot read properties of " ++ to_string response
                     ++ " (reading 'data')") [])
      else Normal (prop response "data")
  | Rejected e => Throw (classifyError e)
  end.

(** The token manager [a'] differs from [a] in its cached token at most. *)
Definition same_keys (a a' : Auth.Auth) : Prop :=
  Auth.publicKey a' = Auth.publicKey a
  /\ Auth.secretKey a' = Auth.secretKey a
  /\ Auth.tokenOptions a' = Auth.tokenOptions a
  /\ Auth.axiosInstance a' = Auth.axiosInstance a.

(** The request of the remote issuance. *)
Definition auth_request (a : Auth.Auth) : HttpRequest :=
  mkRequest POST (Auth.axiosInstance a) "/auth"
    (JObj [("public_key", Auth.publicKey a)]).

(** Is the call a [start]? *)
Definition is_start (c : Session.Call) : bool :=
  match c with Session.CallStart _ => true | _ => false end.

(** Do the options of a call fail the schema of its method?  For [process]
    these are the generic options. *)
Definition options_refused (c : Session.Call) : bool :=
  let refused sch o := match parse sch o with Some _ => false | None => true end in
  match c with
  | Session.CallStart o =>
      refused Schema.TaskStartGenericOptions (default_arg o (JObj []))
  | Session.CallAddFile o => refused Schema.TaskAddFileGenericOptions o
  | Session.CallDeleteFile o => refused Schema.TaskRemoveFileGenericOptions o
  | Session.CallProcess o _ =>
      refused Schema.TaskProcessGenericOptions (default_arg o (JObj []))
  | Session.CallDownload o =>
      refused Schema.TaskDownloadGenericOptions (default_arg o (JObj []))
  | Session.CallDetails o =>
      refused Schema.TaskDetailsGenericOptions (default_arg o (JObj []))
  | Session.CallDelete o =>
      refused Schema.TaskDeleteGenericOptions (default_arg o (JObj []))
  end.

(** Is the call a [process]? *)
Definition is_process (c : Session.Call) : bool :=
  match c with Session.CallProcess _ _ => true | _ => false end.

(** The path of a request about a task: [`/${what}/${id}`], with
    [?debug=true] in debug mode. *)
Definition task_path (what : string) (id : JsValue) (debug : bool) : string :=
  "/" ++ what ++ "/" ++ to_string id ++ (if debug then "?debug=true" else "").

(** An own property of an object. *)
Definition own (v : JsValue) (k : string) : option JsValue :=
  match v with JObj fs => lookup k fs | _ => None end.

(** The keys that the tools' schemas can put in the body of [process]. *)
Definition tool_keys : list string :=
  ["to"; "gif_time"; "gif_loop"; "multiplier"; "elements"].

(** The names of the properties that every object inherits from
    [Object.prototype]; a lookup of one of them in an object literal does
    not give [undefined]. *)
Definition inherited_keys : list string :=
  ["constructor"; "hasOwnProperty"; "isPrototypeOf"; "propertyIsEnumerable";
   "toLocaleString"; "toString"; "valueOf"; "__proto__"; "__defineGetter__";
   "__defineSetter__"; "__lookupGetter__"; "__lookupSetter__"].

(** The names of the tools that [validateProcessToolOptions] knows. *)
Definition tool_names : list string :=
  ["convertimage"; "removebackgroundimage"; "upscaleimage"; "watermarkimage"].

(** The session once [start] holds the token [tok]: the token manager is
    [a'] and the fixed client carries the token. *)
Definition authorized (t : TaskI.TaskI) (a' : Auth.Auth) (tok : JsValue)
  : TaskI.TaskI :=
  TaskI.set_fixed_server
    (with_header "Authorization" ("Bearer " ++ to_string tok)
       (TaskI.fixed_server t))
    (TaskI.set_auth a' t).

(** The request of [start], once the token [tok] is in hand. *)
Definition start_request_of (t : TaskI.TaskI) (tok : JsValue) (debug : bool)
  : HttpRequest :=
  mkRequest GET
    (with_header "Authorization" ("Bearer " ++ to_string tok)
       (TaskI.fixed_server t))
    (task_path "start" (TaskI.tool t) debug) JUndefined.

(** The client of the server that a reply [data] assigns. *)
Definition assigned_client (data tok : JsValue) : AxiosInstance :=
  axios_create ("https://" ++ to_string (prop data "server") ++ "/v1")
    [ ("Content-Type", "application/json;charset=UTF-8");
      ("Authorization", "Bearer " ++ to_string tok) ].

(** The sessions that public calls lead to from the session [t0]. *)
Inductive follows {J : JsonWebToken} (t0 : TaskI.TaskI) : TaskI.TaskI -> Prop :=
| follows_here : follows t0 t0
| follows_call : forall t c w r t' w',
    follows t0 t -> Session.run c t w = (r, t', w') -> follows t0 t'.

(** The task state of a session is either unset as a whole or set as a
    whole, with an empty list of files. *)
Definition all_or_nothing (t : TaskI.TaskI) : Prop :=
  task_state t = (JUndefined, None, JUndefined, JUndefined)
  \/ (truthy (TaskI.task_id t) = true /\ TaskI.server t <> None
      /\ truthy (TaskI.remaining_files t) = true /\ TaskI.files t = JArr []).

(** The entry point once [listTasks] holds the token [tok]. *)
Definition api_authorized (i : ILoveIMGApi.ILoveIMGApi) (a' : Auth.Auth)
    (tok : JsValue) : ILoveIMGApi.ILoveIMGApi :=
  ILoveIMGApi.set_fixedServer
    (with_header "Authorization" ("Bearer " ++ to_string tok)
       (ILoveIMGApi.fixedServer i))
    (ILoveIMGApi.set_auth a' i).

(** The names of the task statuses. *)
Definition status_names : list string :=
  ["TaskWaiting"; "TaskProcessing"; "TaskSuccess"; "TaskSuccessWithWarnings";
   "TaskError"; "TaskDeleted"; "TaskNotFound"].

(** An entry point with both keys and no token yet. *)
Definition sample_api : ILoveIMGApi.ILoveIMGApi :=
  ILoveIMGApi.mkApi (JStr "publicKey") (JStr "secretKey") signer Toy.client.

(** The task handle once a method holds the token [tok]. *)
Definition task_authorized (t : Task.Task) (a' : Auth.Auth) (tok : JsValue)
  : Task.Task :=
  Task._setServer
    (with_header "Authorization" ("Bearer " ++ to_string tok) (Task.server t))
    (Task.set_auth a' t).

(** A non-empty string. *)
Definition filled_string (x : JsValue) : Prop :=
  exists s, x = JStr s /\ s <> "".

(** A handle on the task of the sample sessions. *)
Definition sample_task : Task.Task :=
  Task.mkTask signer (JStr "assigned-task-id")
    (axios_create "https://assigned-server/v1" [Auth.content_type]).

Section ParseEach.
Variable elem : Schema.

(** The elements of an array parsed one after the other, as [parse] does
    for [ZArrayMin]. *)
Fixpoint parse_each (l : list JsValue) : option (list JsValue) :=
  match l with
  | [] => Some []
  | x :: rest =>
      match parse elem x, parse_each rest with
      | Some y, Some ys => Some (y :: ys)
      | _, _ => None
      end
  end.

End ParseEach.

(** A number between [lo] and [hi]. *)
Definition number_within (lo hi : Z) (x : JsValue) : Prop :=
  exists n, x = JNum n /\ lo <= n <= hi.

(** What holds of every accepted watermark element. *)
Definition element_wellformed (e : JsValue) : Prop :=
  ((prop e "type" = JStr "text" /\ filled_string (prop e "text"))
   \/ (prop e "type" = JStr "image" /\ filled_string (prop e "image")))
  /\ number_within 0 360 (prop e "rotation")
  /\ number_within 1 100 (prop e "transparency")
  /\ (exists g, prop e "gravity" = JStr g)
  /\ (prop e "font_style" = JNull \/ prop e "font_style" = JStr "Bold"
      \/ prop e "font_style" = JStr "Italic")
  /\ (exists b, prop e "mosaic" = JBool b).

(** The formats that the conversion tool writes. *)
Definition convert_formats : list string :=
  ["jpg"; "png"; "gif"; "gif_animation"; "heic"].

(** *** Strings and numbers *)

(** [trim] removes the white space of the whole character set, and
    [length] counts UTF-16 code units. *)
Example white_space_and_length :
  trim_nonempty nbsp = false
  /\ trim_nonempty (String (ascii_of_nat 160) EmptyString) = false
  /\ trim_nonempty
       (String (ascii_of_nat 239)
          (String (ascii_of_nat 187) (String (ascii_of_nat 191) " ")))
     = false
  /\ trim_nonempty (nbsp ++ "a") = true
  /\ js_length e_acute = 1%nat
  /\ js_length "api.ilovepdf.com" = 16%nat
  /\ parse Schema.key_16_24_32
       (JStr (e_acute ++ e_acute ++ e_acute ++ e_acute ++ e_acute ++ e_acute
              ++ e_acute ++ e_acute))
     = None
  /\ parse Schema.key_16_24_32 (JStr (e_acute ++ "bcdefghijklmnop"))
     = Some (JStr (e_acute ++ "bcdefghijklmnop")).
Proof. vm_compute. repeat split. Qed.

(** Numbers print as a template literal prints them. *)
Example numbers_in_templates :
  to_string (JNum 401) = "401"
  /\ to_string (JNum (-1)) = "-1"
  /\ to_string (JNum (2 ^ 53 + 1)) = "9007199254740992"
  /\ to_string (JNum (2 ^ 64)) = "18446744073709552000"
  /\ to_string (JNum (10 ^ 21)) = "1e+21"
  /\ to_string (JNum (2 ^ 70)) = "1.1805916207174113e+21"
  /\ to_string (JNum (- 2 ^ 100)) = "-1.2676506002282294e+30".
Proof. vm_compute. repeat split. Qed.

(** *** Accessors of a session *)

Lemma or_undefined_spec (x : JsValue) :
  TaskI.or_undefined x = if truthy x then x else JUndefined.
Proof. reflexivity. Qed.

(** C10.  The accessors [getTool], [getTaskId], [getRemainingFiles],
    [getUploadedFiles] and [getServer] are total functions of the session
    (they cannot throw), and each answers [undefined] for every falsy stored
    value and the stored value otherwise; so a remaining-files count of [0],
    an empty task id and an empty tool name are all reported as [undefined],
    while an empty list of uploaded files, being truthy, is returned. *)
Theorem accessors_report_falsy_as_undefined (t : TaskI.TaskI) :
  TaskI.getTool t = (if truthy (TaskI.tool t) then TaskI.tool t else JUndefined)
  /\ TaskI.getTaskId t
     = (if truthy (TaskI.task_id t) then TaskI.task_id t else JUndefined)
  /\ TaskI.getRemainingFiles t
     = (if truthy (TaskI.remaining_files t) then TaskI.remaining_files t
        else JUndefined)
  /\ TaskI.getUploadedFiles t
     = (if truthy (TaskI.files t) then TaskI.files t else JUndefined)
  /\ TaskI.getServer t = TaskI.server t
  /\ TaskI.getRemainingFiles (TaskI._setRemainingFiles (JNum 0) t) = JUndefined
  /\ TaskI.getTaskId (TaskI._setTaskId (JStr "") t) = JUndefined
  /\ TaskI.getTool (TaskI._setTool (JStr "") t) = JUndefined
  /\ TaskI.getUploadedFiles (TaskI._setUploadedFiles (JArr []) t) = JArr []
  /\ TaskI.getServer (TaskI._setServer None t) = None.
Proof.
  unfold TaskI.getTool, TaskI.getTaskId, TaskI.getRemainingFiles,
    TaskI.getUploadedFiles, TaskI.getServer.
  rewrite !or_undefined_spec.
  repeat split.
Qed.

(** *** Construction of a detached task *)

(** C9, as the specification states it, fails: with an invalid public key
    and a missing task id the constructor reports the task id, because
    [Task] checks [taskId] and [taskServer] before it builds its [Auth]. *)
Lemma Task_checks_task_before_key :
  Task.new (JNum 99) (JStr "secretKey") JUndefined (JStr "myprovider.com")
    JUndefined
  = Throw (new_Error "taskId and taskServer are required and should be string.")
  /\ Task.new (JNum 99) (JStr "secretKey") JUndefined (JStr "myprovider.com")
       JUndefined
     <> Throw (new_Error "publicKey is required and must be a string.").
Proof. split; [reflexivity | discriminate]. Qed.

(** C9, amended.  A missing, empty or non-string [taskId] or [taskServer]
    makes the constructor fail with exactly "taskId and taskServer are
    required and should be string.", whatever the keys are: the check comes
    before the construction of the internal [Auth].  The public-key error
    of [Auth] is raised when [taskId] and [taskServer] are both non-empty
    strings and the public key is missing, empty or not a string. *)
Theorem Task_new_errors (publicKey secretKey taskId taskServer params : JsValue) :
  (bad_string taskId = true \/ bad_string taskServer = true ->
   Task.new publicKey secretKey taskId taskServer params
   = Throw (new_Error
              "taskId and taskServer are required and should be string."))
  /\ (bad_string taskId = false -> bad_string taskServer = false ->
      bad_string publicKey = true ->
      Task.new publicKey secretKey taskId taskServer params
      = Throw (new_Error "publicKey is required and must be a string.")).
Proof.
  unfold bad_string, Task.new. split.
  - intros [H | H].
    + destruct (truthy taskId), (truthy taskServer), (is_string taskId),
        (is_string taskServer); simpl in *;
        solve [reflexivity | discriminate].
    + destruct (truthy taskId), (truthy taskServer), (is_string taskId),
        (is_string taskServer); simpl in *;
        solve [reflexivity | discriminate].
  - intros Hi Hs Hk.
    destruct (truthy taskId), (truthy taskServer), (is_string taskId),
      (is_string taskServer); simpl in Hi, Hs; try discriminate.
    simpl. unfold Auth.new.
    destruct publicKey; simpl in *; try reflexivity; try discriminate.
    + destruct b; simpl in *; [reflexivity | reflexivity].
    + destruct (n =? 0); reflexivity.
    + destruct (String.eqb s ""); simpl in *; [reflexivity | discriminate].
Qed.

Lemma Task_new_errors_witness :
  Task.new (JStr "") JUndefined (JNum 22) (JStr "provider.com") JUndefined
  = Throw (new_Error "taskId and taskServer are required and should be string.")
  /\ Task.new (JStr "") JUndefined (JStr "sometaskid") (JStr "provider.com")
       JUndefined
     = Throw (new_Error "publicKey is required and must be a string.").
Proof.
  split.
  - apply (proj1 (Task_new_errors (JStr "") JUndefined (JNum 22)
                    (JStr "provider.com") JUndefined)).
    left. reflexivity.
  - apply (proj2 (Task_new_errors (JStr "") JUndefined (JStr "sometaskid")
                    (JStr "provider.com") JUndefined)); reflexivity.
Defined.

(** *** Classification of errors *)

Lemma prop_of_falsy (v : JsValue) (k : string) :
  truthy v = false -> prop v k = JUndefined.
Proof. destruct v; simpl; intros H; try reflexivity; discriminate. Qed.

Lemma js_or_falsy (c d : JsValue) : truthy c = false -> js_or c d = d.
Proof. unfold js_or. intros ->. reflexivity. Qed.

(** C2, as the specification states it, fails: a message that is a non-empty
    string of white space is not used, because [classifyError] tests
    [message.trim()]; the default message and code are used instead. *)
Lemma classifyError_skips_blank_message :
  field (classifyError blank_message_error) "message"
  = JStr "Unknown API error occurred. (Status: 400, Code: -1)"
  /\ Claimed.api_message blank_message_error = "  (Status: 400, Code: 7)"
  /\ field (classifyError blank_message_error) "message"
     <> JStr (Claimed.api_message blank_message_error).
Proof. repeat split. discriminate. Qed.

(** C2, amended.  [classifyError] has no normal exit and what it throws is
    determined by the shape of its argument.  For an axios error with a
    response it throws an [ILoveApiError] whose message is
    "{msg} (Status: {status}, Code: {code})", where [msg] is
    [response.data.message] if that is a string with a character other than
    white space, else [response.data.error.message] under the same test,
    else "Unknown API error occurred.", and [code] is the [code] next to the
    message used, replaced by [-1] when falsy (and [-1] with the default
    message).  For an axios error with a request and no response it throws
    [NetworkError] "No response received from the server."; with neither,
    [NetworkError] "An error occurred while setting up the request.".  Any
    other value is thrown again unchanged. *)
Theorem classifyError_outcomes (error : Thrown) :
  (isAxiosError error = false -> classifyError error = error)
  /\ (isAxiosError error = true -> truthy (field error "response") = false ->
      truthy (field error "request") = true ->
      classifyError error
      = new_NetworkError "No response received from the server." error)
  /\ (isAxiosError error = true -> truthy (field error "response") = false ->
      truthy (field error "request") = false ->
      classifyError error
      = new_NetworkError "An error occurred while setting up the request."
          error)
  /\ (isAxiosError error = true -> truthy (field error "response") = true ->
      let status := prop (field error "response") "status" in
      let data := js_or (prop (field error "response") "data") (JObj []) in
      exists msg code : JsValue,
        classifyError error
        = new_ILoveApiError
            (to_string msg ++ " (Status: " ++ to_string status ++ ", Code: "
             ++ to_string code ++ ")")
            status error
        /\ (usable_message (prop data "message") = true ->
            msg = prop data "message"
            /\ code = js_or (prop data "code") (JNum (-1)))
        /\ (usable_message (prop data "message") = false ->
            usable_message (prop (prop data "error") "message") = true ->
            msg = prop (prop data "error") "message"
            /\ code = js_or (prop (prop data "error") "code") (JNum (-1)))
        /\ (usable_message (prop data "message") = false ->
            usable_message (prop (prop data "error") "message") = false ->
            msg = JStr "Unknown API error occurred." /\ code = JNum (-1)))
  /\ (forall absent : JsValue,
        truthy absent = false -> js_or absent (JNum (-1)) = JNum (-1)).
Proof.
  unfold classifyError. split; [| split; [| split; [| split]]].
  - intros ->. reflexivity.
  - intros -> -> ->. reflexivity.
  - intros -> -> ->. reflexivity.
  - intros -> ->.
    set (data := js_or (prop (field error "response") "data") (JObj [])).
    unfold resolve_message, formattedMessage.
    destruct (usable_message (prop data "message")) eqn:Hm.
    + eexists _, _. split; [reflexivity|].
      repeat split; intros; congruence.
    + destruct (usable_message (prop (prop data "error") "message")) eqn:He.
      * assert (Ht : truthy (prop data "error") = true).
        { destruct (truthy (prop data "error")) eqn:Ht; [reflexivity|].
          rewrite (prop_of_falsy _ "message" Ht) in He. discriminate. }
        rewrite Ht. simpl.
        eexists _, _. split; [reflexivity|].
        repeat split; intros; congruence.
      * rewrite andb_false_r.
        eexists _, _. split; [reflexivity|].
        repeat split; intros; congruence.
  - intros absent H. apply js_or_falsy. exact H.
Qed.

Lemma classifyError_outcomes_witness :
  classifyError (new_Error "boom") = new_Error "boom"
  /\ classifyError (Raw (JObj [("isAxiosError", JBool true); ("request", JObj [])]))
     = new_NetworkError "No response received from the server."
         (Raw (JObj [("isAxiosError", JBool true); ("request", JObj [])]))
  /\ classifyError (Raw (JObj [("isAxiosError", JBool true)]))
     = new_NetworkError "An error occurred while setting up the request."
         (Raw (JObj [("isAxiosError", JBool true)]))
  /\ field (classifyError unauthorized_error) "message"
     = JStr "Unauthorized (Status: 401, Code: 666)"
  /\ js_or (JStr "") (JNum (-1)) = JNum (-1)
  /\ field (classifyError
              (reply_error 400 (JObj [("message", JStr nbsp); ("code", JNum 7)])))
       "message"
     = JStr "Unknown API error occurred. (Status: 400, Code: -1)"
  /\ field (classifyError
              (reply_error 500
                 (JObj [("message", JStr "Too many"); ("code", JNum (10 ^ 21))])))
       "message"
     = JStr "Too many (Status: 500, Code: 1e+21)".
Proof.
  split; [| split; [| split; [| split; [| split; [| split]]]]].
  - apply (proj1 (classifyError_outcomes (new_Error "boom"))). reflexivity.
  - apply (proj1 (proj2 (classifyError_outcomes
             (Raw (JObj [("isAxiosError", JBool true); ("request", JObj [])])))));
      reflexivity.
  - apply (proj1 (proj2 (proj2 (classifyError_outcomes
             (Raw (JObj [("isAxiosError", JBool true)]))))));
      reflexivity.
  - destruct (proj1 (proj2 (proj2 (proj2
               (classifyError_outcomes unauthorized_error))))
               eq_refl eq_refl) as (msg & code & Hc & Hm & _).
    destruct (Hm eq_refl) as [-> ->]. rewrite Hc. reflexivity.
  - apply (proj2 (proj2 (proj2 (proj2
             (classifyError_outcomes (new_Error "boom")))))).
    reflexivity.
  - destruct (proj1 (proj2 (proj2 (proj2
               (classifyError_outcomes
                  (reply_error 400
                     (JObj [("message", JStr nbsp); ("code", JNum 7)]))))))
               eq_refl eq_refl) as (msg & code & Hc & _ & _ & Hm).
    destruct (Hm eq_refl eq_refl) as [-> ->]. rewrite Hc. reflexivity.
  - destruct (proj1 (proj2 (proj2 (proj2
               (classifyError_outcomes
                  (reply_error 500
                     (JObj [("message", JStr "Too many");
                            ("code", JNum (10 ^ 21))]))))))
               eq_refl eq_refl) as (msg & code & Hc & Hm & _).
    destruct (Hm eq_refl) as [-> ->]. rewrite Hc.
    vm_compute. reflexivity.
Defined.

(** *** Methods that leave the fields of their object as they were *)

Section Frames.
Context {S : Type}.

Lemma frames_ret {A} (a : A) : frames (@ret S A a).
Proof. intros s w. reflexivity. Qed.

Lemma frames_throw {A} (e : Thrown) : frames (@throw S A e).
Proof. intros s w. reflexivity. Qed.

Lemma frames_gets {A} (f : S -> A) : frames (gets f).
Proof. intros s w. reflexivity. Qed.

Lemma frames_of_completion {A} (c : Completion A) : frames (@of_completion S A c).
Proof. intros s w. reflexivity. Qed.

Lemma frames_request (m : Method) (c : AxiosInstance) (p : string) (b : JsValue) :
  frames (@request S m c p b).
Proof.
  intros s w. unfold request.
  destruct (w_net w (w_sent w) _); reflexivity.
Qed.

Lemma frames_get (v : JsValue) (k : string) : frames (@get S v k).
Proof. intros s w. unfold get. destruct (nullish v); reflexivity. Qed.

Lemma frames_parseAsync (sch : Schema) (v : JsValue) :
  frames (@parseAsync S sch v).
Proof. intros s w. unfold parseAsync. destruct (parse sch v); reflexivity. Qed.

Lemma frames_validate (tool options : JsValue) :
  frames (@TaskUtils.validateProcessToolOptions S tool options).
Proof.
  intros s w. unfold TaskUtils.validateProcessToolOptions.
  destruct (TaskUtils.toolValidators _) as [validator|]; [|reflexivity].
  destruct (validator _); reflexivity.
Qed.

Lemma frames_bind {A B} (m : M S A) (k : A -> M S B) :
  frames m -> (forall a, frames (k a)) -> frames (bind m k).
Proof.
  intros Hm Hk s w. unfold bind.
  specialize (Hm s w).
  destruct (m s w) as [[[a | e] s'] w']; simpl in Hm; subst s'.
  - apply Hk.
  - reflexivity.
Qed.

Lemma frames_try_catch {A} (body : M S A) (handler : Thrown -> M S A) :
  frames body -> (forall e, frames (handler e)) -> frames (try_catch body handler).
Proof.
  intros Hb Hh s w. unfold try_catch.
  specialize (Hb s w).
  destruct (body s w) as [[[a | e] s'] w']; simpl in Hb; subst s'.
  - reflexivity.
  - apply Hh.
Qed.

Lemma frames_if {A} (b : bool) (m1 m2 : M S A) :
  frames m1 -> frames m2 -> frames (if b then m1 else m2).
Proof. destruct b; auto. Qed.

End Frames.

Create HintDb frames.
#[export] Hint Resolve frames_ret frames_throw frames_gets frames_of_completion
  frames_request frames_get frames_parseAsync frames_validate frames_bind
  frames_try_catch frames_if : frames.

Lemma frames_started {A} (k : AxiosInstance -> M TaskI.TaskI A) :
  (forall srv, frames (k srv)) -> frames (TaskI.started k).
Proof.
  intros Hk t w. unfold TaskI.started.
  destruct (TaskI.not_started t); [reflexivity|].
  destruct (TaskI.server t); [apply Hk | reflexivity].
Qed.

#[export] Hint Resolve frames_started : frames.

Lemma addFile_frames (options : JsValue) : frames (TaskI.addFile options).
Proof. unfold TaskI.addFile, TaskI.rethrow_classified. auto 20 with frames. Qed.

Lemma deleteFile_frames (options : JsValue) : frames (TaskI.deleteFile options).
Proof. unfold TaskI.deleteFile, TaskI.rethrow_classified. auto 20 with frames. Qed.

Lemma process_frames (options toolOptions : JsValue) :
  frames (TaskI.process options toolOptions).
Proof. unfold TaskI.process, TaskI.rethrow_classified. auto 30 with frames. Qed.

Lemma download_frames (options : JsValue) : frames (TaskI.download options).
Proof. unfold TaskI.download, TaskI.rethrow_classified. auto 20 with frames. Qed.

Lemma details_frames (options : JsValue) : frames (TaskI.details options).
Proof. unfold TaskI.details, TaskI.rethrow_classified. auto 20 with frames. Qed.

Lemma delete_frames (options : JsValue) : frames (TaskI.delete options).
Proof. unfold TaskI.delete, TaskI.rethrow_classified. auto 20 with frames. Qed.

(** *** The guards of a session *)

Lemma started_refuses {A} (k : AxiosInstance -> M TaskI.TaskI A)
    (t : TaskI.TaskI) (w : World) :
  truthy (TaskI.task_id t) = false \/ TaskI.server t = None ->
  TaskI.started k t w = (Throw (new_Error TaskI.need_start), t, w).
Proof.
  intros H. unfold TaskI.started, TaskI.not_started.
  destruct H as [-> | ->]; simpl.
  - reflexivity.
  - rewrite orb_true_r. reflexivity.
Qed.

Lemma started_passes {A} (k : AxiosInstance -> M TaskI.TaskI A)
    (t : TaskI.TaskI) (w : World) (srv : AxiosInstance) :
  truthy (TaskI.task_id t) = true -> TaskI.server t = Some srv ->
  TaskI.started k t w = k srv t w.
Proof.
  intros Hid Hs. unfold TaskI.started, TaskI.not_started.
  rewrite Hid, Hs. reflexivity.
Qed.

Lemma process_needs_files (t : TaskI.TaskI) (w : World)
    (options toolOptions : JsValue) :
  truthy (TaskI.task_id t) = true -> TaskI.server t <> None ->
  TaskI.files t = JUndefined \/ TaskI.files t = JArr [] ->
  TaskI.process options toolOptions t w
  = (Throw (new_Error TaskI.need_files), t, w).
Proof.
  intros Hid Hs Hf.
  destruct (TaskI.server t) as [srv|] eqn:Es; [clear Hs | congruence].
  unfold TaskI.process. rewrite (started_passes _ t w srv Hid Es).
  unfold bind, gets, TaskI.no_files.
  destruct Hf as [-> | ->]; reflexivity.
Qed.

(** *** Weakest preconditions for the method monad *)

Section Wp.
Context {S : Type}.

Lemma wp_elim {A} (m : M S A) Q s w r s' w' :
  wp m Q s w -> m s w = (r, s', w') -> Q r s' w'.
Proof. unfold wp. intros H E. rewrite E in H. exact H. Qed.

Lemma wp_ret {A} (a : A) Q (s : S) w : Q (Normal a) s w -> wp (ret a) Q s w.
Proof. exact (fun H => H). Qed.

Lemma wp_throw {A} (e : Thrown) (Q : Completion A -> S -> World -> Prop) s w :
  Q (Throw e) s w -> wp (throw e) Q s w.
Proof. exact (fun H => H). Qed.

Lemma wp_gets {A} (f : S -> A) Q s w : Q (Normal (f s)) s w -> wp (gets f) Q s w.
Proof. exact (fun H => H). Qed.

Lemma wp_modify (f : S -> S) Q s w : Q (Normal tt) (f s) w -> wp (modify f) Q s w.
Proof. exact (fun H => H). Qed.

Lemma wp_bind {A B} (m : M S A) (k : A -> M S B) Q s w :
  wp m (fun r s1 w1 =>
          match r with
          | Normal a => wp (k a) Q s1 w1
          | Throw e => Q (Throw e) s1 w1
          end) s w ->
  wp (bind m k) Q s w.
Proof.
  unfold wp, bind. destruct (m s w) as [[[a | e] s1] w1]; exact (fun H => H).
Qed.

Lemma wp_try_catch {A} (body : M S A) (handler : Thrown -> M S A) Q s w :
  wp body (fun r s1 w1 =>
             match r with
             | Normal a => Q (Normal a) s1 w1
             | Throw e => wp (handler e) Q s1 w1
             end) s w ->
  wp (try_catch body handler) Q s w.
Proof.
  unfold wp, try_catch. destruct (body s w) as [[[a | e] s1] w1]; exact (fun H => H).
Qed.

(** A request ends in a reply or a rejection, with the fields untouched. *)
Lemma wp_request (m : Method) (c : AxiosInstance) (p : string) (b : JsValue)
    (Q : Completion JsValue -> S -> World -> Prop) s w :
  (forall r w', Q r s w') -> wp (request m c p b) Q s w.
Proof.
  intros H. unfold wp, request. destruct (w_net w (w_sent w) _); apply H.
Qed.

Lemma wp_get (v : JsValue) (k : string)
    (Q : Completion JsValue -> S -> World -> Prop) s w :
  Q (Normal (prop v k)) s w -> (forall e, Q (Throw e) s w) ->
  wp (get v k) Q s w.
Proof.
  intros Hn Ht. unfold wp, get. destruct (nullish v); [apply Ht | apply Hn].
Qed.

Lemma wp_parseAsync (sch : Schema) (v : JsValue)
    (Q : Completion JsValue -> S -> World -> Prop) s w :
  (forall r, parse sch v = Some r -> Q (Normal r) s w) ->
  (forall e, Q (Throw e) s w) ->
  wp (parseAsync sch v) Q s w.
Proof.
  intros Hn Ht. unfold wp, parseAsync.
  destruct (parse sch v); [apply Hn; reflexivity | apply Ht].
Qed.

(** A method of a member object, of which nothing is known, changes at most
    the field that holds the member. *)
Lemma wp_on_field {T A} (proj : S -> T) (set : T -> S -> S) (m : M T A)
    (Q : Completion A -> S -> World -> Prop) s w :
  (forall r t' w', Q r (set t' s) w') -> wp (on_field proj set m) Q s w.
Proof.
  intros H. unfold wp, on_field.
  destruct (m (proj s) w) as [[r t'] w']. apply H.
Qed.

End Wp.

Ltac wp_step :=
  lazymatch goal with
  | |- wp (bind _ _) _ _ _ => apply wp_bind
  | |- wp (try_catch _ _) _ _ _ => apply wp_try_catch
  | |- wp (ret _) _ _ _ => apply wp_ret
  | |- wp (throw _) _ _ _ => apply wp_throw
  | |- wp (gets _) _ _ _ => apply wp_gets
  | |- wp (modify _) _ _ _ => apply wp_modify
  | |- wp (request _ _ _ _) _ _ _ => apply wp_request; intros [?|?] ?
  | |- wp (get _ _) _ _ _ => apply wp_get; [| intros ?]
  | |- wp (parseAsync _ _) _ _ _ => apply wp_parseAsync; [intros ? ? | intros ?]
  | |- wp (on_field _ _ _) _ _ _ => apply wp_on_field; intros [?|?] ? ?
  | |- wp (if ?b then _ else _) _ _ _ => destruct b eqn:?
  end; cbn [negb]; cbv beta iota.

(** *** What [start] does to the task state *)

Lemma parse_debug_only (options r : JsValue) :
  parse Schema.debug_only (default_arg options (JObj [])) = Some r ->
  prop r "debug" = prop options "debug".
Proof.
  destruct options as [ | | | | | | |fs]; simpl; try discriminate.
  - intros H. inversion H. reflexivity.
  - destruct (lookup "debug" fs) as [d|] eqn:E; unfold has_key; rewrite E.
    + destruct d; simpl; try discriminate; intros H; inversion H; reflexivity.
    + simpl. intros H. inversion H. reflexivity.
Qed.

(** [start] either leaves the task state alone, or, fulfilled and not in
    debug mode, sets a truthy task id, a server and an empty list of files. *)
Lemma start_outcomes {J : JsonWebToken} (options : JsValue) (t : TaskI.TaskI)
    (w : World) :
  wp (TaskI.start options)
    (fun r t' _ =>
       match r with
       | Throw _ => task_state t' = task_state t
       | Normal _ =>
           (truthy (prop options "debug") = true /\ task_state t' = task_state t)
           \/ (truthy (prop options "debug") = false
               /\ truthy (TaskI.task_id t') = true
               /\ TaskI.server t' <> None
               /\ TaskI.files t' = JArr [])
       end) t w.
Proof.
  unfold TaskI.start, TaskI.rethrow_classified.
  repeat wp_step; try reflexivity.
  - left. split; [| reflexivity].
    rewrite <- (parse_debug_only _ _ H). assumption.
  - right.
    match goal with
    | Hc : (_ || _)%bool = false |- _ =>
        apply orb_false_elim in Hc; destruct Hc as [Hrest _];
        apply orb_false_elim in Hrest; destruct Hrest as [_ Htask];
        apply negb_false_iff in Htask
    end.
    rewrite <- (parse_debug_only _ _ H).
    repeat split; [assumption | assumption | discriminate].
Qed.

Lemma frames_elim {S A} (m : M S A) (s : S) (w : World) r s' w' :
  frames m -> m s w = (r, s', w') -> s' = s.
Proof. intros F E. specialize (F s w). rewrite E in F. exact F. Qed.

(** A session on which no [start] was fulfilled has no task id and no
    server. *)
Lemma unstarted_unset {J : JsonWebToken} (t : TaskI.TaskI) :
  Session.unstarted t -> task_state t = (JUndefined, None, JUndefined, JUndefined).
Proof.
  induction 1 as [a fixed taskType | t c w r t' w' _ IH E Hc].
  - reflexivity.
  - destruct c as [o | o | o | o o' | o | o | o].
    + pose proof (wp_elim _ _ _ _ _ _ _ (start_outcomes o t w) E) as H.
      cbv beta iota in H.
      destruct r as [v | e].
      * exfalso. exact (Hc o v eq_refl eq_refl).
      * rewrite H. exact IH.
    + rewrite (frames_elim _ _ _ _ _ _ (addFile_frames o) E). exact IH.
    + rewrite (frames_elim _ _ _ _ _ _ (deleteFile_frames o) E). exact IH.
    + rewrite (frames_elim _ _ _ _ _ _ (process_frames o o') E). exact IH.
    + rewrite (frames_elim _ _ _ _ _ _ (download_frames o) E). exact IH.
    + rewrite (frames_elim _ _ _ _ _ _ (details_frames o) E). exact IH.
    + rewrite (frames_elim _ _ _ _ _ _ (delete_frames o) E). exact IH.
Qed.

(** C3.  On a session on which no [start] was ever fulfilled, and more
    generally on one whose task id or assigned server is unset, each of
    [addFile], [deleteFile], [process], [download], [details] and [delete]
    throws an [Error] with the message "You need to retrieve task id and
    assigned server first using start() method.", whatever the options are,
    and leaves the fields and the world untouched: nothing is validated and
    no request is sent.  On a session whose task id and server are set and
    whose list of uploaded files is unset or empty, [process] throws an
    [Error] with the message "You need to add files first using addFile()
    method.", again whatever the options are and without touching the fields
    or the world. *)
Theorem guards_precede_validation {J : JsonWebToken} (t : TaskI.TaskI)
    (w : World) (options toolOptions : JsValue) :
  (Session.unstarted t \/ truthy (TaskI.task_id t) = false
   \/ TaskI.server t = None ->
   let refused := (Throw (new_Error
     "You need to retrieve task id and assigned server first using start() method."),
     t, w) in
   TaskI.addFile options t w = refused
   /\ TaskI.deleteFile options t w = refused
   /\ TaskI.process options toolOptions t w = refused
   /\ TaskI.download options t w = refused
   /\ TaskI.details options t w = refused
   /\ TaskI.delete options t w = refused)
  /\ (truthy (TaskI.task_id t) = true -> TaskI.server t <> None ->
      TaskI.files t = JUndefined \/ TaskI.files t = JArr [] ->
      TaskI.process options toolOptions t w
      = (Throw (new_Error "You need to add files first using addFile() method."),
         t, w)).
Proof.
  split.
  - intros H refused. subst refused.
    assert (H' : truthy (TaskI.task_id t) = false \/ TaskI.server t = None).
    { destruct H as [H | H]; [| exact H].
      apply unstarted_unset in H. unfold task_state in H.
      injection H as _ Hs _ _. right. exact Hs. }
    unfold TaskI.addFile, TaskI.deleteFile, TaskI.process, TaskI.download,
      TaskI.details, TaskI.delete.
    repeat split; apply started_refuses; exact H'.
  - apply process_needs_files.
Qed.

(** A new session after a [start] that the network did not answer. *)
Lemma unanswered_is_unstarted :
  Session.unstarted
    (snd (fst (TaskI.start JUndefined new_session (Toy.world 0 Toy.offline)))).
Proof.
  apply (Session.unstarted_call new_session (Session.CallStart JUndefined)
           (Toy.world 0 Toy.offline)
           (fst (fst (TaskI.start JUndefined new_session
                        (Toy.world 0 Toy.offline))))
           _
           (snd (TaskI.start JUndefined new_session (Toy.world 0 Toy.offline)))).
  - apply Session.unstarted_new.
  - reflexivity.
  - intros o v _. discriminate.
Qed.

Lemma guards_precede_validation_witness :
  fst (fst (TaskI.addFile (JNum 1)
              (snd (fst (TaskI.start JUndefined new_session
                           (Toy.world 0 Toy.offline))))
              (Toy.world 0 Toy.offline)))
  = Throw (new_Error TaskI.need_start)
  /\ TaskI.delete JUndefined (TaskI._setTaskId (JStr "") started_session)
       (Toy.world 0 Toy.offline)
     = (Throw (new_Error TaskI.need_start),
        TaskI._setTaskId (JStr "") started_session, Toy.world 0 Toy.offline)
  /\ TaskI.process (JNum 1) JNull started_session (Toy.world 0 Toy.offline)
     = (Throw (new_Error TaskI.need_files), started_session,
        Toy.world 0 Toy.offline).
Proof.
  split; [| split].
  - rewrite (proj1 (proj1 (guards_precede_validation _
               (Toy.world 0 Toy.offline) (JNum 1) JUndefined)
               (or_introl unanswered_is_unstarted))).
    reflexivity.
  - apply (proj1 (guards_precede_validation
                    (TaskI._setTaskId (JStr "") started_session)
                    (Toy.world 0 Toy.offline) JUndefined JUndefined)).
    right. left. reflexivity.
  - apply (proj2 (guards_precede_validation started_session
                    (Toy.world 0 Toy.offline) (JNum 1) JNull)).
    + reflexivity.
    + discriminate.
    + right. reflexivity.
Defined.

Lemma start_rejects_incomplete {J : JsonWebToken} (options : JsValue)
    (t : TaskI.TaskI) (w : World) tok a' w1 response :
  truthy (prop options "debug") = false ->
  parse Schema.debug_only (default_arg options (JObj [])) <> None ->
  Auth.getToken (TaskI.auth t) w = (Normal tok, a', w1) ->
  w_net w1 (w_sent w1) (start_request t tok) = Resolved response ->
  nullish response = false ->
  incomplete (prop response "data") = true ->
  fst (fst (TaskI.start options t w))
  = Throw (new_Error "Invalid response: missing required fields").
Proof.
  intros Hd Hp Ht Hn Hr Hi.
  destruct (parse Schema.debug_only (default_arg options (JObj [])))
    as [v|] eqn:Ev; [clear Hp | congruence].
  pose proof (parse_debug_only _ _ Ev) as Hv.
  unfold TaskI.start, TaskI.rethrow_classified, parseAsync.
  unfold Schema.TaskStartGenericOptions. rewrite Ev.
  unfold bind at 1. unfold ret at 1.
  rewrite Hv, Hd. cbn [negb].
  unfold try_catch, bind, on_field. rewrite Ht.
  unfold modify, gets, request. cbn [TaskI.fixed_server TaskI.set_fixed_server
    TaskI.set_auth TaskI.tool].
  unfold start_request in Hn. rewrite Hn.
  unfold get. rewrite Hr. unfold ret at 1.
  unfold incomplete in Hi. rewrite Hi.
  reflexivity.
Qed.

(** C7.  A [start] that fails, for whatever reason, leaves [taskId], the
    assigned-server client, [remainingFiles] and [uploadedFiles] as they
    were; among the failures is the [Error] "Invalid response: missing
    required fields", raised by a non-debug [start] whose reply lacks a
    truthy [server], [task] or [remaining_files].  A failed [addFile] or
    [process] changes no field at all, so neither [uploadedFiles] nor
    [taskId]. *)
Theorem failed_calls_keep_state {J : JsonWebToken} (t : TaskI.TaskI) (w : World)
    (options toolOptions : JsValue) :
  (forall e t' w',
     TaskI.start options t w = (Throw e, t', w') ->
     TaskI.task_id t' = TaskI.task_id t
     /\ TaskI.server t' = TaskI.server t
     /\ TaskI.remaining_files t' = TaskI.remaining_files t
     /\ TaskI.files t' = TaskI.files t)
  /\ (forall tok a' w1 response,
        truthy (prop options "debug") = false ->
        parse Schema.debug_only (default_arg options (JObj [])) <> None ->
        Auth.getToken (TaskI.auth t) w = (Normal tok, a', w1) ->
        w_net w1 (w_sent w1) (start_request t tok) = Resolved response ->
        nullish response = false ->
        incomplete (prop response "data") = true ->
        fst (fst (TaskI.start options t w))
        = Throw (new_Error "Invalid response: missing required fields"))
  /\ (forall e t' w',
        TaskI.addFile options t w = (Throw e, t', w') -> t' = t)
  /\ (forall e t' w',
        TaskI.process options toolOptions t w = (Throw e, t', w') -> t' = t).
Proof.
  split; [| split; [| split]].
  - intros e t' w' E.
    pose proof (wp_elim _ _ _ _ _ _ _ (start_outcomes options t w) E) as H.
    cbv beta iota in H. unfold task_state in H. inversion H. auto.
  - intros. eapply start_rejects_incomplete; eassumption.
  - intros e t' w' E. exact (frames_elim _ _ _ _ _ _ (addFile_frames options) E).
  - intros e t' w' E.
    exact (frames_elim _ _ _ _ _ _ (process_frames options toolOptions) E).
Qed.

Lemma failed_calls_keep_state_witness :
  fst (fst (TaskI.start JUndefined new_session taskless_world))
  = Throw (new_Error "Invalid response: missing required fields")
  /\ TaskI.task_id (snd (fst (TaskI.start JUndefined new_session taskless_world)))
     = JUndefined
  /\ snd (fst (TaskI.addFile JUndefined started_session (Toy.world 0 Toy.offline)))
     = started_session
  /\ snd (fst (TaskI.process JUndefined JUndefined new_session
                 (Toy.world 0 Toy.offline)))
     = new_session.
Proof.
  split; [| split; [| split]].
  - eapply (proj1 (proj2 (failed_calls_keep_state new_session taskless_world
                            JUndefined JUndefined)));
      solve [reflexivity | discriminate].
  - destruct (TaskI.start JUndefined new_session taskless_world)
      as [[r t'] w'] eqn:E.
    assert (Hr : r = Throw (new_Error "Invalid response: missing required fields")).
    { change r with (fst (fst (r, t', w'))). rewrite <- E. reflexivity. }
    subst r.
    exact (proj1 (proj1 (failed_calls_keep_state new_session taskless_world
                           JUndefined JUndefined) _ _ _ E)).
  - destruct (TaskI.addFile JUndefined started_session (Toy.world 0 Toy.offline))
      as [[r t'] w'] eqn:E.
    assert (Hr : exists e, r = Throw e).
    { change r with (fst (fst (r, t', w'))). rewrite <- E. eexists. reflexivity. }
    destruct Hr as [e ->].
    exact (proj1 (proj2 (proj2 (failed_calls_keep_state started_session
             (Toy.world 0 Toy.offline) JUndefined JUndefined))) _ _ _ E).
  - destruct (TaskI.process JUndefined JUndefined new_session
                (Toy.world 0 Toy.offline)) as [[r t'] w'] eqn:E.
    assert (Hr : exists e, r = Throw e).
    { change r with (fst (fst (r, t', w'))). rewrite <- E. eexists. reflexivity. }
    destruct Hr as [e ->].
    exact (proj2 (proj2 (proj2 (failed_calls_keep_state new_session
             (Toy.world 0 Toy.offline) JUndefined JUndefined))) _ _ _ E).
Defined.

(** *** Uploaded files along the public methods *)

Lemma added_same (t t' : TaskI.TaskI) : Session.added t t' -> t' = t.
Proof.
  induction 1 as [t | t options w r t' w' t'' E _ IH].
  - reflexivity.
  - rewrite IH. exact (frames_elim _ _ _ _ _ _ (addFile_frames options) E).
Qed.

Lemma run_frames_but_start {J : JsonWebToken} (c : Session.Call) :
  (forall o, c <> Session.CallStart o) -> frames (Session.run c).
Proof.
  destruct c; intros H; simpl.
  - exfalso. exact (H options eq_refl).
  - apply addFile_frames.
  - apply deleteFile_frames.
  - apply process_frames.
  - apply download_frames.
  - apply details_frames.
  - apply delete_frames.
Qed.

(** Along public calls, without a write of the caller, the list of files is
    unset or empty. *)
Lemma reachable_files {J : JsonWebToken} (wrote : bool) (t : TaskI.TaskI) :
  Session.reachable wrote t -> wrote = false ->
  TaskI.files t = JUndefined \/ TaskI.files t = JArr [].
Proof.
  induction 1 as [a fixed taskType | wrote t c w r t' w' _ IH E
                 | wrote t items _ _]; intros Hw.
  - left. reflexivity.
  - specialize (IH Hw).
    destruct c as [o | o | o | o o' | o | o | o].
    + pose proof (wp_elim _ _ _ _ _ _ _ (start_outcomes o t w) E) as H.
      cbv beta iota in H. unfold task_state in H.
      destruct r as [v | e].
      * destruct H as [[_ H] | (_ & _ & _ & H)].
        -- injection H as _ _ _ Hf. rewrite Hf. exact IH.
        -- right. exact H.
      * injection H as _ _ _ Hf. rewrite Hf. exact IH.
    + rewrite (frames_elim _ _ _ _ _ _ (addFile_frames o) E). exact IH.
    + rewrite (frames_elim _ _ _ _ _ _ (deleteFile_frames o) E). exact IH.
    + rewrite (frames_elim _ _ _ _ _ _ (process_frames o o') E). exact IH.
    + rewrite (frames_elim _ _ _ _ _ _ (download_frames o) E). exact IH.
    + rewrite (frames_elim _ _ _ _ _ _ (details_frames o) E). exact IH.
    + rewrite (frames_elim _ _ _ _ _ _ (delete_frames o) E). exact IH.
  - discriminate Hw.
Qed.

Lemma process_without_files (t : TaskI.TaskI) (w : World)
    (options toolOptions : JsValue) :
  TaskI.files t = JUndefined \/ TaskI.files t = JArr [] ->
  exists message,
    TaskI.process options toolOptions t w = (Throw (new_Error message), t, w)
    /\ (message = TaskI.need_start \/ message = TaskI.need_files).
Proof.
  intros Hf. unfold TaskI.process, TaskI.started.
  destruct (TaskI.not_started t).
  - exists TaskI.need_start. split; [reflexivity | left; reflexivity].
  - destruct (TaskI.server t).
    + exists TaskI.need_files. split; [| right; reflexivity].
      unfold bind, gets, TaskI.no_files.
      destruct Hf as [-> | ->]; reflexivity.
    + exists TaskI.need_start. split; [reflexivity | left; reflexivity].
Qed.

(** No method puts an element into the list of files. *)
Lemma run_files {J : JsonWebToken} (c : Session.Call) (t : TaskI.TaskI)
    (w : World) :
  TaskI.files (snd (fst (Session.run c t w))) = TaskI.files t
  \/ TaskI.files (snd (fst (Session.run c t w))) = JArr [].
Proof.
  destruct c as [o | o | o | o o' | o | o | o]; cbn [Session.run].
  - destruct (TaskI.start o t w) as [[r t'] w'] eqn:E. cbn [fst snd].
    pose proof (wp_elim _ _ _ _ _ _ _ (start_outcomes o t w) E) as H.
    cbv beta iota in H. unfold task_state in H.
    destruct r as [v | e].
    + destruct H as [[_ H] | (_ & _ & _ & H)].
      * injection H as _ _ _ Hf. left. exact Hf.
      * right. exact H.
    + injection H as _ _ _ Hf. left. exact Hf.
  - left. rewrite (addFile_frames o t w). reflexivity.
  - left. rewrite (deleteFile_frames o t w). reflexivity.
  - left. rewrite (process_frames o o' t w). reflexivity.
  - left. rewrite (download_frames o t w). reflexivity.
  - left. rewrite (details_frames o t w). reflexivity.
  - left. rewrite (delete_frames o t w). reflexivity.
Qed.

Lemma after_start_reachable : Session.reachable false after_start.
Proof.
  apply (Session.reach_call false new_session (Session.CallStart JUndefined)
           assigning_world
           (fst (fst (TaskI.start JUndefined new_session assigning_world)))
           after_start
           (snd (TaskI.start JUndefined new_session assigning_world))).
  - apply Session.reach_new.
  - reflexivity.
Qed.

(** C1, as the specification states it, fails in its last part:
    [getUploadedFiles()] returns the private array itself, so after a
    fulfilled [start] a caller can put a file into the array it was handed,
    and [process] then passes its guard and sends its request, with neither
    [addFile] nor [_setUploadedFiles] involved. *)
Lemma caller_fills_returned_array :
  Session.reachable true written_session
  /\ TaskI.getUploadedFiles after_start = JArr []
  /\ TaskI.getUploadedFiles written_session = JArr [stored_file]
  /\ fst (fst (TaskI.process JUndefined (upscale_options (JNum 4))
                 written_session assigning_world))
     <> Throw (new_Error "You need to add files first using addFile() method.")
  /\ w_log (snd (TaskI.process JUndefined (upscale_options (JNum 4))
                   written_session assigning_world))
     = [EvHttp
          (mkRequest POST
             (axios_create "https://assigned-server/v1"
                [ ("Content-Type", "application/json;charset=UTF-8");
                  ("Authorization", "Bearer 1700003600") ])
             "/process"
             (JObj [ ("task", JStr "assigned-task-id");
                     ("tool", JStr "upscaleimage");
                     ("files", JArr [stored_file]);
                     ("ignore_errors", JBool true);
                     ("try_image_repair", JBool true);
                     ("multiplier", JNum 4) ]))].
Proof.
  split; [| split; [| split; [| split]]].
  - apply (Session.reach_write false after_start [stored_file]).
    exact after_start_reachable.
  - reflexivity.
  - reflexivity.
  - vm_compute. discriminate.
  - vm_compute. reflexivity.
Qed.

(** C1, amended.  [addFile] leaves every field of the session, so
    [uploadedFiles], as it was, whatever its exit.  After a fulfilled
    non-debug [start] followed by any number of fulfilled [addFile] calls,
    [getUploadedFiles] is still the empty list and [process] throws "You
    need to add files first using addFile() method.".  No method puts an
    element into the list: after a call the list is the one before it, or
    empty.  So on every session reached from a new one by the public
    methods, as long as the caller has not written into the array that
    [getUploadedFiles] hands out, [process] stops at one of its two guards
    and sends nothing.  Once the caller has made that array non-empty on a
    started session, the add-files guard is passed: the list is filled
    through [_setUploadedFiles] or through that array, never by
    [addFile]. *)
Theorem addFile_never_fills_files {J : JsonWebToken} :
  (forall options t w, snd (fst (TaskI.addFile options t w)) = t)
  /\ (forall options t w r t1 w1 t2,
        truthy (prop options "debug") = false ->
        TaskI.start options t w = (Normal r, t1, w1) ->
        Session.added t1 t2 ->
        TaskI.getUploadedFiles t2 = JArr []
        /\ forall o o' w2,
             TaskI.process o o' t2 w2
             = (Throw (new_Error
                  "You need to add files first using addFile() method."),
                t2, w2))
  /\ (forall c t w,
        TaskI.files (snd (fst (Session.run c t w))) = TaskI.files t
        \/ TaskI.files (snd (fst (Session.run c t w))) = JArr [])
  /\ (forall t o o' w,
        Session.reachable false t ->
        exists message,
          TaskI.process o o' t w = (Throw (new_Error message), t, w)
          /\ (message = TaskI.need_start \/ message = TaskI.need_files))
  /\ (forall t item items old,
        TaskI.files t = JArr old ->
        TaskI.files (Session.caller_writes (item :: items) t)
        = JArr (item :: items)
        /\ TaskI.no_files (Session.caller_writes (item :: items) t) = false
        /\ TaskI.not_started (Session.caller_writes (item :: items) t)
           = TaskI.not_started t).
Proof.
  split; [| split; [| split; [| split]]].
  - intros options t w. apply addFile_frames.
  - intros options t w r t1 w1 t2 Hd E Ha.
    apply added_same in Ha. subst t2.
    pose proof (wp_elim _ _ _ _ _ _ _ (start_outcomes options t w) E) as H.
    cbv beta iota in H.
    destruct H as [[Hd' _] | (_ & Hid & Hs & Hf)]; [congruence|].
    split.
    + unfold TaskI.getUploadedFiles. rewrite Hf. reflexivity.
    + intros o o' w2.
      apply process_needs_files; auto.
  - intros c t w. apply run_files.
  - intros t o o' w Hr.
    apply process_without_files.
    exact (reachable_files false t Hr eq_refl).
  - intros t item items old Hf.
    unfold Session.caller_writes, TaskI.getUploadedFiles, TaskI.or_undefined,
      js_or.
    rewrite Hf. cbn [truthy]. cbv beta iota.
    repeat split.
Qed.

Lemma addFile_never_fills_files_witness :
  TaskI.getUploadedFiles
    (snd (fst (TaskI.addFile (JObj [("cloud_file", JStr "https://i.imgur.com/a.jpeg")])
                 after_start assigning_world)))
  = JArr []
  /\ TaskI.process JUndefined
       (JObj [("upscaleimage", JObj [("multiplier", JNum 4)])])
       after_start assigning_world
     = (Throw (new_Error TaskI.need_files), after_start, assigning_world)
  /\ TaskI.no_files written_session = false.
Proof.
  unfold after_start.
  destruct (TaskI.start JUndefined new_session assigning_world)
    as [[r t1] w1] eqn:E.
  assert (Hr : exists v, r = Normal v).
  { change r with (fst (fst (r, t1, w1))). rewrite <- E. eexists. reflexivity. }
  destruct Hr as [v ->]. cbn [fst snd].
  destruct (proj1 (proj2 addFile_never_fills_files) JUndefined new_session
              assigning_world v t1 w1 t1 eq_refl E (Session.added_none _))
    as [H1 H2].
  split; [| split].
  - rewrite (proj1 addFile_never_fills_files). exact H1.
  - apply H2.
  - exact (proj1 (proj2 (proj2 (proj2 (proj2 (proj2 addFile_never_fills_files)))
                           after_start stored_file [] [] eq_refl))).
Defined.

(** *** Tool options of [process] *)

(** Past its guards and the validation of the generic options, [process]
    on an upscale session is decided by [toolOptions.upscaleimage]. *)
Lemma process_upscale (t : TaskI.TaskI) (w : World) (options toolOptions : JsValue)
    (srv : AxiosInstance) (g : JsValue) :
  TaskI.tool t = JStr "upscaleimage" ->
  truthy (TaskI.task_id t) = true ->
  TaskI.server t = Some srv ->
  TaskI.no_files t = false ->
  parse Schema.TaskProcessGenericOptions (default_arg options (JObj [])) = Some g ->
  TaskI.process options toolOptions t w
  = match parse Schema.TaskProcessUpscaleImageOptions
            (prop (default_arg toolOptions (JObj [])) "upscaleimage") with
    | None => (Throw (ErrorObj ZodError "Invalid input" []), t, w)
    | Some v =>
        TaskI.rethrow_classified
          (bind (request POST srv "/process"
                   (req_body (process_request t srv g v)))
                (fun response => get response "data")) t w
    end.
Proof.
  intros Htool Hid Hsrv Hfiles Hg.
  unfold TaskI.process. rewrite (started_passes _ t w srv Hid Hsrv).
  unfold bind at 1. unfold gets at 1. rewrite Hfiles.
  unfold bind at 1. unfold gets at 1.
  unfold bind at 1. unfold parseAsync. rewrite Hg. unfold ret at 1.
  unfold bind at 1. unfold gets at 1. rewrite Htool.
  unfold bind at 1. unfold TaskUtils.validateProcessToolOptions.
  change (TaskUtils.toolValidators (to_string (JStr "upscaleimage")))
    with (Some (parse Schema.TaskProcessUpscaleImageOptions)).
  cbv beta iota.
  assert (Hm : TaskUtils.optional_member (default_arg toolOptions (JObj []))
                 (JStr "upscaleimage")
               = prop (default_arg toolOptions (JObj [])) "upscaleimage").
  { unfold TaskUtils.optional_member.
    destruct (default_arg toolOptions (JObj [])); reflexivity. }
  rewrite Hm.
  destruct (parse Schema.TaskProcessUpscaleImageOptions _) as [v|].
  - unfold ret at 1. unfold TaskI.rethrow_classified, try_catch.
    unfold bind at 1. unfold gets at 1.
    unfold process_request. cbn [req_body]. rewrite Htool. reflexivity.
  - reflexivity.
Qed.

(** C8.  On an upscale session that is ready for [process], the tool
    options [{ multiplier: 4 }] are refused with a validation error and no
    request is sent, where the claim, the test suite and the documented
    type of [toolOptions] have them validated and sent:
    [validateProcessToolOptions] validates [toolOptions.upscaleimage], which
    is [undefined] there. *)
Lemma flat_multiplier_is_rejected :
  TaskI.process JUndefined (JObj [("multiplier", JNum 4)]) ready_session
    assigning_world
  = (Throw (ErrorObj ZodError "Invalid input" []), ready_session, assigning_world).
Proof. reflexivity. Qed.

(** What the code does with the tool options of an upscale session.  On
    an upscale session whose task id, server and non-empty list of files
    are set and whose generic options are valid, [process]
    validates [toolOptions.upscaleimage] and nothing else of [toolOptions]:
    two [toolOptions] with the same [upscaleimage] member give the same
    exit, whatever their other keys.  With [toolOptions = {}], with
    [{ multiplier: 5 }], with [{ upscaleimage: {} }] and with
    [{ upscaleimage: { multiplier: 5 } }] it throws a validation error and
    sends nothing; with [{ upscaleimage: { multiplier: 4 } }] the validation
    succeeds and the request [POST /process] is sent, its body carrying
    [multiplier: 4]. *)
Theorem process_validates_own_tool_member (t : TaskI.TaskI) (w : World)
    (options : JsValue) (srv : AxiosInstance) (g : JsValue) :
  TaskI.tool t = JStr "upscaleimage" ->
  truthy (TaskI.task_id t) = true ->
  TaskI.server t = Some srv ->
  TaskI.no_files t = false ->
  parse Schema.TaskProcessGenericOptions (default_arg options (JObj [])) = Some g ->
  let invalid := (Throw (ErrorObj ZodError "Invalid input" []), t, w) in
  (forall o1 o2,
     prop (default_arg o1 (JObj [])) "upscaleimage"
     = prop (default_arg o2 (JObj [])) "upscaleimage" ->
     TaskI.process options o1 t w = TaskI.process options o2 t w)
  /\ TaskI.process options (JObj []) t w = invalid
  /\ TaskI.process options (JObj [("multiplier", JNum 5)]) t w = invalid
  /\ TaskI.process options (JObj [("upscaleimage", JObj [])]) t w = invalid
  /\ TaskI.process options (upscale_options (JNum 5)) t w = invalid
  /\ w_log (snd (TaskI.process options (upscale_options (JNum 4)) t w))
     = (w_log w
        ++ [EvHttp (process_request t srv g (JObj [("multiplier", JNum 4)]))])%list.
Proof.
  intros Htool Hid Hsrv Hfiles Hg invalid. subst invalid.
  pose proof (fun o => process_upscale t w options o srv g Htool Hid Hsrv Hfiles Hg)
    as P.
  split; [| split; [| split; [| split; [| split]]]].
  - intros o1 o2 H. rewrite !P, H. reflexivity.
  - rewrite P. reflexivity.
  - rewrite P. reflexivity.
  - rewrite P. reflexivity.
  - rewrite P. reflexivity.
  - rewrite P.
    change (parse Schema.TaskProcessUpscaleImageOptions
              (prop (default_arg (upscale_options (JNum 4)) (JObj []))
                 "upscaleimage"))
      with (Some (JObj [("multiplier", JNum 4)])).
    cbv beta iota.
    unfold TaskI.rethrow_classified, try_catch, bind, request.
    cbn [req_body].
    change (mkRequest POST srv "/process"
              (JObj (spread
                 (spread [ ("task", TaskI.task_id t); ("tool", TaskI.tool t);
                           ("files", TaskI.files t) ] g)
                 (JObj [("multiplier", JNum 4)]))))
      with (process_request t srv g (JObj [("multiplier", JNum 4)])).
    destruct (w_net w (w_sent w) _) as [response | e].
    + unfold get. destruct (nullish response); reflexivity.
    + reflexivity.
Qed.

Lemma process_validates_own_tool_member_witness :
  TaskI.process JUndefined
    (JObj [ ("convertimage", JObj [("to", JStr "mp3")]);
            ("upscaleimage", JObj [("multiplier", JNum 5)]) ])
    ready_session assigning_world
  = (Throw (ErrorObj ZodError "Invalid input" []), ready_session, assigning_world)
  /\ w_log (snd (TaskI.process JUndefined (upscale_options (JNum 4))
                   ready_session assigning_world))
     = [EvHttp
          (mkRequest POST
             (axios_create "https://assigned-server/v1" [Auth.content_type])
             "/process"
             (JObj [ ("task", JStr "assigned-task-id");
                     ("tool", JStr "upscaleimage");
                     ("files",
                       JArr [JObj [ ("server_filename",
                                      JStr "loremipsumdolorsitamet.jpg");
                                    ("filename", JStr "lorem.jpg") ]]);
                     ("ignore_errors", JBool true);
                     ("try_image_repair", JBool true);
                     ("multiplier", JNum 4) ]))].
Proof.
  pose proof (process_validates_own_tool_member ready_session assigning_world
                JUndefined
                (axios_create "https://assigned-server/v1" [Auth.content_type])
                (JObj [("ignore_errors", JBool true);
                       ("try_image_repair", JBool true)])
                eq_refl eq_refl eq_refl eq_refl eq_refl) as H.
  cbv zeta in H. destruct H as (Hsame & _ & _ & _ & Hfive & Hfour).
  split.
  - rewrite <- Hfive. apply Hsame. reflexivity.
  - rewrite Hfour. reflexivity.
Defined.

(** *** The cached token *)

Section Tokens.
Context {J : JsonWebToken}.

Lemma extends_nil (w : World) : extends w w [].
Proof. unfold extends. rewrite app_nil_r. auto. Qed.

Lemma extends_emit (w : World) (e : Event) :
  extends w (mkWorld (w_now w) (w_net w) (w_sent w) (w_log w ++ [e])) [e].
Proof. unfold extends. simpl. auto. Qed.

Lemma verifyToken_absent (a : Auth.Auth) (w : World) :
  truthy (Auth.token a) = false ->
  Auth.verifyToken a w = (Normal (Auth.token a), a, w).
Proof.
  intros H. unfold Auth.verifyToken, bind, gets. rewrite H. reflexivity.
Qed.

Lemma verifyToken_cached (a : Auth.Auth) (w : World) :
  truthy (Auth.token a) = true ->
  exists w', extends w w' (verify_events a)
    /\ Auth.verifyToken a w
       = if verifies a (w_now w)
         then (jwt_decode (Auth.token a), a, w')
         else (Normal JUndefined, Auth.set_token JUndefined a, w').
Proof.
  intros H. unfold Auth.verifyToken, verifies, verify_events.
  unfold bind at 1. unfold gets at 1. rewrite H.
  unfold try_catch, bind, of_completion, gets, emit, Date_now, modify, get,
    throw, ret.
  destruct (jwt_decode (Auth.token a)) as [decoded | e].
  - destruct (truthy (Auth.secretKey a)).
    + cbn [w_now].
      destruct (jwt_verify (w_now w) (Auth.token a) (Auth.secretKey a));
        eexists; (split; [apply extends_emit | reflexivity]).
    + destruct (nullish decoded); cbn [negb andb].
      * exists w. split; [apply extends_nil | reflexivity].
      * destruct (gt_number _ _); cbn [negb];
          exists w; (split; [apply extends_nil | reflexivity]).
  - exists w. split; [apply extends_nil | reflexivity].
Qed.

Lemma gt_number_int (a e : Z) : gt_number a (to_number (JNum e)) = (e <? a).
Proof.
  unfold to_number, gt_number. cbn [Z.leb Z.compare Z.opp Z.pow Z.pow_pos].
  change (2 ^ 0) with 1. rewrite Z.mul_1_r. reflexivity.
Qed.

(** A decoded payload with a numeric [exp] that is not before the clock in
    whole seconds passes the check made without secret key. *)
Lemma numeric_exp_verifies (a : Auth.Auth) (now : Z) (claims : JsValue) (e : Z) :
  jwt_decode (Auth.token a) = Normal claims ->
  truthy (Auth.secretKey a) = false ->
  prop claims "exp" = JNum e ->
  verifies a now = negb (e <? now / 1000).
Proof.
  intros Hd Hs He. unfold verifies. rewrite Hd, Hs, He, gt_number_int.
  destruct claims; try discriminate He. reflexivity.
Qed.

(** C5.  [verifyToken] sends nothing and, whatever [jsonwebtoken] does,
    ends normally.  With no cached token it returns the (falsy) cache and
    changes nothing.  With a cached token and no secret key, where [now] is
    the clock in whole seconds, [Math.floor(Date.now() / 1000)]: a decoded
    [exp] that is a number earlier than [now] clears the cache and gives
    [undefined]; one that is not earlier than [now] gives the decoded claims
    and leaves the fields, and so does a payload without [exp]; in general
    the token counts as expired exactly when [now > Number(exp)], and a
    payload that is [null] clears the cache.
    With a secret key: a [jsonwebtoken.verify] that throws clears the cache
    and gives [undefined]; one that returns gives the decoded claims and
    leaves the fields.  A token that does not decode is cleared.  So
    afterwards the cached token is absent or the one before, which then
    passed. *)
Theorem verifyToken_clears_invalid (a : Auth.Auth) (w : World) :
  let r := fst (fst (Auth.verifyToken a w)) in
  let a' := snd (fst (Auth.verifyToken a w)) in
  let now := w_now w / 1000 in
  let cleared := r = Normal JUndefined /\ a' = Auth.set_token JUndefined a in
  w_sent (snd (Auth.verifyToken a w)) = w_sent w
  /\ (truthy (Auth.token a) = false -> r = Normal (Auth.token a) /\ a' = a)
  /\ (truthy (Auth.token a) = true -> truthy (Auth.secretKey a) = false ->
      forall claims, jwt_decode (Auth.token a) = Normal claims ->
        (forall e, prop claims "exp" = JNum e -> e < now -> cleared)
        /\ (forall e, prop claims "exp" = JNum e -> now <= e ->
              r = Normal claims /\ a' = a)
        /\ (nullish claims = false -> prop claims "exp" = JUndefined ->
            r = Normal claims /\ a' = a)
        /\ (nullish claims = false ->
            gt_number now (to_number (prop claims "exp")) = true -> cleared)
        /\ (nullish claims = false ->
            gt_number now (to_number (prop claims "exp")) = false ->
            r = Normal claims /\ a' = a)
        /\ (nullish claims = true -> cleared))
  /\ (truthy (Auth.token a) = true -> truthy (Auth.secretKey a) = true ->
      forall claims, jwt_decode (Auth.token a) = Normal claims ->
        (forall e,
           jwt_verify (w_now w) (Auth.token a) (Auth.secretKey a) = Throw e ->
           cleared)
        /\ (forall v,
              jwt_verify (w_now w) (Auth.token a) (Auth.secretKey a) = Normal v ->
              r = Normal claims /\ a' = a))
  /\ (truthy (Auth.token a) = true ->
      forall e, jwt_decode (Auth.token a) = Throw e -> cleared)
  /\ (Auth.token a' = JUndefined \/ truthy (Auth.token a') = false
      \/ (a' = a /\ verifies a (w_now w) = true)).
Proof.
  intros r a' now cleared. subst r a' now cleared.
  destruct (truthy (Auth.token a)) eqn:Ht.
  - destruct (verifyToken_cached a w Ht) as (w' & Hext & E).
    rewrite E. clear E.
    split; [destruct Hext as (_ & _ & Hsent & _);
            destruct (verifies a (w_now w)); exact Hsent |].
    split; [discriminate |].
    split; [| split; [| split]].
    + intros _ Hs claims Hd.
      assert (Hgen : forall b,
                nullish claims = false ->
                gt_number (w_now w / 1000) (to_number (prop claims "exp")) = b ->
                verifies a (w_now w) = negb b).
      { intros b Hn Hg. unfold verifies. rewrite Hd, Hs, Hn, Hg. reflexivity. }
      split; [| split; [| split; [| split; [| split]]]].
      * intros e He Hlt.
        rewrite (numeric_exp_verifies a (w_now w) claims e Hd Hs He).
        apply Z.ltb_lt in Hlt. rewrite Hlt. cbn [negb fst snd]. auto.
      * intros e He Hle.
        rewrite (numeric_exp_verifies a (w_now w) claims e Hd Hs He).
        apply Z.ltb_ge in Hle. rewrite Hle, Hd. cbn [negb fst snd]. auto.
      * intros Hn Hu.
        assert (Hg : gt_number (w_now w / 1000) (to_number (prop claims "exp"))
                     = false) by (rewrite Hu; reflexivity).
        rewrite (Hgen false Hn Hg), Hd. cbn [negb fst snd]. auto.
      * intros Hn Hg. rewrite (Hgen true Hn Hg). cbn [negb fst snd]. auto.
      * intros Hn Hg. rewrite (Hgen false Hn Hg), Hd. cbn [negb fst snd]. auto.
      * intros Hn.
        assert (Hv : verifies a (w_now w) = false).
        { unfold verifies. rewrite Hd, Hs, Hn. reflexivity. }
        rewrite Hv. cbn [fst snd]. auto.
    + intros _ Hs claims Hd. split.
      * intros e Hv.
        assert (Hno : verifies a (w_now w) = false).
        { unfold verifies. rewrite Hd, Hs, Hv. reflexivity. }
        rewrite Hno. cbn [fst snd]. auto.
      * intros v Hv.
        assert (Hyes : verifies a (w_now w) = true).
        { unfold verifies. rewrite Hd, Hs, Hv. reflexivity. }
        rewrite Hyes, Hd. cbn [fst snd]. auto.
    + intros _ e Hd.
      assert (Hno : verifies a (w_now w) = false).
      { unfold verifies. rewrite Hd. reflexivity. }
      rewrite Hno. cbn [fst snd]. auto.
    + destruct (verifies a (w_now w)); cbn [fst snd]; auto.
  - rewrite (verifyToken_absent a w Ht). cbn [fst snd].
    split; [reflexivity |].
    split; [auto |].
    split; [discriminate |]. split; [discriminate |].
    split; [discriminate |]. auto.
Qed.

Lemma getToken_live (a : Auth.Auth) (w : World) :
  truthy (Auth.token a) = true -> verifies a (w_now w) = true ->
  exists w', extends w w' (verify_events a)
    /\ Auth.getToken a w = (Normal (Auth.token a), a, w').
Proof.
  intros Ht Hv.
  destruct (verifyToken_cached a w Ht) as (w' & Hext & E).
  rewrite Hv in E.
  exists w'. split; [exact Hext|].
  unfold Auth.getToken. unfold bind at 1. rewrite E.
  unfold verifies in Hv.
  destruct (jwt_decode (Auth.token a)); [| discriminate].
  unfold bind, gets. rewrite Ht. reflexivity.
Qed.

(** C4.  A cached token is within its lifetime at a call when it decodes
    and either a secret key is set and [jsonwebtoken.verify] accepts the
    token at the time of the call, or no secret key is set and the decoded
    [exp] is a number not earlier than the clock of the call in whole
    seconds, or there is no [exp] at all in the decoded object, which then
    never expires.  When that holds at each of two successive [getToken] calls,
    both return the cached token; the second leaves the fields as they were,
    sends no request, signs nothing, and records nothing but the one call
    to [jsonwebtoken.verify] that a secret key entails. *)
Theorem getToken_cached_fast_path (a : Auth.Auth) (w1 w2 : World)
    (claims : JsValue) :
  truthy (Auth.token a) = true ->
  jwt_decode (Auth.token a) = Normal claims ->
  (truthy (Auth.secretKey a) = true
   /\ (exists v1,
         jwt_verify (w_now w1) (Auth.token a) (Auth.secretKey a) = Normal v1)
   /\ (exists v2,
         jwt_verify (w_now w2) (Auth.token a) (Auth.secretKey a) = Normal v2))
  \/ (truthy (Auth.secretKey a) = false
      /\ exists e, prop claims "exp" = JNum e
           /\ w_now w1 / 1000 <= e /\ w_now w2 / 1000 <= e)
  \/ (truthy (Auth.secretKey a) = false
      /\ nullish claims = false /\ prop claims "exp" = JUndefined) ->
  let first := Auth.getToken a w1 in
  let second := Auth.getToken (snd (fst first)) w2 in
  fst (fst first) = Normal (Auth.token a)
  /\ fst (fst second) = Normal (Auth.token a)
  /\ snd (fst second) = a
  /\ w_sent (snd second) = w_sent w2
  /\ w_now (snd second) = w_now w2
  /\ w_net (snd second) = w_net w2
  /\ w_log (snd second)
     = (w_log w2
        ++ (if truthy (Auth.secretKey a)
            then [EvVerify (Auth.token a) (Auth.secretKey a)] else []))%list.
Proof.
  intros Ht Hd Hlife first second. subst first second.
  assert (Hv : verifies a (w_now w1) = true /\ verifies a (w_now w2) = true).
  { destruct Hlife as [(Hs & [v1 H1] & [v2 H2])
                      | [(Hs & e & He & L1 & L2) | (Hs & Hn & Hu)]].
    - unfold verifies. rewrite Hd, Hs, H1, H2. auto.
    - rewrite !(numeric_exp_verifies a _ claims e Hd Hs He).
      apply Z.ltb_ge in L1, L2. rewrite L1, L2. auto.
    - unfold verifies. rewrite Hd, Hs, Hn, Hu. auto. }
  destruct Hv as [Hv1 Hv2].
  destruct (getToken_live a w1 Ht Hv1) as (w1' & _ & E1).
  rewrite E1. cbn [fst snd].
  destruct (getToken_live a w2 Ht Hv2) as (w2' & Hext & E2).
  rewrite E2. cbn [fst snd].
  destruct Hext as (Hnow & Hnet & Hsent & Hlog).
  repeat split; try assumption.
  rewrite Hlog. unfold verify_events. rewrite Ht, Hd. reflexivity.
Qed.

Lemma getToken_local_run (a : Auth.Auth) (w : World) :
  truthy (Auth.secretKey a) = true ->
  truthy (Auth.token a) = false \/ verifies a (w_now w) = false ->
  let payload := Auth.local_payload a (Auth.seconds (w_now w)) in
  exists a1 w',
    extends w w' (verify_events a ++ [EvSign payload (Auth.secretKey a)])
    /\ Auth.getToken a w
       = match jwt_sign payload (Auth.secretKey a) with
         | Normal signed => (Normal signed, Auth.set_token signed a, w')
         | Throw e => (Throw e, a1, w')
         end.
Proof.
  intros Hs Hno payload.
  assert (Hrun : exists a1 w1,
             extends w w1 (verify_events a)
             /\ (a1 = a \/ a1 = Auth.set_token JUndefined a)
             /\ truthy (Auth.token a1) = false
             /\ exists r, Auth.verifyToken a w = (Normal r, a1, w1)).
  { destruct (truthy (Auth.token a)) eqn:Ht.
    - destruct Hno as [Hno | Hno]; [discriminate|].
      destruct (verifyToken_cached a w Ht) as (w1 & Hext & E).
      rewrite Hno in E.
      exists (Auth.set_token JUndefined a), w1.
      repeat split; try assumption; try apply Hext; auto.
      eexists. exact E.
    - exists a, w. pose proof (extends_nil w) as Hext.
      unfold verify_events. rewrite Ht.
      repeat split; try assumption; try apply Hext; auto.
      eexists. apply verifyToken_absent. exact Ht. }
  destruct Hrun as (a1 & w1 & Hext & Ha1 & Ht1 & r & E).
  destruct Hext as (Hnow & Hnet & Hsent & Hlog).
  assert (Hsk : Auth.secretKey a1 = Auth.secretKey a)
    by (destruct Ha1 as [-> | ->]; reflexivity).
  assert (Hpay : Auth.local_payload a1 (Auth.seconds (w_now w1)) = payload)
    by (rewrite Hnow; destruct Ha1 as [-> | ->]; reflexivity).
  assert (Hset : forall s, Auth.set_token s (Auth.set_token s a1)
                           = Auth.set_token s a)
    by (intros s; destruct Ha1 as [-> | ->]; reflexivity).
  exists a1,
    (mkWorld (w_now w1) (w_net w1) (w_sent w1)
       (w_log w1 ++ [EvSign payload (Auth.secretKey a)])).
  split.
  - unfold extends. cbn [w_now w_net w_sent w_log].
    rewrite Hlog, <- app_assoc. auto.
  - unfold Auth.getToken. unfold bind at 1. rewrite E.
    unfold bind at 1. unfold gets at 1. rewrite Ht1.
    unfold bind at 1. unfold gets at 1. rewrite Hsk, Hs.
    unfold bind at 1. unfold Auth.getTokenLocally.
    unfold bind at 1. unfold Date_now at 1.
    unfold bind at 1. unfold gets at 1. rewrite Hpay.
    unfold bind at 1. unfold gets at 1. rewrite Hsk.
    unfold bind at 1. unfold emit at 1.
    unfold bind at 1. unfold of_completion at 1.
    destruct (jwt_sign payload (Auth.secretKey a)) as [signed | e].
    + unfold bind, modify, gets. cbn [Auth.token Auth.set_token].
      rewrite <- (Hset signed). reflexivity.
    + reflexivity.
Qed.

(** C6.  With a secret key and no valid cached token, [getToken] returns
    what [jsonwebtoken.sign] makes, with the secret key, of the claims
    [iss]: the configured issuer, [iat] and [nbf]: now - 30, [exp]: now +
    the configured age, [jti]: the public key, [file_encryption_key]: the
    configured key ([undefined], hence left out of the token, when none is
    configured), where now is the clock in whole seconds.  It caches the
    token, sends no request, and records one signing. *)
Theorem getToken_signs_locally (a : Auth.Auth) (w : World) (iss : JsValue)
    (age : Z) :
  truthy (Auth.secretKey a) = true ->
  truthy (Auth.token a) = false \/ verifies a (w_now w) = false ->
  prop (Auth.tokenOptions a) "iss" = iss ->
  prop (Auth.tokenOptions a) "age" = JNum age ->
  let now := w_now w / 1000 in
  let payload :=
    JObj [ ("iss", iss);
           ("iat", JNum (now - 30));
           ("nbf", JNum (now - 30));
           ("exp", JNum (now + age));
           ("jti", Auth.publicKey a);
           ("file_encryption_key",
             prop (Auth.tokenOptions a) "file_encryption_key") ] in
  fst (fst (Auth.getToken a w)) = jwt_sign payload (Auth.secretKey a)
  /\ (forall signed, jwt_sign payload (Auth.secretKey a) = Normal signed ->
        snd (fst (Auth.getToken a w)) = Auth.set_token signed a)
  /\ w_sent (snd (Auth.getToken a w)) = w_sent w
  /\ w_log (snd (Auth.getToken a w))
     = (w_log w ++ verify_events a ++ [EvSign payload (Auth.secretKey a)])%list.
Proof.
  intros Hs Hno Hiss Hage now payload.
  assert (Hp : Auth.local_payload a (Auth.seconds (w_now w)) = payload).
  { unfold Auth.local_payload, payload, now, Auth.seconds, Auth.TIME_DELAY.
    rewrite Hiss, Hage. reflexivity. }
  destruct (getToken_local_run a w Hs Hno) as (a1 & w' & Hext & E).
  cbv zeta in Hext, E. rewrite Hp in Hext, E.
  destruct Hext as (_ & _ & Hsent & Hlog).
  rewrite E.
  destruct (jwt_sign payload (Auth.secretKey a)) as [signed | e];
    cbn [fst snd]; repeat split; try assumption.
  - intros s Hsigned. inversion Hsigned. reflexivity.
  - intros s Hsigned. discriminate.
Qed.

End Tokens.

(** *** Concrete runs of the token manager *)

(** The constructor, with its defaults. *)
Example Auth_new_defaults :
  Auth.new (JStr "publicKey") (JStr "secretKey") JUndefined
  = Normal (Toy.auth_with JUndefined (JStr "secretKey")).
Proof. reflexivity. Qed.

(** The options kept by the constructor hold a string issuer and a numeric
    age: the ones given, or "api.ilovepdf.com" and 3600. *)
Lemma Auth_new_tokenOptions (publicKey secretKey params : JsValue) (a : Auth.Auth) :
  Auth.new publicKey secretKey params = Normal a ->
  (exists iss, prop (Auth.tokenOptions a) "iss" = JStr iss)
  /\ (exists age, prop (Auth.tokenOptions a) "age" = JNum age)
  /\ Auth.token a = JUndefined
  /\ Auth.publicKey a = publicKey.
Proof.
  unfold Auth.new.
  destruct (negb (truthy publicKey) || negb (is_string publicKey))%bool;
    [discriminate|].
  destruct (truthy (default_arg secretKey (JStr ""))
            && negb (is_string (default_arg secretKey (JStr ""))))%bool;
    [discriminate|].
  destruct (parse Schema.SelfSignedTokenOptions (default_arg params (JObj [])))
    as [opts|] eqn:E; [| discriminate].
  intros H. inversion H. subst a. clear H. cbn [Auth.tokenOptions Auth.token Auth.publicKey].
  destruct (default_arg params (JObj [])) as [ | | | | | | |fs]; try discriminate.
  unfold Schema.SelfSignedTokenOptions in E. cbn [parse] in E.
  set (vi := prop (JObj fs) "iss") in E.
  set (va := prop (JObj fs) "age") in E.
  clearbody vi va.
  destruct (parse Schema.key_16_24_32 _) as [r1|].
  2:{ destruct vi; cbn in E; try discriminate;
      destruct va; cbn in E; discriminate. }
  destruct (has_key "file_encryption_key" fs || negb (is_undefined r1))%bool;
    destruct vi; cbn in E; try discriminate;
    destruct va; cbn in E; try discriminate;
    destruct (has_key "age" fs); cbn in E;
    destruct (has_key "iss" fs); cbn in E;
    inversion E; cbn; repeat split; eexists; reflexivity.
Qed.

(** [Number] reads more than plain decimal numerals. *)
Example Number_of_strings :
  gt_number 1001 (to_number (JStr "1e3")) = true
  /\ gt_number 1000 (to_number (JStr "1e3")) = false
  /\ gt_number 101 (to_number (JStr " 100 ")) = true
  /\ gt_number 17 (to_number (JStr "0x10")) = true
  /\ gt_number 6 (to_number (JStr "+5")) = true
  /\ gt_number 1 (to_number (JStr "0.5")) = true
  /\ gt_number 1 (to_number (JStr "12px")) = false
  /\ gt_number 1 (to_number JUndefined) = false.
Proof. vm_compute. repeat split. Qed.

Lemma verifyToken_clears_invalid_witness :
  Auth.verifyToken expired_bearer (Toy.world 200000 Toy.offline)
  = (Normal JUndefined, Toy.auth_with JUndefined (JStr ""),
     Toy.world 200000 Toy.offline)
  /\ Auth.verifyToken (Toy.auth_with (JStr "1500") (JStr ""))
       (Toy.world 1500999 Toy.offline)
     = (Normal (JObj [("exp", JNum 1500)]),
        Toy.auth_with (JStr "1500") (JStr ""), Toy.world 1500999 Toy.offline)
  /\ fst (fst (Auth.verifyToken signer (Toy.world 0 Toy.offline)))
     = Normal JUndefined
  /\ fst (fst (Auth.verifyToken live_bearer (Toy.world 1000000 Toy.offline)))
     = Normal (JObj [("exp", JNum 2000)])
  /\ fst (Auth.verifyToken (Toy.auth_with (JStr "100") (JStr "secretKey"))
            (Toy.world 200000 Toy.offline))
     = (Normal JUndefined, Toy.auth_with JUndefined (JStr "secretKey")).
Proof.
  pose proof (verifyToken_clears_invalid expired_bearer
                (Toy.world 200000 Toy.offline)) as H1.
  pose proof (verifyToken_clears_invalid (Toy.auth_with (JStr "1500") (JStr ""))
                (Toy.world 1500999 Toy.offline)) as H2.
  pose proof (verifyToken_clears_invalid signer (Toy.world 0 Toy.offline)) as H3.
  pose proof (verifyToken_clears_invalid live_bearer
                (Toy.world 1000000 Toy.offline)) as H4.
  pose proof (verifyToken_clears_invalid
                (Toy.auth_with (JStr "100") (JStr "secretKey"))
                (Toy.world 200000 Toy.offline)) as H5.
  cbv zeta in H1, H2, H3, H4, H5.
  destruct H1 as (S1 & _ & N1 & _).
  destruct H2 as (S2 & _ & N2 & _).
  destruct H3 as (_ & A3 & _).
  destruct H4 as (_ & _ & _ & K4 & _).
  destruct H5 as (_ & _ & _ & K5 & _).
  split; [| split; [| split; [| split]]].
  - destruct (proj1 (N1 eq_refl eq_refl (JObj [("exp", JNum 100)]) eq_refl)
                100 eq_refl ltac:(vm_compute; reflexivity)) as [Hr Ha].
    rewrite (surjective_pairing (Auth.verifyToken _ _)).
    rewrite (surjective_pairing (fst (Auth.verifyToken _ _))).
    rewrite Hr, Ha. reflexivity.
  - destruct (proj1 (proj2 (N2 eq_refl eq_refl (JObj [("exp", JNum 1500)])
                              eq_refl))
                1500 eq_refl ltac:(vm_compute; discriminate)) as [Hr Ha].
    rewrite (surjective_pairing (Auth.verifyToken _ _)).
    rewrite (surjective_pairing (fst (Auth.verifyToken _ _))).
    rewrite Hr, Ha. reflexivity.
  - exact (proj1 (A3 eq_refl)).
  - exact (proj1 (proj2 (K4 eq_refl eq_refl (JObj [("exp", JNum 2000)]) eq_refl)
                    (JObj [("exp", JNum 2000)]) eq_refl)).
  - destruct (proj1 (K5 eq_refl eq_refl (JObj [("exp", JNum 100)]) eq_refl)
                (new_Error "jwt expired") eq_refl) as [Hr Ha].
    rewrite (surjective_pairing (fst (Auth.verifyToken _ _))).
    rewrite Hr, Ha. reflexivity.
Defined.

Lemma getToken_cached_fast_path_witness :
  (fst (fst (Auth.getToken live_bearer (Toy.world 1500000 Toy.offline)))
   = Normal (JStr "2000")
   /\ snd (fst (Auth.getToken live_bearer (Toy.world 1500000 Toy.offline)))
      = live_bearer
   /\ w_sent (snd (Auth.getToken live_bearer (Toy.world 1500000 Toy.offline)))
      = 0%nat
   /\ w_log (snd (Auth.getToken live_bearer (Toy.world 1500000 Toy.offline)))
      = [EvVerify (JStr "2000") (JStr "secretKey")])
  /\ (fst (fst (Auth.getToken (Toy.auth_with (JStr "2000") (JStr ""))
                  (Toy.world 2000999 Toy.offline)))
      = Normal (JStr "2000")
      /\ snd (fst (Auth.getToken (Toy.auth_with (JStr "2000") (JStr ""))
                     (Toy.world 2000999 Toy.offline)))
         = Toy.auth_with (JStr "2000") (JStr "")
      /\ w_sent (snd (Auth.getToken (Toy.auth_with (JStr "2000") (JStr ""))
                        (Toy.world 2000999 Toy.offline)))
         = 0%nat
      /\ w_log (snd (Auth.getToken (Toy.auth_with (JStr "2000") (JStr ""))
                       (Toy.world 2000999 Toy.offline)))
         = []).
Proof.
  pose proof (getToken_cached_fast_path live_bearer
                (Toy.world 1000000 Toy.offline) (Toy.world 1500000 Toy.offline)
                (JObj [("exp", JNum 2000)]) eq_refl eq_refl
                (or_introl
                   (conj eq_refl
                      (conj (ex_intro _ (JObj [("exp", JNum 2000)]) eq_refl)
                            (ex_intro _ (JObj [("exp", JNum 2000)]) eq_refl)))))
    as H.
  assert (Hlife : truthy (Auth.secretKey (Toy.auth_with (JStr "2000") (JStr "")))
                  = false
                  /\ exists e,
                       prop (JObj [("exp", JNum 2000)]) "exp" = JNum e
                       /\ w_now (Toy.world 1999000 Toy.offline) / 1000 <= e
                       /\ w_now (Toy.world 2000999 Toy.offline) / 1000 <= e).
  { split; [reflexivity |]. exists 2000. split; [reflexivity |].
    split; vm_compute; discriminate. }
  pose proof (getToken_cached_fast_path (Toy.auth_with (JStr "2000") (JStr ""))
                (Toy.world 1999000 Toy.offline) (Toy.world 2000999 Toy.offline)
                (JObj [("exp", JNum 2000)]) eq_refl eq_refl
                (or_intror (or_introl Hlife)))
    as H'.
  cbv zeta in H, H'.
  destruct H as (_ & Hsecond & Hsame & Hsent & _ & _ & Hlog).
  destruct H' as (_ & Hsecond' & Hsame' & Hsent' & _ & _ & Hlog').
  split; repeat split; assumption.
Defined.

Lemma getToken_signs_locally_witness :
  w_log (snd (Auth.getToken signer (Toy.world 1700000000999 Toy.offline)))
  = [EvSign
       (JObj [ ("iss", JStr "api.ilovepdf.com");
               ("iat", JNum 1699999970);
               ("nbf", JNum 1699999970);
               ("exp", JNum 1700003600);
               ("jti", JStr "publicKey");
               ("file_encryption_key", JUndefined) ])
       (JStr "secretKey")]
  /\ fst (fst (Auth.getToken signer (Toy.world 1700000000999 Toy.offline)))
     = Normal (JStr "1700003600")
  /\ Auth.token (snd (fst (Auth.getToken signer
                             (Toy.world 1700000000999 Toy.offline))))
     = JStr "1700003600".
Proof.
  pose proof (getToken_signs_locally signer
                (Toy.world 1700000000999 Toy.offline)
                (JStr "api.ilovepdf.com") 3600
                eq_refl (or_introl eq_refl) eq_refl eq_refl) as H.
  cbv zeta in H.
  destruct H as (Hres & Hcache & _ & Hlog).
  split; [| split].
  - rewrite Hlog. reflexivity.
  - rewrite Hres. reflexivity.
  - rewrite (Hcache (JStr "1700003600") eq_refl). reflexivity.
Defined.

(* ================================================================== *)
(** ** Further properties of the code *)
(* ================================================================== *)

(** *** Object schemas *)

Lemma parse_object (shape : list (string * Schema)) (fs : list (string * JsValue)) :
  parse (ZObject shape) (JObj fs)
  = option_map JObj (parse_fields (JObj fs) fs shape).
Proof. reflexivity. Qed.

Lemma parse_object_inv (shape : list (string * Schema)) (v r : JsValue) :
  parse (ZObject shape) v = Some r ->
  exists fs out, v = JObj fs /\ r = JObj out
                 /\ parse_fields v fs shape = Some out.
Proof.
  destruct v as [ | | | | | | |fs]; try discriminate.
  rewrite parse_object.
  destruct (parse_fields (JObj fs) fs shape) as [out|] eqn:E; [| discriminate].
  intros H. inversion H. subst r. exists fs, out. auto.
Qed.

(** The result of an object schema has no key outside the shape. *)
Lemma parse_fields_keys v fs shape out (k : string) :
  parse_fields v fs shape = Some out ->
  lookup k out <> None -> In k (map fst shape).
Proof.
  revert out. induction shape as [| [k' s] rest IH]; intros out; simpl.
  - intros H. inversion H. simpl. congruence.
  - destruct (parse s (prop v k')) as [r|]; [| discriminate].
    destruct (parse_fields v fs rest) as [out'|]; [| discriminate].
    destruct (has_key k' fs || negb (is_undefined r))%bool;
      intros H; inversion H; subst out; clear H.
    + simpl. destruct (String.eqb k k') eqn:E.
      * apply String.eqb_eq in E. auto.
      * intros Hk. right. exact (IH _ eq_refl Hk).
    + intros Hk. right. exact (IH _ eq_refl Hk).
Qed.

(** Each field of the result is the parse of the same field of the input. *)
Lemma parse_fields_field v fs shape out (k : string) (s : Schema) :
  NoDup (map fst shape) ->
  parse_fields v fs shape = Some out ->
  In (k, s) shape ->
  exists r, parse s (prop v k) = Some r /\ prop (JObj out) k = r.
Proof.
  revert out. induction shape as [| [k' s'] rest IH]; intros out Hnd; simpl.
  - intros _ [].
  - inversion Hnd as [| ? ? Hnotin Hnd']. subst.
    destruct (parse s' (prop v k')) as [r|] eqn:Er; [| discriminate].
    destruct (parse_fields v fs rest) as [out'|] eqn:Eo; [| discriminate].
    intros H [Hin | Hin].
    + inversion Hin. subst k' s'. exists r. split; [exact Er|].
      assert (Hno : lookup k out' = None).
      { destruct (lookup k out') eqn:El; [| reflexivity].
        exfalso. apply Hnotin.
        apply (parse_fields_keys v fs rest out' k Eo). congruence. }
      destruct (has_key k fs || negb (is_undefined r))%bool eqn:Eb;
        inversion H; subst out; simpl.
      * rewrite String.eqb_refl. reflexivity.
      * rewrite Hno. apply orb_false_elim in Eb. destruct Eb as [_ Eb].
        apply negb_false_iff in Eb. destruct r; try discriminate. reflexivity.
    + destruct (IH out' Hnd' eq_refl Hin) as (r' & Hr' & Hp).
      exists r'. split; [exact Hr'|].
      assert (Hne : String.eqb k k' = false).
      { apply String.eqb_neq. intros ->. apply Hnotin.
        apply (in_map fst) in Hin. exact Hin. }
      destruct (has_key k' fs || negb (is_undefined r))%bool;
        inversion H; subst out; simpl in *.
      * rewrite Hne. exact Hp.
      * exact Hp.
Qed.

(** A field of an accepted object, for a shape without repeated key. *)
Lemma parse_object_field shape v r (k : string) (s : Schema) :
  NoDup (map fst shape) ->
  parse (ZObject shape) v = Some r ->
  In (k, s) shape ->
  parse s (prop v k) = Some (prop r k).
Proof.
  intros Hnd H Hin.
  destruct (parse_object_inv shape v r H) as (fs & out & -> & -> & Hf).
  destruct (parse_fields_field _ _ _ _ k s Hnd Hf Hin) as (x & Hx & Hp).
  rewrite Hp. exact Hx.
Qed.

(** An accepted object has no key outside the shape. *)
Lemma parse_object_keys shape v r (k : string) :
  parse (ZObject shape) v = Some r ->
  ~ In k (map fst shape) -> prop r k = JUndefined.
Proof.
  intros H Hk.
  destruct (parse_object_inv shape v r H) as (fs & out & -> & -> & Hf).
  simpl. destruct (lookup k out) eqn:E; [| reflexivity].
  exfalso. apply Hk. apply (parse_fields_keys _ _ _ _ k Hf). congruence.
Qed.

Lemma parse_schema_field sch v r (k : string) (s : Schema) :
  NoDup (keys_of sch) -> parse sch v = Some r -> In (k, s) (shape_of sch) ->
  parse s (prop v k) = Some (prop r k).
Proof.
  destruct sch; simpl; try (intros _ _ []).
  apply parse_object_field.
Qed.

Lemma parse_schema_keys sch v r (k : string) :
  shape_of sch <> [] -> parse sch v = Some r -> ~ In k (keys_of sch) ->
  prop r k = JUndefined.
Proof.
  destruct sch; simpl; try congruence.
  intros _. apply parse_object_keys.
Qed.

Ltac nodup_keys := repeat constructor; simpl; intuition discriminate.

(** *** Classification, twice *)

Ltac case_kept e :=
  unfold new_ILoveApiError, new_NetworkError, axios_super, kept;
  destruct (truthy (field e "code")) eqn:Hc,
           (truthy (field e "config")) eqn:Hf,
           (truthy (field e "request")) eqn:Hq,
           (truthy (field e "response")) eqn:Hr;
  cbn; rewrite ?Hc, ?Hf, ?Hq, ?Hr; try reflexivity.

Lemma axios_super_ILoveApiError (m : string) (st : JsValue) (e : Thrown) :
  axios_super (new_ILoveApiError m st e) = axios_super e.
Proof. case_kept e. Qed.

Lemma axios_super_NetworkError (m : string) (e : Thrown) :
  axios_super (new_NetworkError m e) = axios_super e.
Proof. case_kept e. Qed.

Lemma response_of_ILoveApiError (m : string) (st : JsValue) (e : Thrown) :
  truthy (field e "response") = true ->
  field (new_ILoveApiError m st e) "response" = field e "response".
Proof. intros H. case_kept e; discriminate. Qed.

Lemma response_of_NetworkError (m : string) (e : Thrown) :
  truthy (field e "response") = false ->
  field (new_NetworkError m e) "response" = JUndefined.
Proof. intros H. case_kept e; discriminate. Qed.

Lemma request_of_NetworkError (m : string) (e : Thrown) :
  truthy (field (new_NetworkError m e) "request") = truthy (field e "request").
Proof. case_kept e. Qed.

Lemma classified_isAxiosError (e : Thrown) :
  isAxiosError (classifyError e) = isAxiosError e.
Proof.
  unfold classifyError. destruct (isAxiosError e) eqn:Ha; [| exact Ha].
  destruct (truthy (field e "response")).
  - destruct (resolve_message _). case_kept e.
  - destruct (truthy (field e "request")); case_kept e.
Qed.

Lemma isAxiosError_ILoveApiError (m : string) (st : JsValue) (e : Thrown) :
  isAxiosError (new_ILoveApiError m st e) = true.
Proof. case_kept e. Qed.

Lemma isAxiosError_NetworkError (m : string) (e : Thrown) :
  isAxiosError (new_NetworkError m e) = true.
Proof. case_kept e. Qed.

Lemma classifyError_again (e : Thrown) :
  classifyError (classifyError e) = classifyError e.
Proof.
  unfold classifyError at 2 3.
  destruct (isAxiosError e) eqn:Ha.
  - destruct (truthy (field e "response")) eqn:Hr.
    + destruct (resolve_message _) as [message code] eqn:Em.
      unfold classifyError.
      rewrite isAxiosError_ILoveApiError.
      rewrite (response_of_ILoveApiError _ _ e Hr), Hr, Em.
      unfold new_ILoveApiError at 1.
      rewrite axios_super_ILoveApiError. reflexivity.
    + destruct (truthy (field e "request")) eqn:Hq.
      * unfold classifyError.
        rewrite isAxiosError_NetworkError.
        rewrite (response_of_NetworkError _ e Hr).
        cbn [truthy]. rewrite request_of_NetworkError, Hq.
        unfold new_NetworkError at 1.
        rewrite axios_super_NetworkError. reflexivity.
      * unfold classifyError.
        rewrite isAxiosError_NetworkError.
        rewrite (response_of_NetworkError _ e Hr).
        cbn [truthy]. rewrite request_of_NetworkError, Hq.
        unfold new_NetworkError at 1.
        rewrite axios_super_NetworkError. reflexivity.
  - unfold classifyError. rewrite Ha. reflexivity.
Qed.

(** X1.  Classifying an error that was already classified gives an error
    of the same class, message and properties: [classifyError
    (classifyError e)] is [classifyError e], and the result is an axios
    error exactly when [e] is.  So a method whose [catch] receives the
    classified error of an inner call, as [start] does after [getToken],
    throws it unchanged. *)
Theorem classifyError_idempotent (e : Thrown) :
  classifyError (classifyError e) = classifyError e
  /\ isAxiosError (classifyError e) = isAxiosError e.
Proof.
  split; [apply classifyError_again | apply classified_isAxiosError].
Qed.


(** *** Construction of a token manager *)

Lemma key_16_24_32_inv (x r : JsValue) :
  parse Schema.key_16_24_32 x = Some r ->
  r = x
  /\ (r = JUndefined
      \/ exists s, r = JStr s
           /\ (js_length s = 16 \/ js_length s = 24
               \/ js_length s = 32)%nat).
Proof.
  unfold Schema.key_16_24_32. cbn [parse is_undefined].
  destruct x; cbn; try discriminate.
  - intros H. inversion H. auto.
  - destruct (Nat.eqb (js_length s) 16) eqn:E1.
    + intros H. inversion H. apply Nat.eqb_eq in E1. split; [reflexivity|].
      right. exists s. auto.
    + destruct (Nat.eqb (js_length s) 24) eqn:E2.
      * intros H. inversion H. apply Nat.eqb_eq in E2. split; [reflexivity|].
        right. exists s. auto.
      * destruct (Nat.eqb (js_length s) 32) eqn:E3; [| discriminate].
        intros H. inversion H. apply Nat.eqb_eq in E3. split; [reflexivity|].
        right. exists s. auto.
Qed.

Lemma SelfSignedTokenOptions_nodup :
  NoDup (keys_of Schema.SelfSignedTokenOptions).
Proof. nodup_keys. Qed.

(** X2.  The checks of the [Auth] constructor come in the order public key,
    secret key, options: a missing, empty or non-string public key gives
    "publicKey is required and must be a string." whatever the rest is; with
    a good public key a truthy secret key that is not a string gives
    "secretKey must be a string."; with both good, options that the schema
    refuses give a validation error. *)
Theorem Auth_new_rejects (publicKey secretKey params : JsValue) :
  (bad_string publicKey = true ->
   Auth.new publicKey secretKey params
   = Throw (new_Error "publicKey is required and must be a string."))
  /\ (bad_string publicKey = false -> truthy secretKey = true ->
      is_string secretKey = false ->
      Auth.new publicKey secretKey params
      = Throw (new_Error "secretKey must be a string."))
  /\ (bad_string publicKey = false ->
      truthy secretKey = false \/ is_string secretKey = true ->
      parse Schema.SelfSignedTokenOptions (default_arg params (JObj [])) = None ->
      Auth.new publicKey secretKey params
      = Throw (ErrorObj ZodError "Invalid input" [])).
Proof.
  unfold bad_string, Auth.new. split; [| split].
  - intros ->. reflexivity.
  - intros -> Ht Hs.
    assert (Hd : default_arg secretKey (JStr "") = secretKey)
      by (destruct secretKey; try reflexivity; discriminate).
    rewrite Hd, Ht, Hs. reflexivity.
  - intros -> Hs ->.
    assert (Hok : (truthy (default_arg secretKey (JStr ""))
                   && negb (is_string (default_arg secretKey (JStr ""))))%bool
                  = false).
    { destruct secretKey; cbn [default_arg]; try reflexivity;
        destruct Hs as [Hs | Hs]; rewrite Hs; cbn [negb];
        auto using andb_false_r. }
    rewrite Hok. reflexivity.
Qed.

Lemma Auth_new_rejects_witness :
  Auth.new (JNum 99) (JNum 21) JNull
  = Throw (new_Error "publicKey is required and must be a string.")
  /\ Auth.new (JStr "publicKey") (JNum 21) JNull
     = Throw (new_Error "secretKey must be a string.")
  /\ Auth.new (JStr "publicKey") JNull (JObj [("age", JStr "1h")])
     = Throw (ErrorObj ZodError "Invalid input" []).
Proof.
  split; [| split].
  - apply (proj1 (Auth_new_rejects (JNum 99) (JNum 21) JNull)). reflexivity.
  - apply (proj1 (proj2 (Auth_new_rejects (JStr "publicKey") (JNum 21) JNull)));
      reflexivity.
  - apply (proj2 (proj2 (Auth_new_rejects (JStr "publicKey") JNull
                           (JObj [("age", JStr "1h")]))));
      [reflexivity | left; reflexivity | reflexivity].
Defined.

(** X3.  A token manager that the constructor returns has the public key it
    was given, a non-empty string; a secret key that is falsy or a string
    (the empty string when none was given); no cached token; a client for
    https://api.ilovepdf.com/v1 without [Authorization] header; and options
    with a string issuer, a numeric age, and a [file_encryption_key] that is
    the one given, a string whose [length] (its number of UTF-16 code
    units) is 16, 24 or 32, or [undefined]. *)
Theorem Auth_new_accepts (publicKey secretKey params : JsValue) (a : Auth.Auth) :
  Auth.new publicKey secretKey params = Normal a ->
  Auth.publicKey a = publicKey
  /\ bad_string publicKey = false
  /\ Auth.secretKey a = default_arg secretKey (JStr "")
  /\ (truthy (Auth.secretKey a) = false \/ is_string (Auth.secretKey a) = true)
  /\ Auth.token a = JUndefined
  /\ Auth.axiosInstance a
     = mkAxios "https://api.ilovepdf.com/v1"
         [("Content-Type", "application/json;charset=UTF-8")]
  /\ (exists iss, prop (Auth.tokenOptions a) "iss" = JStr iss)
  /\ (exists age, prop (Auth.tokenOptions a) "age" = JNum age)
  /\ prop (Auth.tokenOptions a) "file_encryption_key"
     = prop params "file_encryption_key"
  /\ (prop (Auth.tokenOptions a) "file_encryption_key" = JUndefined
      \/ exists key, prop (Auth.tokenOptions a) "file_encryption_key" = JStr key
           /\ (js_length key = 16 \/ js_length key = 24
               \/ js_length key = 32)%nat).
Proof.
  unfold Auth.new, bad_string.
  destruct (negb (truthy publicKey) || negb (is_string publicKey))%bool;
    [discriminate|].
  destruct (truthy (default_arg secretKey (JStr ""))
            && negb (is_string (default_arg secretKey (JStr ""))))%bool eqn:Es;
    [discriminate|].
  destruct (parse Schema.SelfSignedTokenOptions (default_arg params (JObj [])))
    as [opts|] eqn:E; [| discriminate].
  intros H. inversion H. subst a. clear H.
  cbn [Auth.tokenOptions Auth.token Auth.publicKey Auth.secretKey
       Auth.axiosInstance].
  pose proof (parse_schema_field _ _ _ "iss" _ SelfSignedTokenOptions_nodup E
                (or_introl eq_refl)) as Hiss.
  pose proof (parse_schema_field _ _ _ "age" _ SelfSignedTokenOptions_nodup E
                (or_intror (or_introl eq_refl))) as Hage.
  pose proof (parse_schema_field _ _ _ "file_encryption_key" _
                SelfSignedTokenOptions_nodup E
                (or_intror (or_intror (or_introl eq_refl)))) as Hkey.
  apply key_16_24_32_inv in Hkey. destruct Hkey as [Hsame Hlen].
  assert (Hparams : prop (default_arg params (JObj [])) "file_encryption_key"
                    = prop params "file_encryption_key")
    by (destruct params; reflexivity).
  repeat split.
  - apply andb_false_iff in Es. destruct Es as [Es | Es]; [left; exact Es|].
    right. apply negb_false_iff in Es. exact Es.
  - cbn [parse is_undefined] in Hiss.
    destruct (prop (default_arg params (JObj [])) "iss"); cbn in Hiss;
      try discriminate; inversion Hiss; eauto.
  - cbn [parse is_undefined] in Hage.
    destruct (prop (default_arg params (JObj [])) "age"); cbn in Hage;
      try discriminate; inversion Hage; eauto.
  - rewrite Hsame. exact Hparams.
  - exact Hlen.
Qed.

Lemma Auth_new_accepts_witness :
  Auth.publicKey signer = JStr "publicKey"
  /\ bad_string (JStr "publicKey") = false
  /\ Auth.secretKey signer = default_arg (JStr "secretKey") (JStr "")
  /\ (truthy (Auth.secretKey signer) = false
      \/ is_string (Auth.secretKey signer) = true)
  /\ Auth.token signer = JUndefined
  /\ Auth.axiosInstance signer
     = mkAxios "https://api.ilovepdf.com/v1"
         [("Content-Type", "application/json;charset=UTF-8")]
  /\ (exists iss, prop (Auth.tokenOptions signer) "iss" = JStr iss)
  /\ (exists age, prop (Auth.tokenOptions signer) "age" = JNum age)
  /\ prop (Auth.tokenOptions signer) "file_encryption_key"
     = prop JUndefined "file_encryption_key"
  /\ (prop (Auth.tokenOptions signer) "file_encryption_key" = JUndefined
      \/ exists key, prop (Auth.tokenOptions signer) "file_encryption_key" = JStr key
           /\ (js_length key = 16 \/ js_length key = 24
               \/ js_length key = 32)%nat).
Proof.
  exact (Auth_new_accepts (JStr "publicKey") (JStr "secretKey") JUndefined
           signer eq_refl).
Defined.

(** *** More rules for the method monad *)

Section WpMore.
Context {S : Type}.

Lemma wp_of_completion {A} (c : Completion A)
    (Q : Completion A -> S -> World -> Prop) s w :
  Q c s w -> wp (of_completion c) Q s w.
Proof. exact (fun H => H). Qed.

Lemma wp_emit (e : Event) (Q : Completion unit -> S -> World -> Prop) s w :
  Q (Normal tt) s (mkWorld (w_now w) (w_net w) (w_sent w) (w_log w ++ [e])) ->
  wp (emit e) Q s w.
Proof. exact (fun H => H). Qed.

Lemma wp_Date_now (Q : Completion Z -> S -> World -> Prop) s w :
  Q (Normal (w_now w)) s w -> wp Date_now Q s w.
Proof. exact (fun H => H). Qed.

Lemma wp_conseq {A} (m : M S A) (Q Q' : Completion A -> S -> World -> Prop) s w :
  wp m Q s w -> (forall r s' w', Q r s' w' -> Q' r s' w') -> wp m Q' s w.
Proof.
  unfold wp. destruct (m s w) as [[r s'] w']. intros H HQ. apply HQ. exact H.
Qed.

Lemma request_run (m : Method) (c : AxiosInstance) (p : string) (b : JsValue)
    (s : S) (w : World) :
  request m c p b s w
  = (match w_net w (w_sent w) (mkRequest m c p b) with
     | Resolved response => Normal response
     | Rejected e => Throw e
     end, s, sent w (mkRequest m c p b)).
Proof.
  unfold request, sent. destruct (w_net w (w_sent w) _); reflexivity.
Qed.

End WpMore.

Ltac wp_go :=
  lazymatch goal with
  | |- wp (bind _ _) _ _ _ => apply wp_bind
  | |- wp (try_catch _ _) _ _ _ => apply wp_try_catch
  | |- wp (ret _) _ _ _ => apply wp_ret
  | |- wp (throw _) _ _ _ => apply wp_throw
  | |- wp (gets _) _ _ _ => apply wp_gets
  | |- wp (modify _) _ _ _ => apply wp_modify
  | |- wp (of_completion ?c) _ _ _ => apply wp_of_completion; destruct c eqn:?
  | |- wp (emit _) _ _ _ => apply wp_emit
  | |- wp Date_now _ _ _ => apply wp_Date_now
  | |- wp (request _ _ _ _) _ _ _ => apply wp_request; intros [?|?] ?
  | |- wp (get _ _) _ _ _ => apply wp_get; [| intros ?]
  | |- wp (parseAsync _ _) _ _ _ => apply wp_parseAsync; [intros ? ? | intros ?]
  | |- wp (if ?b then _ else _) _ _ _ => destruct b eqn:?
  end; cbn [negb]; cbv beta iota.

(** *** What [getToken] keeps *)

Lemma same_keys_refl (a : Auth.Auth) : same_keys a a.
Proof. repeat split. Qed.

Lemma same_keys_set_token (a : Auth.Auth) (t : JsValue) :
  same_keys a (Auth.set_token t a).
Proof. repeat split. Qed.

Section Keeps.
Context {J : JsonWebToken}.

Lemma verifyToken_keeps (a : Auth.Auth) (w : World) :
  wp Auth.verifyToken
    (fun r a' _ =>
       (exists v, r = Normal v)
       /\ (a' = a \/ a' = Auth.set_token JUndefined a)) a w.
Proof.
  unfold Auth.verifyToken.
  repeat wp_go; split; eauto.
Qed.

Lemma getToken_cached_token (a : Auth.Auth) (w : World) :
  same_keys a (snd (fst (Auth.getToken a w)))
  /\ forall tok, fst (fst (Auth.getToken a w)) = Normal tok ->
       Auth.token (snd (fst (Auth.getToken a w))) = tok.
Proof.
  assert (H : wp Auth.getToken
                (fun r a' _ =>
                   same_keys a a'
                   /\ forall tok, r = Normal tok -> Auth.token a' = tok) a w).
  { unfold Auth.getToken, Auth.getTokenLocally, Auth.getTokenFromServer.
    apply wp_bind.
    eapply wp_conseq; [apply verifyToken_keeps|].
    intros r a' w' [[v ->] Ha']. cbv beta iota.
    destruct Ha' as [-> | ->]; repeat wp_go;
      (split; [unfold same_keys; repeat split |
               intros tok' Ht; inversion Ht; try reflexivity; try discriminate]). }
  unfold wp in H. destruct (Auth.getToken a w) as [[r a'] w']. exact H.
Qed.

(** X4.  [getToken] changes nothing of the token manager but the cached
    token: the public key, the secret key, the options and the client are
    kept on every exit; and when it returns a token, that token is the one
    now cached. *)
Theorem getToken_keeps_keys (a : Auth.Auth) (w : World) (tok : JsValue)
    (a' : Auth.Auth) (w' : World) :
  (forall r, Auth.getToken a w = (r, a', w') -> same_keys a a')
  /\ (Auth.getToken a w = (Normal tok, a', w') -> Auth.token a' = tok).
Proof.
  pose proof (getToken_cached_token a w) as [Hk Ht].
  split.
  - intros r E. rewrite E in Hk. exact Hk.
  - intros E. rewrite E in Ht. apply Ht. reflexivity.
Qed.

End Keeps.

Lemma getToken_keeps_keys_witness :
  Auth.token (snd (fst (Auth.getToken signer
                          (Toy.world 1700000000999 Toy.offline))))
  = JStr "1700003600"
  /\ Auth.secretKey (snd (fst (Auth.getToken signer
                                 (Toy.world 1700000000999 Toy.offline))))
     = JStr "secretKey".
Proof.
  destruct (getToken_keeps_keys signer (Toy.world 1700000000999 Toy.offline)
              (JStr "1700003600")
              (snd (fst (Auth.getToken signer
                           (Toy.world 1700000000999 Toy.offline))))
              (snd (Auth.getToken signer (Toy.world 1700000000999 Toy.offline))))
    as [Hk Ht].
  split.
  - apply Ht. reflexivity.
  - exact (proj1 (proj2 (Hk _ eq_refl))).
Defined.

(** *** Tokens issued by the server *)

Section Remote.
Context {J : JsonWebToken}.

Lemma extends_nil_eq (w w' : World) : extends w w' [] -> w' = w.
Proof.
  destruct w, w'. unfold extends. simpl. rewrite app_nil_r.
  intros (-> & -> & -> & ->). reflexivity.
Qed.

(** Without a secret key [verifyToken] leaves the world as it is; and when no
    valid token is cached, no token is cached after it. *)
Lemma verifyToken_no_secret (a : Auth.Auth) (w : World) :
  truthy (Auth.secretKey a) = false ->
  truthy (Auth.token a) = false \/ verifies a (w_now w) = false ->
  exists r a1,
    Auth.verifyToken a w = (Normal r, a1, w)
    /\ (a1 = a \/ a1 = Auth.set_token JUndefined a)
    /\ truthy (Auth.token a1) = false.
Proof.
  intros Hs Hno.
  destruct (truthy (Auth.token a)) eqn:Ht.
  - destruct Hno as [Hno | Hno]; [discriminate|].
    destruct (verifyToken_cached a w Ht) as (w1 & Hext & E).
    rewrite Hno in E.
    assert (Hev : verify_events a = []).
    { unfold verify_events. rewrite Ht, Hs.
      destruct (jwt_decode (Auth.token a)); reflexivity. }
    rewrite Hev in Hext. apply extends_nil_eq in Hext. subst w1.
    exists JUndefined, (Auth.set_token JUndefined a). auto.
  - exists (Auth.token a), a.
    rewrite (verifyToken_absent a w Ht). auto.
Qed.

Lemma getToken_remote_run (a : Auth.Auth) (w : World) :
  truthy (Auth.secretKey a) = false ->
  truthy (Auth.token a) = false \/ verifies a (w_now w) = false ->
  exists a1,
    (a1 = a \/ a1 = Auth.set_token JUndefined a)
    /\ truthy (Auth.token a1) = false
    /\ Auth.getToken a w
       = match w_net w (w_sent w) (auth_request a) with
         | Rejected e => (Throw (classifyError e), a1, sent w (auth_request a))
         | Resolved response =>
             if nullish response then
               (Throw (ErrorObj TypeError
                         ("Cannot read properties of " ++ to_string response
                          ++ " (reading 'data')") []),
                a1, sent w (auth_request a))
             else if nullish (prop response "data") then
               (Throw (ErrorObj TypeError
                         ("Cannot read properties of "
                          ++ to_string (prop response "data")
                          ++ " (reading 'token')") []),
                a1, sent w (auth_request a))
             else if truthy (prop (prop response "data") "token") then
               (Normal (prop (prop response "data") "token"),
                Auth.set_token (prop (prop response "data") "token") a,
                sent w (auth_request a))
             else
               (Throw (new_Error "Auth token cannot be retrieved"), a1,
                sent w (auth_request a))
         end.
Proof.
  intros Hs Hno.
  destruct (verifyToken_no_secret a w Hs Hno) as (r & a1 & E & Ha1 & Ht1).
  exists a1. split; [exact Ha1 |]. split; [exact Ht1 |].
  assert (Hsk : Auth.secretKey a1 = Auth.secretKey a)
    by (destruct Ha1 as [-> | ->]; reflexivity).
  assert (Hreq : mkRequest POST (Auth.axiosInstance a1) "/auth"
                   (JObj [("public_key", Auth.publicKey a1)])
                 = auth_request a)
    by (destruct Ha1 as [-> | ->]; reflexivity).
  assert (Hset : forall s, Auth.set_token s (Auth.set_token s a1)
                           = Auth.set_token s a)
    by (intros s; destruct Ha1 as [-> | ->]; reflexivity).
  unfold Auth.getToken. unfold bind at 1. rewrite E.
  unfold bind at 1. unfold gets at 1. rewrite Ht1.
  unfold bind at 1. unfold gets at 1. rewrite Hsk, Hs.
  unfold bind at 1. unfold Auth.getTokenFromServer, try_catch.
  unfold bind at 1. unfold gets at 1.
  unfold bind at 1. unfold gets at 1.
  unfold bind at 1. rewrite request_run, Hreq.
  destruct (w_net w (w_sent w) (auth_request a)) as [response | e].
  - unfold bind at 1. unfold get at 1.
    destruct (nullish response); [reflexivity|].
    unfold ret at 1. unfold bind at 1. unfold get at 1.
    destruct (nullish (prop response "data")); [reflexivity|].
    unfold ret at 1.
    destruct (truthy (prop (prop response "data") "token")); cbn [negb].
    + unfold bind, modify, gets. cbn [Auth.token Auth.set_token].
      rewrite <- (Hset (prop (prop response "data") "token")). reflexivity.
    + reflexivity.
  - reflexivity.
Qed.

(** X5.  Without a secret key and without a valid cached token, [getToken]
    sends exactly one request, [POST /auth] with body
    [{ public_key: publicKey }] through the manager's client, and nothing
    else.  A reply whose [data.token] is truthy is returned and cached.  A
    reply with a falsy [data.token] gives the [Error] "Auth token cannot be
    retrieved" and no token is cached.  A rejection [e] is thrown as
    [classifyError e] and no token is cached. *)
Theorem getToken_asks_server (a : Auth.Auth) (w : World) :
  truthy (Auth.secretKey a) = false ->
  truthy (Auth.token a) = false \/ verifies a (w_now w) = false ->
  let out := Auth.getToken a w in
  snd out = sent w (auth_request a)
  /\ (forall response,
        w_net w (w_sent w) (auth_request a) = Resolved response ->
        truthy (prop (prop response "data") "token") = true ->
        fst out = (Normal (prop (prop response "data") "token"),
                   Auth.set_token (prop (prop response "data") "token") a))
  /\ (forall response,
        w_net w (w_sent w) (auth_request a) = Resolved response ->
        nullish response = false -> nullish (prop response "data") = false ->
        truthy (prop (prop response "data") "token") = false ->
        fst (fst out) = Throw (new_Error "Auth token cannot be retrieved")
        /\ truthy (Auth.token (snd (fst out))) = false)
  /\ (forall e,
        w_net w (w_sent w) (auth_request a) = Rejected e ->
        fst (fst out) = Throw (classifyError e)
        /\ truthy (Auth.token (snd (fst out))) = false).
Proof.
  intros Hs Hno out. subst out.
  destruct (getToken_remote_run a w Hs Hno) as (a1 & Ha1 & Ht1 & E).
  rewrite E. clear E.
  split; [| split; [| split]].
  - destruct (w_net w (w_sent w) (auth_request a)) as [response | e];
      [| reflexivity].
    destruct (nullish response); [reflexivity|].
    destruct (nullish (prop response "data")); [reflexivity|].
    destruct (truthy (prop (prop response "data") "token")); reflexivity.
  - intros response -> Ht.
    assert (Hd : nullish (prop response "data") = false).
    { destruct (prop response "data"); try reflexivity; discriminate. }
    assert (Hr : nullish response = false).
    { destruct response; try reflexivity; discriminate. }
    rewrite Hr, Hd, Ht. reflexivity.
  - intros response -> Hr Hd Ht. rewrite Hr, Hd, Ht. cbn [fst snd]. auto.
  - intros e ->. cbn [fst snd]. auto.
Qed.

End Remote.

Lemma getToken_asks_server_witness :
  Auth.getToken (Toy.auth_with JUndefined (JStr ""))
    (Toy.world 0 (Toy.replying (JObj [("token", JStr "2000")])))
  = (Normal (JStr "2000"), Toy.auth_with (JStr "2000") (JStr ""),
     sent (Toy.world 0 (Toy.replying (JObj [("token", JStr "2000")])))
       (auth_request (Toy.auth_with JUndefined (JStr ""))))
  /\ fst (fst (Auth.getToken (Toy.auth_with JUndefined (JStr ""))
                 (Toy.world 0 (Toy.replying (JObj [])))))
     = Throw (new_Error "Auth token cannot be retrieved")
  /\ fst (fst (Auth.getToken expired_bearer (Toy.world 200000 Toy.offline)))
     = Throw (new_NetworkError "No response received from the server."
                (ErrorObj AxiosError "Network Error" [("request", JObj [])])).
Proof.
  split; [| split].
  - pose proof (getToken_asks_server (Toy.auth_with JUndefined (JStr ""))
                  (Toy.world 0 (Toy.replying (JObj [("token", JStr "2000")])))
                  eq_refl (or_introl eq_refl)) as H.
    cbv zeta in H. destruct H as (Hw & Hok & _).
    specialize (Hok _ eq_refl eq_refl).
    rewrite (surjective_pairing (Auth.getToken _ _)), Hw, Hok. reflexivity.
  - pose proof (getToken_asks_server (Toy.auth_with JUndefined (JStr ""))
                  (Toy.world 0 (Toy.replying (JObj [])))
                  eq_refl (or_introl eq_refl)) as H.
    cbv zeta in H. destruct H as (_ & _ & Hno & _).
    exact (proj1 (Hno _ eq_refl eq_refl eq_refl eq_refl)).
  - pose proof (getToken_asks_server expired_bearer
                  (Toy.world 200000 Toy.offline)
                  eq_refl (or_intror eq_refl)) as H.
    cbv zeta in H. destruct H as (_ & _ & _ & Hrej).
    exact (proj1 (Hrej _ eq_refl)).
Defined.

(** X6.  A token that [getToken] returned is served from the cache by the
    next call for as long as it verifies: the next call returns the same
    token, leaves the token manager as it is, sends no request and signs
    nothing. *)
Theorem getToken_then_cached {J : JsonWebToken} (a : Auth.Auth) (w1 w2 : World)
    (tok : JsValue) (a1 : Auth.Auth) (w1' : World) :
  Auth.getToken a w1 = (Normal tok, a1, w1') ->
  truthy tok = true ->
  verifies a1 (w_now w2) = true ->
  fst (Auth.getToken a1 w2) = (Normal tok, a1)
  /\ w_sent (snd (Auth.getToken a1 w2)) = w_sent w2
  /\ w_log (snd (Auth.getToken a1 w2)) = (w_log w2 ++ verify_events a1)%list.
Proof.
  intros E Ht Hv.
  assert (Htok : Auth.token a1 = tok).
  { pose proof (getToken_cached_token a w1) as H.
    rewrite E in H. cbn [fst snd] in H. apply (proj2 H). reflexivity. }
  rewrite <- Htok in Ht.
  destruct (getToken_live a1 w2 Ht Hv) as (w2' & (_ & _ & Hsent & Hlog) & E2).
  rewrite E2, Htok. cbn [fst snd]. auto.
Qed.

Lemma getToken_then_cached_witness :
  fst (Auth.getToken (Toy.auth_with (JStr "2000") (JStr ""))
         (Toy.world 1500000 Toy.offline))
  = (Normal (JStr "2000"), Toy.auth_with (JStr "2000") (JStr ""))
  /\ w_sent (snd (Auth.getToken (Toy.auth_with (JStr "2000") (JStr ""))
                    (Toy.world 1500000 Toy.offline)))
     = 0%nat.
Proof.
  assert (H : verifies (Toy.auth_with (JStr "2000") (JStr "")) 1500000 = true)
    by (vm_compute; reflexivity).
  destruct (getToken_then_cached (Toy.auth_with JUndefined (JStr ""))
              (Toy.world 0 (Toy.replying (JObj [("token", JStr "2000")])))
              (Toy.world 1500000 Toy.offline)
              (JStr "2000") (Toy.auth_with (JStr "2000") (JStr "")) _
              eq_refl eq_refl H) as (H1 & H2 & _).
  split; assumption.
Defined.

(** *** What the methods of a session send *)

Lemma wp_request_sent {S} (m : Method) (c : AxiosInstance) (p : string)
    (b : JsValue) (Q : Completion JsValue -> S -> World -> Prop) s w :
  (forall r, Q r s (sent w (mkRequest m c p b))) ->
  wp (request m c p b) Q s w.
Proof.
  intros H. unfold wp. rewrite request_run. apply H.
Qed.

Lemma wp_started {A} (k : AxiosInstance -> M TaskI.TaskI A)
    (Q : Completion A -> TaskI.TaskI -> World -> Prop) t w :
  Q (Throw (new_Error TaskI.need_start)) t w ->
  (forall srv, TaskI.server t = Some srv -> truthy (TaskI.task_id t) = true ->
               wp (k srv) Q t w) ->
  wp (TaskI.started k) Q t w.
Proof.
  intros Hn Hk. unfold wp, TaskI.started, TaskI.not_started.
  destruct (truthy (TaskI.task_id t)) eqn:Hid; cbn [negb orb]; [| exact Hn].
  destruct (TaskI.server t) as [srv|] eqn:Hs; [| exact Hn].
  apply (Hk srv eq_refl eq_refl).
Qed.

Lemma wp_validate {S} (tool options : JsValue)
    (Q : Completion JsValue -> S -> World -> Prop) s w :
  (forall r, Q r s w) ->
  wp (TaskUtils.validateProcessToolOptions tool options) Q s w.
Proof.
  intros H. unfold wp, TaskUtils.validateProcessToolOptions.
  destruct (TaskUtils.toolValidators _) as [validator|]; [| apply H].
  destruct (validator _); apply H.
Qed.

Ltac wp_sent :=
  lazymatch goal with
  | |- wp (TaskI.started _) _ _ _ => apply wp_started; [| intros ? ? ?]
  | |- wp (TaskI.rethrow_classified _) _ _ _ => unfold TaskI.rethrow_classified
  | |- wp (TaskUtils.validateProcessToolOptions _ _) _ _ _ =>
      apply wp_validate; intros [?|?]
  | |- wp (request _ _ _ _) _ _ _ => apply wp_request_sent; intros [?|?]
  | |- wp (bind _ _) _ _ _ => apply wp_bind
  | |- wp (try_catch _ _) _ _ _ => apply wp_try_catch
  | |- wp (ret _) _ _ _ => apply wp_ret
  | |- wp (throw _) _ _ _ => apply wp_throw
  | |- wp (gets _) _ _ _ => apply wp_gets
  | |- wp (modify _) _ _ _ => apply wp_modify
  | |- wp (get _ _) _ _ _ => apply wp_get; [| intros ?]
  | |- wp (parseAsync _ _) _ _ _ => apply wp_parseAsync; [intros ? ? | intros ?]
  | |- wp (if ?b then _ else _) _ _ _ => destruct b eqn:?
  end; cbn [negb]; cbv beta iota.

(** X7.  A method of a session other than [start] leaves every field of the
    session as it was, the token manager included, and sends at most one
    request, which goes through the client of the assigned server: it
    neither fetches nor signs nor verifies a token. *)
Theorem calls_send_at_most_once {J : JsonWebToken} (c : Session.Call)
    (t : TaskI.TaskI) (w : World) :
  is_start c = false ->
  snd (fst (Session.run c t w)) = t
  /\ (snd (Session.run c t w) = w
      \/ exists req srv,
           TaskI.server t = Some srv /\ req_client req = srv
           /\ snd (Session.run c t w) = sent w req).
Proof.
  intros Hc.
  assert (H : wp (Session.run c)
                (fun _ t' w' =>
                   t' = t
                   /\ (w' = w
                       \/ exists req srv,
                            TaskI.server t = Some srv /\ req_client req = srv
                            /\ w' = sent w req)) t w).
  { destruct c; try discriminate; simpl;
      unfold TaskI.addFile, TaskI.deleteFile, TaskI.process, TaskI.download,
        TaskI.details, TaskI.delete;
      repeat wp_sent;
      (split; [reflexivity |]);
      try (left; reflexivity);
      right; eexists _, _; (split; [eassumption |]);
      (split; [| reflexivity]); reflexivity. }
  unfold wp in H. destruct (Session.run c t w) as [[r t'] w']. exact H.
Qed.

Lemma calls_send_at_most_once_witness :
  snd (fst (Session.run (Session.CallDetails JUndefined) started_session
              assigning_world))
  = started_session
  /\ (snd (Session.run (Session.CallDetails JUndefined) started_session
             assigning_world)
      = assigning_world
      \/ exists req srv,
           TaskI.server started_session = Some srv /\ req_client req = srv
           /\ snd (Session.run (Session.CallDetails JUndefined) started_session
                     assigning_world)
              = sent assigning_world req).
Proof.
  exact (calls_send_at_most_once (Session.CallDetails JUndefined)
           started_session assigning_world eq_refl).
Defined.

(** *** Object literals with spreads *)

Lemma lookup_set_field (k k' : string) (v : JsValue) l :
  lookup k (set_field k' v l)
  = if String.eqb k k' then Some v else lookup k l.
Proof.
  induction l as [| [k1 v1] rest IH]; simpl.
  - reflexivity.
  - destruct (String.eqb k' k1) eqn:E1; simpl.
    + apply String.eqb_eq in E1. subst k1.
      destruct (String.eqb k k'); reflexivity.
    + destruct (String.eqb k k1) eqn:E2.
      * apply String.eqb_eq in E2. subst k1.
        rewrite String.eqb_sym, E1. reflexivity.
      * exact IH.
Qed.

Lemma lookup_absent (k : string) (l : list (string * JsValue)) :
  ~ In k (map fst l) -> lookup k l = None.
Proof.
  induction l as [| [k1 v1] rest IH]; simpl; [reflexivity|].
  intros H. destruct (String.eqb k k1) eqn:E.
  - apply String.eqb_eq in E. subst. exfalso. apply H. left. reflexivity.
  - apply IH. intros Hin. apply H. right. exact Hin.
Qed.

Lemma lookup_present (k : string) (x : JsValue) (l : list (string * JsValue)) :
  In (k, x) l -> lookup k l <> None.
Proof.
  induction l as [| [k1 v1] rest IH]; simpl; [intros []|].
  destruct (String.eqb k k1) eqn:E; [discriminate|].
  intros [Hin | Hin]; [| exact (IH Hin)].
  inversion Hin. subst. rewrite String.eqb_refl in E. discriminate.
Qed.

(** A key that the spread object lacks keeps its value. *)
Lemma lookup_spread_absent (k : string) out base :
  lookup k out = None ->
  lookup k (spread base (JObj out)) = lookup k base.
Proof.
  unfold spread. revert base.
  induction out as [| [k1 v1] rest IH]; intros base; simpl; [reflexivity|].
  destruct (String.eqb k k1) eqn:E; [discriminate|].
  intros H. rewrite (IH _ H). cbn [fst snd].
  rewrite lookup_set_field, E. reflexivity.
Qed.

(** A key of the spread object takes its value there. *)
Lemma lookup_spread_present (k : string) out base (v : JsValue) :
  NoDup (map fst out) -> lookup k out = Some v ->
  lookup k (spread base (JObj out)) = Some v.
Proof.
  unfold spread. revert base.
  induction out as [| [k1 v1] rest IH]; intros base Hnd; simpl; [discriminate|].
  inversion Hnd as [| ? ? Hnotin Hnd']. subst.
  destruct (String.eqb k k1) eqn:E.
  - intros H. inversion H. subst v1. apply String.eqb_eq in E. subst k1.
    pose proof (lookup_spread_absent k rest (set_field k v base)
                  (lookup_absent _ _ Hnotin)) as Ha.
    unfold spread in Ha. cbn [fst snd]. rewrite Ha, lookup_set_field.
    rewrite String.eqb_refl. reflexivity.
  - intros H. apply (IH _ Hnd' H).
Qed.

Lemma parse_fields_nodup v fs shape out :
  NoDup (map fst shape) -> parse_fields v fs shape = Some out ->
  NoDup (map fst out).
Proof.
  revert out. induction shape as [| [k s] rest IH]; intros out Hnd; simpl.
  - intros H. inversion H. constructor.
  - inversion Hnd as [| ? ? Hnotin Hnd']. subst.
    destruct (parse s (prop v k)) as [r|]; [| discriminate].
    destruct (parse_fields v fs rest) as [out'|] eqn:Eo; [| discriminate].
    destruct (has_key k fs || negb (is_undefined r))%bool;
      intros H; inversion H; subst out.
    + simpl. constructor; [| apply (IH _ Hnd' eq_refl)].
      intros Hin. apply Hnotin.
      apply in_map_iff in Hin. destruct Hin as [[k' v'] [Hk Hin]].
      simpl in Hk. subst k'.
      apply (parse_fields_keys v fs rest out' k Eo).
      apply (lookup_present _ _ _ Hin).
    + apply (IH _ Hnd' eq_refl).
Qed.

(** The body [{ ...base, ...r }] for an accepted [r]: a key of the schema
    is read in [r] when [r] has it, any other key in [base]. *)
Lemma prop_spread_schema sch v r base (k : string) :
  shape_of sch <> [] -> NoDup (keys_of sch) -> parse sch v = Some r ->
  prop (JObj (spread base r)) k
  = match r with
    | JObj out => match lookup k out with
                  | Some x => x
                  | None => prop (JObj base) k
                  end
    | _ => prop (JObj base) k
    end.
Proof.
  destruct sch; simpl; try congruence.
  intros _ Hnd H.
  destruct (parse_object_inv _ _ _ H) as (fs & out & -> & -> & Hf).
  simpl. destruct (lookup k out) as [x|] eqn:E.
  - pose proof (lookup_spread_present k out base x
                  (parse_fields_nodup _ _ _ _ Hnd Hf) E) as Hp.
    unfold spread in Hp. rewrite Hp. reflexivity.
  - pose proof (lookup_spread_absent k out base E) as Hp.
    unfold spread in Hp. rewrite Hp. reflexivity.
Qed.

(** *** Options are validated before anything is sent *)

(** X8.  When the options of a call do not pass the schema of its method,
    the call throws the validation error and nothing else happens: no field
    changes, no request is sent, no token is fetched or signed.  For
    [start] this holds on every session; for the other methods on a session
    past their guards. *)
Theorem refused_options_send_nothing {J : JsonWebToken} (c : Session.Call)
    (t : TaskI.TaskI) (w : World) :
  options_refused c = true ->
  is_start c = true
  \/ (truthy (TaskI.task_id t) = true /\ TaskI.server t <> None
      /\ (is_process c = true -> TaskI.no_files t = false)) ->
  Session.run c t w = (Throw (ErrorObj ZodError "Invalid input" []), t, w).
Proof.
  intros Hr Hg.
  destruct c as [o | o | o | o o' | o | o | o];
    cbn [options_refused Session.run is_start is_process] in Hr, Hg |- *.
  - unfold TaskI.start, bind, parseAsync.
    destruct (parse Schema.TaskStartGenericOptions _); [discriminate|].
    reflexivity.
  - destruct Hg as [Hg | (Hid & Hs & _)]; [discriminate|].
    destruct (TaskI.server t) as [srv|] eqn:Es; [| congruence].
    unfold TaskI.addFile. rewrite (started_passes _ t w srv Hid Es).
    unfold bind, parseAsync.
    destruct (parse Schema.TaskAddFileGenericOptions _); [discriminate|].
    reflexivity.
  - destruct Hg as [Hg | (Hid & Hs & _)]; [discriminate|].
    destruct (TaskI.server t) as [srv|] eqn:Es; [| congruence].
    unfold TaskI.deleteFile. rewrite (started_passes _ t w srv Hid Es).
    unfold bind, parseAsync.
    destruct (parse Schema.TaskRemoveFileGenericOptions _); [discriminate|].
    reflexivity.
  - destruct Hg as [Hg | (Hid & Hs & Hf)]; [discriminate|].
    destruct (TaskI.server t) as [srv|] eqn:Es; [| congruence].
    unfold TaskI.process. rewrite (started_passes _ t w srv Hid Es).
    unfold bind at 1. unfold gets at 1. rewrite (Hf eq_refl).
    unfold bind at 1. unfold gets at 1.
    unfold bind at 1. unfold parseAsync.
    destruct (parse Schema.TaskProcessGenericOptions _); [discriminate|].
    reflexivity.
  - destruct Hg as [Hg | (Hid & Hs & _)]; [discriminate|].
    destruct (TaskI.server t) as [srv|] eqn:Es; [| congruence].
    unfold TaskI.download. rewrite (started_passes _ t w srv Hid Es).
    unfold bind, parseAsync.
    destruct (parse Schema.TaskDownloadGenericOptions _); [discriminate|].
    reflexivity.
  - destruct Hg as [Hg | (Hid & Hs & _)]; [discriminate|].
    destruct (TaskI.server t) as [srv|] eqn:Es; [| congruence].
    unfold TaskI.details. rewrite (started_passes _ t w srv Hid Es).
    unfold bind, parseAsync.
    destruct (parse Schema.TaskDetailsGenericOptions _); [discriminate|].
    reflexivity.
  - destruct Hg as [Hg | (Hid & Hs & _)]; [discriminate|].
    destruct (TaskI.server t) as [srv|] eqn:Es; [| congruence].
    unfold TaskI.delete. rewrite (started_passes _ t w srv Hid Es).
    unfold bind, parseAsync.
    destruct (parse Schema.TaskDeleteGenericOptions _); [discriminate|].
    reflexivity.
Qed.

Lemma refused_options_send_nothing_witness :
  Session.run (Session.CallStart (JObj [("debug", JStr "yes")])) new_session
    assigning_world
  = (Throw (ErrorObj ZodError "Invalid input" []), new_session, assigning_world)
  /\ Session.run (Session.CallAddFile (JObj [("filename", JStr "a.jpg")]))
       started_session assigning_world
     = (Throw (ErrorObj ZodError "Invalid input" []), started_session,
        assigning_world)
  /\ Session.run (Session.CallProcess (JObj [("file_encryption_key", JStr "short")])
                    JUndefined)
       ready_session assigning_world
     = (Throw (ErrorObj ZodError "Invalid input" []), ready_session,
        assigning_world).
Proof.
  split; [| split].
  - apply refused_options_send_nothing; [reflexivity | left; reflexivity].
  - apply refused_options_send_nothing; [reflexivity |].
    right. split; [reflexivity |]. split; [discriminate | discriminate].
  - apply refused_options_send_nothing; [reflexivity |].
    right. split; [reflexivity |]. split; [discriminate | reflexivity].
Defined.

(** *** What each method sends and returns *)

Lemma parse_ZString_id (x r : JsValue) : parse ZString x = Some r -> r = x.
Proof. destruct x; simpl; intros H; inversion H; reflexivity. Qed.

Lemma parse_optional_boolean_id (x r : JsValue) :
  parse (ZOptional ZBoolean) x = Some r -> r = x.
Proof. destruct x; simpl; intros H; inversion H; reflexivity. Qed.

Lemma AddFile_nodup : NoDup (keys_of Schema.TaskAddFileGenericOptions).
Proof. nodup_keys. Qed.

Lemma RemoveFile_nodup : NoDup (keys_of Schema.TaskRemoveFileGenericOptions).
Proof. nodup_keys. Qed.

(** A property of [{ ...base, ...v }], for [v] accepted by an object schema:
    it is read in [base] when [v] lacks it, and in [v], at a key of the
    schema, otherwise. *)
Lemma spread_prop_cases sch options v base (k : string) :
  shape_of sch <> [] -> NoDup (keys_of sch) -> parse sch options = Some v ->
  (prop (JObj (spread base v)) k = prop (JObj base) k /\ prop v k = JUndefined)
  \/ (prop (JObj (spread base v)) k = prop v k /\ In k (keys_of sch)).
Proof.
  intros Hne Hnd Hp.
  rewrite (prop_spread_schema sch options v base k Hne Hnd Hp).
  destruct sch; simpl in Hne; try congruence.
  destruct (parse_object_inv _ _ _ Hp) as (fs & out & -> & -> & Hf).
  simpl. destruct (lookup k out) as [x|] eqn:E.
  - right. split; [reflexivity|].
    apply (parse_fields_keys _ _ _ _ k Hf). congruence.
  - left. auto.
Qed.

(** The body [{ task, ...v }] of an upload or removal, for the accepted
    options [v] of a schema with one required string [key] and [debug]. *)
Lemma task_body_props (key : string) (id options v : JsValue) :
  key <> "debug" -> key <> "task" ->
  parse (ZObject [(key, ZString); ("debug", ZOptional ZBoolean)]) options
  = Some v ->
  let body := JObj (spread [("task", id)] v) in
  prop body "task" = id
  /\ prop body key = prop options key
  /\ (exists s, prop options key = JStr s)
  /\ prop body "debug" = prop options "debug"
  /\ (forall k, k <> "task" -> k <> key -> k <> "debug" ->
                prop body k = JUndefined).
Proof.
  intros Hkd Hkt Hp body.
  set (sch := ZObject [(key, ZString); ("debug", ZOptional ZBoolean)]) in *.
  assert (Hnd : NoDup (keys_of sch)).
  { simpl. repeat constructor; simpl; intuition congruence. }
  assert (Hne : shape_of sch <> []) by discriminate.
  assert (Hkey : parse ZString (prop options key) = Some (prop v key)).
  { apply (parse_schema_field sch _ _ key _ Hnd Hp). left. reflexivity. }
  assert (Hdebug : parse (ZOptional ZBoolean) (prop options "debug")
                   = Some (prop v "debug")).
  { apply (parse_schema_field sch _ _ "debug" _ Hnd Hp). right. left.
    reflexivity. }
  assert (Hstr : exists s, prop options key = JStr s).
  { destruct (prop options key); simpl in Hkey; try discriminate. eauto. }
  apply parse_ZString_id in Hkey. apply parse_optional_boolean_id in Hdebug.
  assert (Hbase : forall k, k <> "task" ->
                            prop (JObj [("task", id)]) k = JUndefined).
  { intros k Hk. simpl. destruct (String.eqb k "task") eqn:E; [| reflexivity].
    apply String.eqb_eq in E. congruence. }
  pose proof (fun k => spread_prop_cases sch options v [("task", id)] k
                         Hne Hnd Hp) as Hcases.
  fold body in Hcases.
  split; [| split; [| split; [| split]]].
  - destruct (Hcases "task") as [[-> _] | [_ Hin]]; [reflexivity|].
    simpl in Hin. intuition congruence.
  - destruct (Hcases key) as [[-> Hu] | [-> _]].
    + rewrite (Hbase key Hkt), <- Hkey, Hu. reflexivity.
    + exact Hkey.
  - exact Hstr.
  - destruct (Hcases "debug") as [[-> Hu] | [-> _]].
    + rewrite Hbase by discriminate. rewrite <- Hdebug, Hu. reflexivity.
    + exact Hdebug.
  - intros k H1 H2 H3.
    destruct (Hcases k) as [[-> _] | [_ Hin]]; [apply Hbase; exact H1|].
    simpl in Hin. intuition congruence.
Qed.

(** X9.  On a started session, [addFile] with accepted options sends
    [POST /upload] through the task's client with a body that holds the
    task id, the [cloud_file] given (a string) and the [debug] given, and no
    other key: whatever else the options carry, a [filename] for one, is
    not sent.  It returns [response.data]; a rejection [e] of the request is
    thrown as [classifyError e].  The session is unchanged. *)
Theorem addFile_sends_known_keys (t : TaskI.TaskI) (w : World)
    (options : JsValue) (srv : AxiosInstance) :
  truthy (TaskI.task_id t) = true -> TaskI.server t = Some srv ->
  parse Schema.TaskAddFileGenericOptions options <> None ->
  exists body,
    TaskI.addFile options t w
    = (data_of (w_net w (w_sent w) (mkRequest POST srv "/upload" body)), t,
       sent w (mkRequest POST srv "/upload" body))
    /\ prop body "task" = TaskI.task_id t
    /\ prop body "cloud_file" = prop options "cloud_file"
    /\ (exists url, prop options "cloud_file" = JStr url)
    /\ prop body "debug" = prop options "debug"
    /\ (forall k, k <> "task" -> k <> "cloud_file" -> k <> "debug" ->
                  prop body k = JUndefined).
Proof.
  intros Hid Hs Hp.
  destruct (parse Schema.TaskAddFileGenericOptions options) as [v|] eqn:Ev;
    [clear Hp | congruence].
  exists (JObj (spread [("task", TaskI.task_id t)] v)).
  split.
  - unfold TaskI.addFile. rewrite (started_passes _ t w srv Hid Hs).
    unfold bind at 1. unfold parseAsync. rewrite Ev. unfold ret at 1.
    unfold TaskI.rethrow_classified, try_catch.
    unfold bind at 1. unfold gets at 1.
    unfold bind at 1. rewrite request_run.
    destruct (w_net w (w_sent w) _) as [response | e]; [| reflexivity].
    unfold get, data_of. destruct (nullish response); reflexivity.
  - apply (task_body_props "cloud_file" (TaskI.task_id t) options v);
      [discriminate | discriminate | exact Ev].
Qed.

Lemma addFile_sends_known_keys_witness :
  exists body,
    snd (TaskI.addFile
           (JObj [ ("cloud_file", JStr "https://i.imgur.com/awesome.jpeg");
                   ("filename", JStr "awesome.jpeg") ])
           started_session assigning_world)
    = sent assigning_world
        (mkRequest POST
           (axios_create "https://assigned-server/v1" [Auth.content_type])
           "/upload" body)
    /\ prop body "cloud_file" = JStr "https://i.imgur.com/awesome.jpeg"
    /\ prop body "filename" = JUndefined.
Proof.
  destruct (addFile_sends_known_keys started_session assigning_world
              (JObj [ ("cloud_file", JStr "https://i.imgur.com/awesome.jpeg");
                      ("filename", JStr "awesome.jpeg") ])
              (axios_create "https://assigned-server/v1" [Auth.content_type])
              eq_refl eq_refl ltac:(discriminate))
    as (body & E & _ & Hfile & _ & _ & Hother).
  exists body. split; [rewrite E; reflexivity |].
  split; [exact Hfile |].
  apply Hother; discriminate.
Defined.

(** X10.  On a started session, [deleteFile] with accepted options sends
    [DELETE /upload] through the task's client, its data holding the task
    id, the [server_filename] given (a string) and the [debug] given, and no
    other key.  When the request is fulfilled it returns [undefined], or
    [response.data] in debug mode; a rejection [e] is thrown as
    [classifyError e].  The session is unchanged. *)
Theorem deleteFile_sends_known_keys (t : TaskI.TaskI) (w : World)
    (options : JsValue) (srv : AxiosInstance) :
  truthy (TaskI.task_id t) = true -> TaskI.server t = Some srv ->
  parse Schema.TaskRemoveFileGenericOptions options <> None ->
  exists data,
    let req := mkRequest DELETE srv "/upload" (JObj [("data", data)]) in
    TaskI.deleteFile options t w
    = (match w_net w (w_sent w) req with
       | Resolved response =>
           if truthy (prop options "debug")
           then data_of (Resolved response) else Normal JUndefined
       | Rejected e => Throw (classifyError e)
       end, t, sent w req)
    /\ prop data "task" = TaskI.task_id t
    /\ prop data "server_filename" = prop options "server_filename"
    /\ (exists name, prop options "server_filename" = JStr name)
    /\ prop data "debug" = prop options "debug"
    /\ (forall k, k <> "task" -> k <> "server_filename" -> k <> "debug" ->
                  prop data k = JUndefined).
Proof.
  intros Hid Hs Hp.
  destruct (parse Schema.TaskRemoveFileGenericOptions options) as [v|] eqn:Ev;
    [clear Hp | congruence].
  exists (JObj (spread [("task", TaskI.task_id t)] v)).
  pose proof (task_body_props "server_filename" (TaskI.task_id t) options v
                ltac:(discriminate) ltac:(discriminate) Ev) as Hb.
  cbv zeta in Hb. cbv zeta.
  split; [| exact Hb].
  assert (Hd : prop v "debug" = prop options "debug").
  { pose proof (parse_schema_field _ _ _ "debug" _ RemoveFile_nodup Ev
                  (or_intror (or_introl eq_refl))) as H.
    apply parse_optional_boolean_id in H. exact H. }
  unfold TaskI.deleteFile. rewrite (started_passes _ t w srv Hid Hs).
  unfold bind at 1. unfold parseAsync. rewrite Ev. unfold ret at 1.
  unfold TaskI.rethrow_classified, try_catch.
  unfold bind at 1. unfold gets at 1.
  unfold bind at 1. rewrite request_run, Hd.
  destruct (w_net w (w_sent w) _) as [response | e]; [| reflexivity].
  destruct (truthy (prop options "debug")); [| reflexivity].
  unfold get, data_of. destruct (nullish response); reflexivity.
Qed.

Lemma deleteFile_sends_known_keys_witness :
  fst (TaskI.deleteFile (JObj [("server_filename", JStr "stored.jpg")])
         started_session assigning_world)
  = (Normal JUndefined, started_session).
Proof.
  destruct (deleteFile_sends_known_keys started_session assigning_world
              (JObj [("server_filename", JStr "stored.jpg")])
              (axios_create "https://assigned-server/v1" [Auth.content_type])
              eq_refl eq_refl ltac:(discriminate)) as (data & E & _).
  cbv zeta in E. rewrite E. reflexivity.
Defined.

Lemma append_empty_r (s : string) : s ++ "" = s.
Proof. induction s as [| c s IH]; simpl; [| rewrite IH]; reflexivity. Qed.

(** The three methods that name the task in the path. *)
Lemma path_method_run (what : string) (m : Method)
    (answer : bool -> JsValue -> M TaskI.TaskI JsValue)
    (sch : Schema) (t : TaskI.TaskI) (w : World) (options : JsValue)
    (srv : AxiosInstance) (v : JsValue) :
  truthy (TaskI.task_id t) = true -> TaskI.server t = Some srv ->
  parse sch (default_arg options (JObj [])) = Some v ->
  let debug := truthy (prop v "debug") in
  TaskI.started (fun srv =>
    bind (parseAsync sch (default_arg options (JObj [])))
      (fun _vOptions =>
         let isDebug := truthy (prop _vOptions "debug") in
         TaskI.rethrow_classified
           (bind (gets TaskI.task_id) (fun id =>
              bind (if isDebug
                    then request m srv ("/" ++ what ++ "/" ++ to_string id
                                        ++ "?debug=true") JUndefined
                    else request m srv ("/" ++ what ++ "/" ++ to_string id)
                           JUndefined)
                (fun response => answer isDebug response))))) t w
  = let req := mkRequest m srv (task_path what (TaskI.task_id t) debug)
                 JUndefined in
    match w_net w (w_sent w) req with
    | Resolved response =>
        TaskI.rethrow_classified (answer debug response) t (sent w req)
    | Rejected e => (Throw (classifyError e), t, sent w req)
    end.
Proof.
  intros Hid Hs Hp debug. subst debug.
  rewrite (started_passes _ t w srv Hid Hs).
  unfold bind at 1. unfold parseAsync. rewrite Hp. unfold ret at 1.
  cbv zeta. unfold TaskI.rethrow_classified, try_catch.
  unfold bind at 1. unfold gets at 1.
  unfold bind at 1. unfold task_path.
  destruct (truthy (prop v "debug")); rewrite request_run.
  - destruct (w_net w (w_sent w) _); reflexivity.
  - rewrite append_empty_r.
    destruct (w_net w (w_sent w) _); reflexivity.
Qed.

Lemma rethrow_get_data (response : JsValue) (t : TaskI.TaskI) (w : World) :
  TaskI.rethrow_classified (get response "data") t w
  = (data_of (Resolved response), t, w).
Proof.
  unfold TaskI.rethrow_classified, try_catch, get, data_of.
  destruct (nullish response); reflexivity.
Qed.

(** X11.  On a started session and with accepted options, [download],
    [details] and [delete] each send one request without body through the
    task's client: [GET /download/{id}], [GET /task/{id}] and
    [DELETE /task/{id}], with [?debug=true] appended exactly in debug mode.
    When the request is fulfilled, [download] returns the whole response
    and [delete] returns [undefined], both returning [response.data]
    instead in debug mode, and [details] returns [response.data] always.  A
    rejection [e] is thrown as [classifyError e].  The session is
    unchanged. *)
Theorem task_requests (t : TaskI.TaskI) (w : World) (options : JsValue)
    (srv : AxiosInstance) :
  truthy (TaskI.task_id t) = true -> TaskI.server t = Some srv ->
  parse Schema.debug_only (default_arg options (JObj [])) <> None ->
  let debug := truthy (prop options "debug") in
  let id := TaskI.task_id t in
  let get_download := mkRequest GET srv (task_path "download" id debug) JUndefined in
  let get_task := mkRequest GET srv (task_path "task" id debug) JUndefined in
  let delete_task := mkRequest DELETE srv (task_path "task" id debug) JUndefined in
  TaskI.download options t w
  = (match w_net w (w_sent w) get_download with
     | Resolved response =>
         if debug then data_of (Resolved response) else Normal response
     | Rejected e => Throw (classifyError e)
     end, t, sent w get_download)
  /\ TaskI.details options t w
     = (data_of (w_net w (w_sent w) get_task), t, sent w get_task)
  /\ TaskI.delete options t w
     = (match w_net w (w_sent w) delete_task with
        | Resolved response =>
            if debug then data_of (Resolved response) else Normal JUndefined
        | Rejected e => Throw (classifyError e)
        end, t, sent w delete_task).
Proof.
  intros Hid Hs Hp.
  destruct (parse Schema.debug_only (default_arg options (JObj [])))
    as [v|] eqn:Ev; [clear Hp | congruence].
  pose proof (parse_debug_only _ _ Ev) as Hd.
  cbv zeta. rewrite <- Hd.
  split; [| split].
  - refine (eq_trans
              (path_method_run "download" GET
                 (fun d response => if d then get response "data" else ret response)
                 Schema.TaskDownloadGenericOptions t w options srv v Hid Hs Ev)
              _).
    cbv zeta.
    destruct (w_net w (w_sent w) _) as [response | e]; [| reflexivity].
    destruct (truthy (prop v "debug")); [apply rethrow_get_data | reflexivity].
  - refine (eq_trans
              (path_method_run "task" GET
                 (fun d response => get response "data")
                 Schema.TaskDetailsGenericOptions t w options srv v Hid Hs Ev)
              _).
    cbv zeta.
    destruct (w_net w (w_sent w) _) as [response | e]; [| reflexivity].
    apply rethrow_get_data.
  - refine (eq_trans
              (path_method_run "task" DELETE
                 (fun d response => if d then get response "data" else ret JUndefined)
                 Schema.TaskDeleteGenericOptions t w options srv v Hid Hs Ev)
              _).
    cbv zeta.
    destruct (w_net w (w_sent w) _) as [response | e]; [| reflexivity].
    destruct (truthy (prop v "debug")); [apply rethrow_get_data | reflexivity].
Qed.

Lemma task_requests_witness :
  TaskI.download (JObj [("debug", JBool true)]) started_session assigning_world
  = (Normal (JObj [("server", JStr "assigned-server");
                   ("task", JStr "assigned-task-id");
                   ("remaining_files", JNum 255);
                   ("server_filename", JStr "stored.jpg")]),
     started_session,
     sent assigning_world
       (mkRequest GET
          (axios_create "https://assigned-server/v1" [Auth.content_type])
          "/download/assigned-task-id?debug=true" JUndefined))
  /\ fst (fst (TaskI.delete JUndefined started_session assigning_world))
     = Normal JUndefined.
Proof.
  pose proof (task_requests started_session assigning_world
                (JObj [("debug", JBool true)])
                (axios_create "https://assigned-server/v1" [Auth.content_type])
                eq_refl eq_refl ltac:(discriminate)) as H1.
  pose proof (task_requests started_session assigning_world JUndefined
                (axios_create "https://assigned-server/v1" [Auth.content_type])
                eq_refl eq_refl ltac:(discriminate)) as H2.
  cbv zeta in H1, H2.
  destruct H1 as (Hdl & _). destruct H2 as (_ & _ & Hdel).
  split.
  - rewrite Hdl. reflexivity.
  - rewrite Hdel. reflexivity.
Defined.

(** *** The body of [process] *)

Lemma own_of_parse_object shape x v (k : string) :
  parse (ZObject shape) x = Some v -> own v k <> None -> In k (map fst shape).
Proof.
  intros H Hk.
  destruct (parse_object_inv _ _ _ H) as (fs & out & -> & -> & Hf).
  exact (parse_fields_keys _ _ _ _ k Hf Hk).
Qed.

Lemma parse_ZOptional (s : Schema) (x : JsValue) :
  parse (ZOptional s) x
  = if is_undefined x then Some JUndefined else parse s x.
Proof. reflexivity. Qed.

Lemma optional_object_keys shape (x v : JsValue) (k : string) :
  parse (ZOptional (ZObject shape)) x = Some v ->
  own v k <> None -> In k (map fst shape).
Proof.
  rewrite parse_ZOptional. destruct (is_undefined x).
  - intros [= <-]. simpl. congruence.
  - apply own_of_parse_object.
Qed.

Lemma tool_output_keys (key : string) validator (x v : JsValue) (k : string) :
  TaskUtils.toolValidators key = Some validator ->
  validator x = Some v -> own v k <> None -> In k tool_keys.
Proof.
  unfold TaskUtils.toolValidators.
  destruct (String.eqb key "convertimage").
  { intros H.
    assert (Hv : validator = parse Schema.TaskProcessConvertImageOptions)
      by congruence.
    rewrite Hv. intros Hp Hk.
    pose proof (optional_object_keys _ _ _ k Hp Hk) as Hin.
    simpl in Hin. unfold tool_keys. simpl. intuition. }
  destruct (String.eqb key "removebackgroundimage").
  { intros H.
    assert (Hv : validator = fun _ => Some (JObj [])) by congruence.
    rewrite Hv. intros [= <-]. simpl. congruence. }
  destruct (String.eqb key "upscaleimage").
  { intros H.
    assert (Hv : validator = parse Schema.TaskProcessUpscaleImageOptions)
      by congruence.
    rewrite Hv. intros Hp Hk.
    pose proof (own_of_parse_object _ _ _ k Hp Hk) as Hin.
    simpl in Hin. unfold tool_keys. simpl. intuition. }
  destruct (String.eqb key "watermarkimage"); [| discriminate].
  intros H.
  assert (Hv : validator = parse Schema.TaskProcessWatermarkImageOptions)
    by congruence.
  rewrite Hv. intros Hp Hk.
  pose proof (own_of_parse_object _ _ _ k Hp Hk) as Hin.
  simpl in Hin. unfold tool_keys. simpl. intuition.
Qed.

Lemma GenericOptions_nodup : NoDup (keys_of Schema.TaskProcessGenericOptions).
Proof. nodup_keys. Qed.

Lemma process_run (t : TaskI.TaskI) (w : World) (options toolOptions : JsValue)
    (srv : AxiosInstance) (g v : JsValue) :
  truthy (TaskI.task_id t) = true -> TaskI.server t = Some srv ->
  TaskI.no_files t = false ->
  parse Schema.TaskProcessGenericOptions (default_arg options (JObj [])) = Some g ->
  TaskUtils.validateProcessToolOptions (TaskI.tool t)
    (default_arg toolOptions (JObj [])) t w = (Normal v, t, w) ->
  TaskI.process options toolOptions t w
  = (data_of (w_net w (w_sent w) (process_request t srv g v)), t,
     sent w (process_request t srv g v)).
Proof.
  intros Hid Hs Hf Hg Hv.
  unfold TaskI.process. rewrite (started_passes _ t w srv Hid Hs).
  unfold bind at 1. unfold gets at 1. rewrite Hf.
  unfold bind at 1. unfold gets at 1.
  unfold bind at 1. unfold parseAsync. rewrite Hg. unfold ret at 1.
  unfold bind at 1. unfold gets at 1.
  unfold bind at 1. rewrite Hv.
  unfold TaskI.rethrow_classified, try_catch.
  unfold bind at 1. unfold gets at 1.
  unfold bind at 1. rewrite request_run. fold (process_request t srv g v).
  destruct (w_net w (w_sent w) _) as [response | e]; [| reflexivity].
  unfold get, data_of. destruct (nullish response); reflexivity.
Qed.

Lemma validated_tool_keys {S} (tool options v : JsValue) (s s' : S)
    (w w' : World) (k : string) :
  TaskUtils.validateProcessToolOptions tool options s w = (Normal v, s', w') ->
  own v k <> None -> In k tool_keys.
Proof.
  unfold TaskUtils.validateProcessToolOptions.
  destruct (TaskUtils.toolValidators (to_string tool)) as [validator|] eqn:Et;
    [| discriminate].
  destruct (validator _) as [r|] eqn:Er; [| discriminate].
  intros H. inversion H. subst r.
  apply (tool_output_keys _ _ _ _ k Et Er).
Qed.

(** X12.  On a session past both guards, with accepted generic and tool
    options, [process] sends [POST /process] through the task's client and
    returns [response.data], a rejection [e] being thrown as
    [classifyError e].  In the body, [task], [tool] and [files] are those of
    the session, whatever the options say; every generic option has its
    validated value, so [ignore_errors] and [try_image_repair] are booleans
    there; and a key that is neither one of these nor one of the tools'
    keys is absent. *)
Theorem process_body (t : TaskI.TaskI) (w : World) (options toolOptions : JsValue)
    (srv : AxiosInstance) (g v : JsValue) :
  truthy (TaskI.task_id t) = true -> TaskI.server t = Some srv ->
  TaskI.no_files t = false ->
  parse Schema.TaskProcessGenericOptions (default_arg options (JObj [])) = Some g ->
  TaskUtils.validateProcessToolOptions (TaskI.tool t)
    (default_arg toolOptions (JObj [])) t w = (Normal v, t, w) ->
  let req := process_request t srv g v in
  TaskI.process options toolOptions t w
  = (data_of (w_net w (w_sent w) req), t, sent w req)
  /\ req_method req = POST /\ req_path req = "/process"
  /\ prop (req_body req) "task" = TaskI.task_id t
  /\ prop (req_body req) "tool" = TaskI.tool t
  /\ prop (req_body req) "files" = TaskI.files t
  /\ (forall k, In k (keys_of Schema.TaskProcessGenericOptions) ->
                prop (req_body req) k = prop g k)
  /\ (exists b, prop (req_body req) "ignore_errors" = JBool b)
  /\ (exists b, prop (req_body req) "try_image_repair" = JBool b)
  /\ (forall k, k <> "task" -> k <> "tool" -> k <> "files" ->
                ~ In k (keys_of Schema.TaskProcessGenericOptions) ->
                ~ In k tool_keys ->
                prop (req_body req) k = JUndefined).
Proof.
  intros Hid Hs Hf Hg Hv req.
  split; [exact (process_run t w options toolOptions srv g v Hid Hs Hf Hg Hv)|].
  split; [reflexivity|]. split; [reflexivity|].
  set (base := [ ("task", TaskI.task_id t); ("tool", TaskI.tool t);
                 ("files", TaskI.files t) ]).
  assert (Hne : shape_of Schema.TaskProcessGenericOptions <> [])
    by discriminate.
  assert (Hout : forall k, ~ In k tool_keys ->
                 prop (req_body req) k = prop (JObj (spread base g)) k).
  { intros k Hk. unfold req, process_request. cbn [req_body]. fold base.
    assert (Ho : own v k = None).
    { destruct (own v k) eqn:E; [| reflexivity].
      exfalso. apply Hk.
      apply (validated_tool_keys _ _ _ _ _ _ _ k Hv). congruence. }
    destruct v; try reflexivity.
    cbn [own] in Ho. cbn [prop].
    rewrite (lookup_spread_absent k fields _ Ho). reflexivity. }
  pose proof (fun k => spread_prop_cases Schema.TaskProcessGenericOptions
                         _ g base k Hne GenericOptions_nodup Hg) as Hcases.
  assert (Hgen : forall k, In k (keys_of Schema.TaskProcessGenericOptions) ->
                           prop (req_body req) k = prop g k).
  { intros k Hin. rewrite Hout.
    - destruct (Hcases k) as [[-> ->] | [-> _]]; [| reflexivity].
      simpl in Hin.
      repeat (destruct Hin as [<- | Hin]; [reflexivity|]). destruct Hin.
    - intros Hk. simpl in Hin, Hk.
      repeat (destruct Hin as [<- | Hin];
              [intuition discriminate|]). destruct Hin. }
  assert (Hbool : forall k d,
            In (k, ZDefault (ZOptional ZBoolean) (JBool d))
               (shape_of Schema.TaskProcessGenericOptions) ->
            exists b, prop (req_body req) k = JBool b).
  { intros k d Hin.
    pose proof (parse_schema_field _ _ _ k _ GenericOptions_nodup Hg Hin) as Hk.
    rewrite Hgen by (apply (in_map fst) in Hin; exact Hin).
    cbn [parse is_undefined] in Hk.
    destruct (prop (default_arg options (JObj [])) k); cbn in Hk;
      try discriminate; inversion Hk; eauto. }
  assert (Hsess : forall k, In k ["task"; "tool"; "files"] ->
                            prop (req_body req) k = prop (JObj base) k).
  { intros k Hin. rewrite Hout.
    - destruct (Hcases k) as [[-> _] | [_ Hk]]; [reflexivity|].
      exfalso. simpl in Hin, Hk.
      repeat (destruct Hin as [<- | Hin]; [intuition discriminate|]).
      destruct Hin.
    - intros Hk. simpl in Hin, Hk.
      repeat (destruct Hin as [<- | Hin]; [intuition discriminate|]).
      destruct Hin. }
  split; [apply (Hsess "task"); simpl; auto|].
  split; [apply (Hsess "tool"); simpl; auto|].
  split; [apply (Hsess "files"); simpl; auto|].
  split; [exact Hgen|].
  split; [apply (Hbool "ignore_errors" true); simpl; auto|].
  split; [apply (Hbool "try_image_repair" true); simpl; auto 10|].
  intros k H1 H2 H3 H4 H5. rewrite (Hout k H5).
  destruct (Hcases k) as [[-> _] | [_ Hk]]; [| contradiction].
  simpl.
  destruct (String.eqb k "task") eqn:E1;
    [apply String.eqb_eq in E1; congruence|].
  destruct (String.eqb k "tool") eqn:E2;
    [apply String.eqb_eq in E2; congruence|].
  destruct (String.eqb k "files") eqn:E3;
    [apply String.eqb_eq in E3; congruence|].
  reflexivity.
Qed.

Lemma process_body_witness :
  prop (req_body (process_request ready_session
                    (axios_create "https://assigned-server/v1"
                       [Auth.content_type])
                    (JObj [("ignore_errors", JBool true);
                           ("try_image_repair", JBool true)])
                    (JObj [("multiplier", JNum 2)]))) "task"
  = JStr "assigned-task-id"
  /\ fst (fst (TaskI.process JUndefined (upscale_options (JNum 2))
                 ready_session assigning_world))
     = Normal (JObj [("server", JStr "assigned-server");
                     ("task", JStr "assigned-task-id");
                     ("remaining_files", JNum 255);
                     ("server_filename", JStr "stored.jpg")]).
Proof.
  pose proof (process_body ready_session assigning_world JUndefined
                (upscale_options (JNum 2))
                (axios_create "https://assigned-server/v1" [Auth.content_type])
                (JObj [("ignore_errors", JBool true);
                       ("try_image_repair", JBool true)])
                (JObj [("multiplier", JNum 2)])
                eq_refl eq_refl eq_refl eq_refl eq_refl) as H.
  cbv zeta in H. destruct H as (Hrun & _ & _ & Htask & _).
  split; [exact Htask |].
  rewrite Hrun. reflexivity.
Defined.

(** *** The dispatch on the tool *)

Lemma toolValidators_unknown (key : string) :
  ~ In key tool_names -> TaskUtils.toolValidators key = None.
Proof.
  intros H. unfold TaskUtils.toolValidators.
  destruct (String.eqb key "convertimage") eqn:E1;
    [apply String.eqb_eq in E1; subst; exfalso; apply H; simpl; auto|].
  destruct (String.eqb key "removebackgroundimage") eqn:E2;
    [apply String.eqb_eq in E2; subst; exfalso; apply H; simpl; auto|].
  destruct (String.eqb key "upscaleimage") eqn:E3;
    [apply String.eqb_eq in E3; subst; exfalso; apply H; simpl; auto|].
  destruct (String.eqb key "watermarkimage") eqn:E4;
    [apply String.eqb_eq in E4; subst; exfalso; apply H; simpl; auto|].
  reflexivity.
Qed.

(** X13.  [validateProcessToolOptions] depends on the tool as follows.  A
    tool whose name is none of the four known ones, nor the name of a
    property that every object inherits, gives the [Error]
    "Unsupported tool: {tool}".  For [removebackgroundimage] the result is
    the empty object whatever the options are.  For [convertimage] options
    without a [convertimage] member give [undefined], so that no default is
    filled in, while the member [{}] gives the defaults [to: 'jpg'],
    [gif_time: 50], [gif_loop: true].  For [upscaleimage] and
    [watermarkimage] options without the member of that name are refused
    with a validation error. *)
Theorem validateProcessToolOptions_by_tool {S} (tool options : JsValue)
    (s : S) (w : World) :
  (~ In (to_string tool) tool_names ->
   ~ In (to_string tool) inherited_keys ->
   TaskUtils.validateProcessToolOptions tool options s w
   = (Throw (new_Error ("Unsupported tool: " ++ to_string tool)), s, w))
  /\ TaskUtils.validateProcessToolOptions (JStr "removebackgroundimage")
       options s w
     = (Normal (JObj []), s, w)
  /\ (prop options "convertimage" = JUndefined ->
      TaskUtils.validateProcessToolOptions (JStr "convertimage") options s w
      = (Normal JUndefined, s, w))
  /\ (prop options "convertimage" = JObj [] ->
      TaskUtils.validateProcessToolOptions (JStr "convertimage") options s w
      = (Normal (JObj [("to", JStr "jpg"); ("gif_time", JNum 50);
                       ("gif_loop", JBool true)]), s, w))
  /\ (prop options "upscaleimage" = JUndefined ->
      TaskUtils.validateProcessToolOptions (JStr "upscaleimage") options s w
      = (Throw (ErrorObj ZodError "Invalid input" []), s, w))
  /\ (prop options "watermarkimage" = JUndefined ->
      TaskUtils.validateProcessToolOptions (JStr "watermarkimage") options s w
      = (Throw (ErrorObj ZodError "Invalid input" []), s, w)).
Proof.
  assert (Hm : forall name,
            TaskUtils.optional_member options (JStr name) = prop options name).
  { intros name. unfold TaskUtils.optional_member.
    destruct options; reflexivity. }
  unfold TaskUtils.validateProcessToolOptions.
  split; [| split; [| split; [| split; [| split]]]].
  - intros H _. rewrite (toolValidators_unknown _ H). reflexivity.
  - reflexivity.
  - intros H.
    change (TaskUtils.toolValidators (to_string (JStr "convertimage")))
      with (Some (parse Schema.TaskProcessConvertImageOptions)).
    cbv beta iota. rewrite Hm, H. reflexivity.
  - intros H.
    change (TaskUtils.toolValidators (to_string (JStr "convertimage")))
      with (Some (parse Schema.TaskProcessConvertImageOptions)).
    cbv beta iota. rewrite Hm, H. reflexivity.
  - intros H.
    change (TaskUtils.toolValidators (to_string (JStr "upscaleimage")))
      with (Some (parse Schema.TaskProcessUpscaleImageOptions)).
    cbv beta iota. rewrite Hm, H. reflexivity.
  - intros H.
    change (TaskUtils.toolValidators (to_string (JStr "watermarkimage")))
      with (Some (parse Schema.TaskProcessWatermarkImageOptions)).
    cbv beta iota. rewrite Hm, H. reflexivity.
Qed.

Lemma validateProcessToolOptions_by_tool_witness :
  TaskUtils.validateProcessToolOptions (JStr "resizeimage") (JObj []) tt
    (Toy.world 0 Toy.offline)
  = (Throw (new_Error "Unsupported tool: resizeimage"), tt,
     Toy.world 0 Toy.offline)
  /\ TaskUtils.validateProcessToolOptions (JStr "convertimage")
       (JObj [("to", JStr "png")]) tt (Toy.world 0 Toy.offline)
     = (Normal JUndefined, tt, Toy.world 0 Toy.offline)
  /\ TaskUtils.validateProcessToolOptions (JStr "convertimage")
       (JObj [("convertimage", JObj [])]) tt (Toy.world 0 Toy.offline)
     = (Normal (JObj [("to", JStr "jpg"); ("gif_time", JNum 50);
                      ("gif_loop", JBool true)]), tt, Toy.world 0 Toy.offline)
  /\ TaskUtils.validateProcessToolOptions (JStr "upscaleimage")
       (JObj [("multiplier", JNum 2)]) tt (Toy.world 0 Toy.offline)
     = (Throw (ErrorObj ZodError "Invalid input" []), tt,
        Toy.world 0 Toy.offline)
  /\ TaskUtils.validateProcessToolOptions (JStr "watermarkimage") JNull tt
       (Toy.world 0 Toy.offline)
     = (Throw (ErrorObj ZodError "Invalid input" []), tt,
        Toy.world 0 Toy.offline).
Proof.
  split; [| split; [| split; [| split]]].
  - apply (proj1 (validateProcessToolOptions_by_tool (JStr "resizeimage")
                    (JObj []) tt (Toy.world 0 Toy.offline)));
      simpl; intuition discriminate.
  - apply (proj1 (proj2 (proj2 (validateProcessToolOptions_by_tool
             (JStr "convertimage") (JObj [("to", JStr "png")]) tt
             (Toy.world 0 Toy.offline))))).
    reflexivity.
  - apply (proj1 (proj2 (proj2 (proj2 (validateProcessToolOptions_by_tool
             (JStr "convertimage") (JObj [("convertimage", JObj [])]) tt
             (Toy.world 0 Toy.offline)))))).
    reflexivity.
  - apply (proj1 (proj2 (proj2 (proj2 (proj2
             (validateProcessToolOptions_by_tool
                (JStr "upscaleimage") (JObj [("multiplier", JNum 2)]) tt
                (Toy.world 0 Toy.offline))))))).
    reflexivity.
  - apply (proj2 (proj2 (proj2 (proj2 (proj2
             (validateProcessToolOptions_by_tool
                (JStr "watermarkimage") JNull tt
                (Toy.world 0 Toy.offline))))))).
    reflexivity.
Defined.

(** *** The schema of the upscale tool *)

(** X14.  The upscale options are accepted exactly when they are an object
    whose [multiplier] is the number 2 or the number 4, and the accepted
    value is [{ multiplier }] alone: every other key is dropped.  A missing
    multiplier, another number, and a numeric string are all refused. *)
Theorem upscale_accepts_two_and_four (x r : JsValue) :
  parse Schema.TaskProcessUpscaleImageOptions x = Some r
  <-> exists fs m,
        x = JObj fs /\ prop x "multiplier" = JNum m /\ (m = 2 \/ m = 4)
        /\ r = JObj [("multiplier", JNum m)].
Proof.
  split.
  - destruct x as [ | | | | | | |fs]; try discriminate.
    unfold Schema.TaskProcessUpscaleImageOptions. rewrite parse_object.
    cbn [parse_fields]. cbn [parse].
    set (mv := prop (JObj fs) "multiplier").
    destruct mv eqn:Em; cbn; try discriminate.
    unfold Schema.multiplier_ok.
    destruct (n =? 2) eqn:E2; cbn.
    + apply Z.eqb_eq in E2. subst n.
      destruct (has_key "multiplier" fs); cbn; intros [= <-];
        exists fs, 2; auto.
    + destruct (n =? 4) eqn:E4; cbn; [| discriminate].
      apply Z.eqb_eq in E4. subst n.
      destruct (has_key "multiplier" fs); cbn; intros [= <-];
        exists fs, 4; auto.
  - intros (fs & m & -> & Hm & Hok & ->).
    unfold Schema.TaskProcessUpscaleImageOptions. rewrite parse_object.
    cbn [parse_fields]. cbn [parse]. rewrite Hm.
    destruct Hok as [-> | ->]; cbn;
      destruct (has_key "multiplier" fs); reflexivity.
Qed.

Lemma upscale_accepts_two_and_four_witness :
  parse Schema.TaskProcessUpscaleImageOptions
    (JObj [("multiplier", JNum 4); ("scale", JNum 9)])
  = Some (JObj [("multiplier", JNum 4)])
  /\ parse Schema.TaskProcessUpscaleImageOptions (JObj [("multiplier", JNum 3)])
     = None.
Proof.
  split.
  - apply (proj2 (upscale_accepts_two_and_four
                    (JObj [("multiplier", JNum 4); ("scale", JNum 9)])
                    (JObj [("multiplier", JNum 4)]))).
    exists [("multiplier", JNum 4); ("scale", JNum 9)], 4.
    repeat split. right. reflexivity.
  - destruct (parse Schema.TaskProcessUpscaleImageOptions
                (JObj [("multiplier", JNum 3)])) as [r|] eqn:E; [| reflexivity].
    apply (proj1 (upscale_accepts_two_and_four _ _)) in E.
    destruct E as (fs & m & _ & Hm & [-> | ->] & _); discriminate Hm.
Defined.

(** *** The runs of [start] *)

Section StartRuns.
Context {J : JsonWebToken}.

(** [start] up to the reply of the server. *)
Lemma start_run (options : JsValue) (t : TaskI.TaskI) (w : World)
    (v tok : JsValue) (a' : Auth.Auth) (w1 : World) :
  parse Schema.debug_only (default_arg options (JObj [])) = Some v ->
  Auth.getToken (TaskI.auth t) w = (Normal tok, a', w1) ->
  let debug := truthy (prop options "debug") in
  let req := start_request_of t tok debug in
  let t1 := authorized t a' tok in
  TaskI.start options t w
  = match w_net w1 (w_sent w1) req with
    | Rejected e => (Throw (classifyError e), t1, sent w1 req)
    | Resolved response =>
        if debug then (data_of (Resolved response), t1, sent w1 req)
        else if nullish response then
          (data_of (Resolved response), t1, sent w1 req)
        else if incomplete (prop response "data") then
          (Throw (new_Error "Invalid response: missing required fields"), t1,
           sent w1 req)
        else
          (Normal (JObj [ ("server", prop (prop response "data") "server");
                          ("task_id", prop (prop response "data") "task");
                          ("remaining_files",
                           prop (prop response "data") "remaining_files") ]),
           TaskI._setUploadedFiles (JArr [])
             (TaskI._setRemainingFiles
                (prop (prop response "data") "remaining_files")
                (TaskI._setTaskId (prop (prop response "data") "task")
                   (TaskI._setServer
                      (Some (assigned_client (prop response "data") tok)) t1))),
           sent w1 req)
    end.
Proof.
  intros Ev Ht. cbv zeta.
  pose proof (parse_debug_only _ _ Ev) as Hv.
  unfold TaskI.start, TaskI.rethrow_classified, parseAsync.
  unfold Schema.TaskStartGenericOptions. rewrite Ev.
  unfold bind at 1. unfold ret at 1.
  rewrite Hv.
  unfold try_catch. unfold bind at 1. unfold on_field. rewrite Ht.
  unfold bind at 1. unfold modify at 1.
  unfold bind at 1. unfold gets at 1.
  unfold bind at 1. unfold gets at 1.
  unfold bind at 1.
  cbn [TaskI.fixed_server TaskI.set_fixed_server TaskI.set_auth TaskI.tool].
  unfold start_request_of, task_path, authorized.
  destruct (truthy (prop options "debug")) eqn:Hd; cbn [negb];
    rewrite request_run.
  - destruct (w_net w1 (w_sent w1) _) as [response | e]; [| reflexivity].
    unfold bind, get, data_of.
    destruct (nullish response); reflexivity.
  - rewrite append_empty_r.
    destruct (w_net w1 (w_sent w1) _) as [response | e]; [| reflexivity].
    unfold bind at 1. unfold get at 1. unfold data_of.
    destruct (nullish response); [reflexivity|].
    unfold ret at 1. unfold incomplete.
    destruct (negb (truthy (prop response "data"))
              || negb (truthy (prop (prop response "data") "server"))
              || negb (truthy (prop (prop response "data") "task"))
              || negb (truthy (prop (prop response "data") "remaining_files")))%bool;
      reflexivity.
Qed.

(** X15.  A [start] that is not in debug mode, holds a token [tok] and
    receives a reply whose [data] has a truthy [server], [task] and
    [remaining_files] sends the single request [GET /start/{tool}] through
    the fixed client with the header [Authorization: Bearer {tok}], and
    returns [{ server, task_id, remaining_files }] taken from [data], the
    task under the name [task_id].  Afterwards the accessors report the
    task id and the remaining files of the reply and an empty list of
    uploaded files, the task's client addresses [https://{server}/v1] with
    the same bearer token, the tool is unchanged, and the guard of the other
    methods is passed. *)
Theorem start_assigns (options : JsValue) (t : TaskI.TaskI) (w : World)
    (tok : JsValue) (a' : Auth.Auth) (w1 : World) (response : JsValue) :
  truthy (prop options "debug") = false ->
  parse Schema.debug_only (default_arg options (JObj [])) <> None ->
  Auth.getToken (TaskI.auth t) w = (Normal tok, a', w1) ->
  w_net w1 (w_sent w1) (start_request_of t tok false) = Resolved response ->
  incomplete (prop response "data") = false ->
  let data := prop response "data" in
  exists t',
    TaskI.start options t w
    = (Normal (JObj [ ("server", prop data "server");
                      ("task_id", prop data "task");
                      ("remaining_files", prop data "remaining_files") ]),
       t', sent w1 (start_request_of t tok false))
    /\ TaskI.getTaskId t' = prop data "task"
    /\ TaskI.getRemainingFiles t' = prop data "remaining_files"
    /\ TaskI.getUploadedFiles t' = JArr []
    /\ TaskI.getServer t' = Some (assigned_client data tok)
    /\ TaskI.getTool t' = TaskI.getTool t
    /\ TaskI.auth t' = a'
    /\ TaskI.not_started t' = false.
Proof.
  intros Hd Hp Ht Hn Hi data. subst data.
  destruct (parse Schema.debug_only (default_arg options (JObj [])))
    as [v|] eqn:Ev; [clear Hp | congruence].
  pose proof (start_run options t w v tok a' w1 Ev Ht) as E.
  cbv zeta in E. rewrite Hd, Hn, Hi in E.
  assert (Hr : nullish response = false).
  { destruct response; try reflexivity; discriminate Hi. }
  rewrite Hr in E.
  unfold incomplete in Hi.
  apply orb_false_elim in Hi. destruct Hi as [Hi Hrem].
  apply orb_false_elim in Hi. destruct Hi as [Hi Htask].
  apply negb_false_iff in Hrem, Htask.
  eexists. split; [exact E |].
  unfold TaskI.getTaskId, TaskI.getRemainingFiles, TaskI.getUploadedFiles,
    TaskI.getServer, TaskI.getTool, TaskI.not_started, TaskI.or_undefined, js_or.
  cbn [TaskI.task_id TaskI.remaining_files TaskI.files TaskI.server TaskI.tool
       TaskI.auth TaskI._setUploadedFiles TaskI._setRemainingFiles
       TaskI._setTaskId TaskI._setServer authorized TaskI.set_fixed_server
       TaskI.set_auth].
  rewrite Htask, Hrem. repeat split.
Qed.

(** X16.  A [start] in debug mode that holds a token [tok] sends the single
    request [GET /start/{tool}?debug=true] and returns the [data] of the
    reply as it is; whatever the reply carries, the task id, the task's
    client, the remaining files and the uploaded files stay as they were, so
    a new session is still not started afterwards. *)
Theorem start_debug_assigns_nothing (options : JsValue) (t : TaskI.TaskI)
    (w : World) (tok : JsValue) (a' : Auth.Auth) (w1 : World) :
  truthy (prop options "debug") = true ->
  parse Schema.debug_only (default_arg options (JObj [])) <> None ->
  Auth.getToken (TaskI.auth t) w = (Normal tok, a', w1) ->
  let req := start_request_of t tok true in
  exists t',
    TaskI.start options t w
    = (data_of (w_net w1 (w_sent w1) req), t', sent w1 req)
    /\ req_path req = "/start/" ++ to_string (TaskI.tool t) ++ "?debug=true"
    /\ task_state t' = task_state t
    /\ TaskI.not_started t' = TaskI.not_started t.
Proof.
  intros Hd Hp Ht req. subst req.
  destruct (parse Schema.debug_only (default_arg options (JObj [])))
    as [v|] eqn:Ev; [clear Hp | congruence].
  pose proof (start_run options t w v tok a' w1 Ev Ht) as E.
  cbv zeta in E. rewrite Hd in E.
  exists (authorized t a' tok).
  split; [| repeat split].
  rewrite E.
  destruct (w_net w1 (w_sent w1) _); reflexivity.
Qed.

(** X17.  The failures of [start] past the validation of its options.  When
    [getToken] throws [e], [start] throws [classifyError e] and sends no
    request of its own: the world is the one [getToken] left, and the fixed
    client is untouched.  When the request of [start] is rejected with [e],
    [start] throws [classifyError e]; by then the fixed client carries the
    bearer token.  In both cases the task state is as before. *)
Theorem start_failures (options : JsValue) (t : TaskI.TaskI) (w : World)
    (a' : Auth.Auth) (w1 : World) :
  parse Schema.debug_only (default_arg options (JObj [])) <> None ->
  (forall e,
     Auth.getToken (TaskI.auth t) w = (Throw e, a', w1) ->
     TaskI.start options t w = (Throw (classifyError e), TaskI.set_auth a' t, w1))
  /\ (forall tok e,
        Auth.getToken (TaskI.auth t) w = (Normal tok, a', w1) ->
        let req := start_request_of t tok (truthy (prop options "debug")) in
        w_net w1 (w_sent w1) req = Rejected e ->
        TaskI.start options t w
        = (Throw (classifyError e), authorized t a' tok, sent w1 req)
        /\ task_state (authorized t a' tok) = task_state t).
Proof.
  intros Hp.
  destruct (parse Schema.debug_only (default_arg options (JObj [])))
    as [v|] eqn:Ev; [clear Hp | congruence].
  split.
  - intros e Ht.
    unfold TaskI.start, TaskI.rethrow_classified, parseAsync.
    unfold Schema.TaskStartGenericOptions. rewrite Ev.
    unfold bind at 1. unfold ret at 1. cbv zeta.
    unfold try_catch. unfold bind at 1. unfold on_field. rewrite Ht.
    reflexivity.
  - intros tok e Ht req Hn. subst req.
    pose proof (start_run options t w v tok a' w1 Ev Ht) as E.
    cbv zeta in E. rewrite Hn in E. split; [exact E | reflexivity].
Qed.

End StartRuns.

Lemma start_assigns_witness :
  exists t',
    TaskI.start JUndefined new_session assigning_world
    = (Normal (JObj [ ("server", JStr "assigned-server");
                      ("task_id", JStr "assigned-task-id");
                      ("remaining_files", JNum 255) ]),
       t',
       sent (snd (Auth.getToken signer assigning_world))
         (start_request_of new_session (JStr "1700003600") false))
    /\ TaskI.getTaskId t' = JStr "assigned-task-id"
    /\ TaskI.getRemainingFiles t' = JNum 255
    /\ TaskI.getUploadedFiles t' = JArr []
    /\ TaskI.getServer t'
       = Some (axios_create "https://assigned-server/v1"
                 [ ("Content-Type", "application/json;charset=UTF-8");
                   ("Authorization", "Bearer 1700003600") ])
    /\ TaskI.getTool t' = JStr "upscaleimage"
    /\ TaskI.auth t' = snd (fst (Auth.getToken signer assigning_world))
    /\ TaskI.not_started t' = false.
Proof.
  exact (start_assigns JUndefined new_session assigning_world
           (JStr "1700003600")
           (snd (fst (Auth.getToken signer assigning_world)))
           (snd (Auth.getToken signer assigning_world))
           (JObj [("status", JNum 200);
                  ("data", JObj [("server", JStr "assigned-server");
                                 ("task", JStr "assigned-task-id");
                                 ("remaining_files", JNum 255);
                                 ("server_filename", JStr "stored.jpg")])])
           eq_refl ltac:(discriminate) eq_refl eq_refl eq_refl).
Defined.

Lemma start_debug_assigns_nothing_witness :
  exists t',
    TaskI.start (JObj [("debug", JBool true)]) new_session assigning_world
    = (Normal (JObj [("server", JStr "assigned-server");
                     ("task", JStr "assigned-task-id");
                     ("remaining_files", JNum 255);
                     ("server_filename", JStr "stored.jpg")]),
       t',
       sent (snd (Auth.getToken signer assigning_world))
         (start_request_of new_session (JStr "1700003600") true))
    /\ req_path (start_request_of new_session (JStr "1700003600") true)
       = "/start/upscaleimage?debug=true"
    /\ task_state t' = (JUndefined, None, JUndefined, JUndefined)
    /\ TaskI.not_started t' = true.
Proof.
  exact (start_debug_assigns_nothing (JObj [("debug", JBool true)]) new_session
           assigning_world (JStr "1700003600")
           (snd (fst (Auth.getToken signer assigning_world)))
           (snd (Auth.getToken signer assigning_world))
           eq_refl ltac:(discriminate) eq_refl).
Defined.

Lemma start_failures_witness :
  TaskI.start JUndefined
    (TaskI.new (Toy.auth_with JUndefined (JStr "")) Toy.client
       (JStr "convertimage"))
    (Toy.world 0 Toy.offline)
  = (Throw (new_NetworkError "No response received from the server."
              (ErrorObj AxiosError "Network Error" [("request", JObj [])])),
     TaskI.new (Toy.auth_with JUndefined (JStr "")) Toy.client
       (JStr "convertimage"),
     sent (Toy.world 0 Toy.offline)
       (auth_request (Toy.auth_with JUndefined (JStr ""))))
  /\ fst (fst (TaskI.start JUndefined new_session (Toy.world 0 Toy.offline)))
     = Throw (new_NetworkError "No response received from the server."
                (ErrorObj AxiosError "Network Error" [("request", JObj [])])).
Proof.
  split.
  - exact (proj1 (start_failures JUndefined
                    (TaskI.new (Toy.auth_with JUndefined (JStr "")) Toy.client
                       (JStr "convertimage"))
                    (Toy.world 0 Toy.offline)
                    (Toy.auth_with JUndefined (JStr ""))
                    (sent (Toy.world 0 Toy.offline)
                       (auth_request (Toy.auth_with JUndefined (JStr ""))))
                    ltac:(discriminate))
             (new_NetworkError "No response received from the server."
                (ErrorObj AxiosError "Network Error" [("request", JObj [])]))
             eq_refl).
  - pose proof (proj2 (start_failures JUndefined new_session
                         (Toy.world 0 Toy.offline)
                         (snd (fst (Auth.getToken signer (Toy.world 0 Toy.offline))))
                         (snd (Auth.getToken signer (Toy.world 0 Toy.offline)))
                         ltac:(discriminate))
                  (JStr "3600")
                  (ErrorObj AxiosError "Network Error" [("request", JObj [])])
                  eq_refl eq_refl) as [E _].
    rewrite E. reflexivity.
Defined.

(** *** What the calls of a session keep *)

Lemma wp_on_field_post {S T A} (proj : S -> T) (set : T -> S -> S) (m : M T A)
    (P : Completion A -> T -> World -> Prop)
    (Q : Completion A -> S -> World -> Prop) s w :
  wp m P (proj s) w ->
  (forall r t' w', P r t' w' -> Q r (set t' s) w') ->
  wp (on_field proj set m) Q s w.
Proof.
  unfold wp, on_field. destruct (m (proj s) w) as [[r t'] w'].
  intros H HQ. apply HQ. exact H.
Qed.

Ltac wp_all :=
  lazymatch goal with
  | |- wp (bind _ _) _ _ _ => apply wp_bind
  | |- wp (try_catch _ _) _ _ _ => apply wp_try_catch
  | |- wp (ret _) _ _ _ => apply wp_ret
  | |- wp (throw _) _ _ _ => apply wp_throw
  | |- wp (gets _) _ _ _ => apply wp_gets
  | |- wp (modify _) _ _ _ => apply wp_modify
  | |- wp (of_completion ?c) _ _ _ => apply wp_of_completion; destruct c eqn:?
  | |- wp (emit _) _ _ _ => apply wp_emit
  | |- wp Date_now _ _ _ => apply wp_Date_now
  | |- wp (request _ _ _ _) _ _ _ => apply wp_request_sent; intros [?|?]
  | |- wp (get _ _) _ _ _ => apply wp_get; [| intros ?]
  | |- wp (parseAsync _ _) _ _ _ => apply wp_parseAsync; [intros ? ? | intros ?]
  | |- wp (if ?b then _ else _) _ _ _ => destruct b eqn:?
  end; cbn [negb]; cbv beta iota.

Section Kept.
Context {J : JsonWebToken}.

(** [getToken] reads the clock and the network as they are, and sends one
    request at most, none when a secret key is set. *)
Lemma getToken_effects (a : Auth.Auth) (w : World) :
  wp Auth.getToken
    (fun r a' w' =>
       same_keys a a'
       /\ w_now w' = w_now w /\ w_net w' = w_net w
       /\ (w_sent w' = w_sent w
           \/ (truthy (Auth.secretKey a) = false
               /\ w_sent w' = Datatypes.S (w_sent w)))) a w.
Proof.
  unfold Auth.getToken, Auth.verifyToken, Auth.getTokenLocally,
    Auth.getTokenFromServer.
  repeat wp_all;
    cbn [Auth.secretKey Auth.set_token sent w_now w_net w_sent] in *;
    (split; [unfold same_keys; repeat split |]);
    (split; [reflexivity |]); (split; [reflexivity |]);
    solve [left; reflexivity | right; split; [assumption | reflexivity]
          | exfalso; congruence].
Qed.

(** What [start] keeps, and what it does to the task state. *)
Lemma start_keeps (options : JsValue) (t : TaskI.TaskI) (w : World) :
  wp (TaskI.start options)
    (fun r t' w' =>
       TaskI.tool t' = TaskI.tool t
       /\ same_keys (TaskI.auth t) (TaskI.auth t')
       /\ baseURL (TaskI.fixed_server t') = baseURL (TaskI.fixed_server t)
       /\ (task_state t' = task_state t
           \/ (truthy (TaskI.task_id t') = true /\ TaskI.server t' <> None
               /\ truthy (TaskI.remaining_files t') = true
               /\ TaskI.files t' = JArr []))) t w.
Proof.
  unfold TaskI.start, TaskI.rethrow_classified.
  apply wp_bind. apply wp_parseAsync.
  - intros v Hv. cbv zeta.
    apply wp_try_catch. apply wp_bind.
    eapply wp_on_field_post; [apply getToken_effects |].
    cbv beta. intros r a' w1 (Hk & _).
    destruct r as [tok | e];
      [| apply wp_throw;
         split; [reflexivity |]; split; [exact Hk |]; split; [reflexivity |];
         left; reflexivity].
    repeat wp_all;
      cbn [TaskI.tool TaskI.auth TaskI.fixed_server TaskI.set_fixed_server
           TaskI.set_auth TaskI._setServer TaskI._setTaskId
           TaskI._setRemainingFiles TaskI._setUploadedFiles with_header baseURL];
      (split; [reflexivity |]); (split; [exact Hk |]); (split; [reflexivity |]);
      try (left; reflexivity).
    right.
    match goal with
    | Hc : (_ || _)%bool = false |- _ =>
        apply orb_false_elim in Hc; destruct Hc as [Hc Hrem];
        apply orb_false_elim in Hc; destruct Hc as [_ Htask];
        apply negb_false_iff in Hrem, Htask
    end.
    cbn [TaskI.task_id TaskI.server TaskI.remaining_files TaskI.files].
    repeat split; [assumption | discriminate | assumption].
  - intros e. repeat split.
    left. reflexivity.
Qed.

Lemma run_keeps (c : Session.Call) (t : TaskI.TaskI) (w : World) r t' w' :
  Session.run c t w = (r, t', w') ->
  TaskI.tool t' = TaskI.tool t
  /\ same_keys (TaskI.auth t) (TaskI.auth t')
  /\ baseURL (TaskI.fixed_server t') = baseURL (TaskI.fixed_server t)
  /\ (task_state t' = task_state t
      \/ (truthy (TaskI.task_id t') = true /\ TaskI.server t' <> None
          /\ truthy (TaskI.remaining_files t') = true
          /\ TaskI.files t' = JArr [])).
Proof.
  intros E.
  destruct (is_start c) eqn:Hc.
  - destruct c; try discriminate. simpl in E.
    exact (wp_elim _ _ _ _ _ _ _ (start_keeps options t w) E).
  - assert (F : frames (Session.run c)).
    { apply run_frames_but_start. intros o ->. discriminate. }
    rewrite (frames_elim _ _ _ _ _ _ F E).
    repeat split. left. reflexivity.
Qed.

Lemma same_keys_trans (a b c : Auth.Auth) :
  same_keys a b -> same_keys b c -> same_keys a c.
Proof.
  unfold same_keys. intros (-> & -> & -> & ->) (-> & -> & -> & ->). auto.
Qed.

Lemma follows_keeps (t0 t : TaskI.TaskI) :
  follows t0 t ->
  TaskI.tool t = TaskI.tool t0
  /\ same_keys (TaskI.auth t0) (TaskI.auth t)
  /\ baseURL (TaskI.fixed_server t) = baseURL (TaskI.fixed_server t0).
Proof.
  induction 1 as [| t c w r t' w' _ IH E].
  - repeat split.
  - destruct IH as (IHt & IHk & IHb).
    destruct (run_keeps c t w r t' w' E) as (Ht & Hk & Hb & _).
    split; [congruence |].
    split; [exact (same_keys_trans _ _ _ IHk Hk) | congruence].
Qed.

(** X18.  Whatever public calls are made on a session, with whatever
    options, at whatever times and whatever the network answers, the tool
    of the session, the public key, the secret key and the token options of
    its token manager, and the base URL of its fixed client stay those of
    the session the calls began with. *)
Theorem calls_keep_tool_and_keys (t0 t : TaskI.TaskI) :
  follows t0 t ->
  TaskI.tool t = TaskI.tool t0
  /\ Auth.publicKey (TaskI.auth t) = Auth.publicKey (TaskI.auth t0)
  /\ Auth.secretKey (TaskI.auth t) = Auth.secretKey (TaskI.auth t0)
  /\ Auth.tokenOptions (TaskI.auth t) = Auth.tokenOptions (TaskI.auth t0)
  /\ baseURL (TaskI.fixed_server t) = baseURL (TaskI.fixed_server t0).
Proof.
  intros F.
  destruct (follows_keeps t0 t F) as (Ht & (Hp & Hs & Ho & _) & Hb). auto.
Qed.

(** X19.  On every session obtained from a new one by public calls, the
    task id, the task's client, the remaining files and the uploaded files
    are either all unset, or the task id and the remaining files are truthy,
    the client is set and the list of uploaded files is the empty array:
    no public call sets one of the four without the others. *)
Theorem task_state_all_or_nothing (a : Auth.Auth) (fixed : AxiosInstance)
    (taskType : JsValue) (t : TaskI.TaskI) :
  follows (TaskI.new a fixed taskType) t -> all_or_nothing t.
Proof.
  intros F. remember (TaskI.new a fixed taskType) as t0 eqn:E0.
  induction F as [| t c w r t' w' _ IH E].
  - subst t0. left. reflexivity.
  - destruct (run_keeps c t w r t' w' E) as (_ & _ & _ & [Hsame | Hset]).
    + unfold all_or_nothing in *. unfold task_state in Hsame.
      injection Hsame as Hid Hsrv Hrem Hf.
      unfold task_state. rewrite Hid, Hsrv, Hrem, Hf. exact IH.
    + right. exact Hset.
Qed.

End Kept.

Lemma follows_after_start : follows new_session after_start.
Proof.
  apply (follows_call new_session new_session (Session.CallStart JUndefined)
           assigning_world
           (fst (fst (TaskI.start JUndefined new_session assigning_world)))
           after_start
           (snd (TaskI.start JUndefined new_session assigning_world))).
  - apply follows_here.
  - reflexivity.
Qed.

Lemma calls_keep_tool_and_keys_witness :
  TaskI.tool after_start = JStr "upscaleimage"
  /\ Auth.publicKey (TaskI.auth after_start) = JStr "publicKey"
  /\ Auth.secretKey (TaskI.auth after_start) = JStr "secretKey"
  /\ Auth.tokenOptions (TaskI.auth after_start)
     = JObj [("iss", JStr "api.ilovepdf.com"); ("age", JNum 3600)]
  /\ baseURL (TaskI.fixed_server after_start) = "https://api.ilovepdf.com/v1".
Proof.
  exact (calls_keep_tool_and_keys new_session after_start follows_after_start).
Defined.

Lemma task_state_all_or_nothing_witness : all_or_nothing after_start.
Proof.
  exact (task_state_all_or_nothing (Toy.auth_with JUndefined (JStr "secretKey"))
           Toy.client (JStr "upscaleimage") after_start follows_after_start).
Defined.

(** *** The requests of [getToken] *)

(** X20.  [getToken] sends at most one request, and none at all when the
    manager has a secret key, whatever the cached token is and whatever
    [jsonwebtoken] does; it leaves the clock and the network as they are. *)
Theorem getToken_sends_at_most_once {J : JsonWebToken} (a : Auth.Auth)
    (w : World) :
  let w' := snd (Auth.getToken a w) in
  w_now w' = w_now w /\ w_net w' = w_net w
  /\ (w_sent w <= w_sent w' <= Datatypes.S (w_sent w))%nat
  /\ (truthy (Auth.secretKey a) = true -> w_sent w' = w_sent w).
Proof.
  pose proof (getToken_effects a w) as H. unfold wp in H. cbv zeta.
  destruct (Auth.getToken a w) as [[r a'] w']. cbn [snd].
  destruct H as (_ & Hnow & Hnet & Hsent).
  split; [exact Hnow |]. split; [exact Hnet |].
  split.
  - destruct Hsent as [-> | [_ ->]]; lia.
  - intros Hs. destruct Hsent as [Hsent | [Hno _]]; [exact Hsent | congruence].
Qed.

Lemma getToken_sends_at_most_once_witness :
  w_sent (snd (Auth.getToken signer (Toy.world 0 Toy.offline))) = 0%nat.
Proof.
  exact (proj2 (proj2 (proj2 (getToken_sends_at_most_once signer
                                (Toy.world 0 Toy.offline)))) eq_refl).
Defined.

(** *** [ILoveIMGApi]: new sessions *)

Lemma parse_ZEnum (values : list string) (v r : JsValue) :
  parse (ZEnum values) v = Some r <-> exists s, v = JStr s /\ In s values /\ r = v.
Proof.
  cbn [parse]. split.
  - destruct v as [ | | | | |s| | ]; try discriminate.
    destruct (existsb (String.eqb s) values) eqn:E; [| discriminate].
    intros [= <-]. exists s. split; [reflexivity |]. split; [| reflexivity].
    apply existsb_exists in E. destruct E as (x & Hx & Hs).
    apply String.eqb_eq in Hs. subst x. exact Hx.
  - intros (s & -> & Hs & ->).
    assert (E : existsb (String.eqb s) values = true).
    { apply existsb_exists. exists s. split; [exact Hs | apply String.eqb_refl]. }
    rewrite E. reflexivity.
Qed.

Lemma toolValidators_known (key : string) :
  In key tool_names -> TaskUtils.toolValidators key <> None.
Proof.
  simpl. intros [<- | [<- | [<- | [<- | []]]]]; discriminate.
Qed.

(** X21.  [newTask] accepts exactly the four tool names, as strings: for
    them it returns a new session for that tool, on which nothing is
    started; every other value is refused with a validation error.  On the
    session it returns, and after any public calls on it, the tool is the
    one given and [validateProcessToolOptions] knows it, so that [process]
    never meets an unsupported tool. *)
Theorem newTask_sessions {J : JsonWebToken} (type : JsValue)
    (i : ILoveIMGApi.ILoveIMGApi) :
  ((exists name, type = JStr name /\ In name tool_names) ->
   exists t0,
     ILoveIMGApi.newTask type i = Normal t0
     /\ Session.unstarted t0
     /\ TaskI.getTool t0 = type
     /\ task_state t0 = (JUndefined, None, JUndefined, JUndefined)
     /\ forall t, follows t0 t ->
          TaskI.tool t = type
          /\ TaskUtils.toolValidators (to_string (TaskI.tool t)) <> None)
  /\ (~ (exists name, type = JStr name /\ In name tool_names) ->
      ILoveIMGApi.newTask type i = Throw (ErrorObj ZodError "Invalid input" [])).
Proof.
  unfold ILoveIMGApi.newTask. split.
  - intros (name & -> & Hn).
    assert (Hp : parse ToolSchema.ToolTypes (JStr name) = Some (JStr name)).
    { apply parse_ZEnum. exists name. auto. }
    rewrite Hp. eexists. split; [reflexivity |].
    split; [apply Session.unstarted_new |].
    split.
    { unfold TaskI.getTool, TaskI.or_undefined, js_or. cbn [TaskI.new TaskI.tool].
      destruct name; [| reflexivity].
      exfalso. simpl in Hn. intuition discriminate. }
    split; [reflexivity |].
    intros t F. destruct (follows_keeps _ _ F) as (Ht & _).
    rewrite Ht. cbn [TaskI.new TaskI.tool]. split; [reflexivity |].
    apply toolValidators_known. exact Hn.
  - intros Hno.
    destruct (parse ToolSchema.ToolTypes type) as [r|] eqn:E; [| reflexivity].
    exfalso. apply Hno. apply parse_ZEnum in E.
    destruct E as (s & Hs & Hin & _). exists s. auto.
Qed.

Lemma newTask_sessions_witness :
  (exists t0,
     ILoveIMGApi.newTask (JStr "upscaleimage") sample_api = Normal t0
     /\ Session.unstarted t0
     /\ TaskI.getTool t0 = JStr "upscaleimage"
     /\ task_state t0 = (JUndefined, None, JUndefined, JUndefined)
     /\ forall t, follows t0 t ->
          TaskI.tool t = JStr "upscaleimage"
          /\ TaskUtils.toolValidators (to_string (TaskI.tool t)) <> None)
  /\ ILoveIMGApi.newTask (JStr "resizeimage") sample_api
     = Throw (ErrorObj ZodError "Invalid input" []).
Proof.
  split.
  - apply (proj1 (newTask_sessions (JStr "upscaleimage") sample_api)).
    exists "upscaleimage". split; [reflexivity |]. simpl. auto.
  - apply (proj2 (newTask_sessions (JStr "resizeimage") sample_api)).
    intros (name & [= <-] & Hn). simpl in Hn. intuition discriminate.
Defined.

(** *** [ILoveIMGApi]: the list of tasks *)

Lemma ListTasksOptions_nodup : NoDup (keys_of ApiSchema.ListTasksOptions).
Proof. nodup_keys. Qed.

Lemma parse_optional_number (x r : JsValue) :
  parse (ZOptional ZNumber) x = Some r ->
  r = x /\ (r = JUndefined \/ exists n, r = JNum n).
Proof.
  destruct x; cbn; try discriminate; intros [= <-]; split; eauto.
Qed.

Lemma parse_optional_enum (values : list string) (x r : JsValue) :
  parse (ZOptional (ZEnum values)) x = Some r ->
  r = x /\ (r = JUndefined \/ exists s, r = JStr s /\ In s values).
Proof.
  rewrite parse_ZOptional.
  destruct (is_undefined x) eqn:E.
  - intros [= <-]. destruct x; try discriminate. auto.
  - intros H. apply parse_ZEnum in H. destruct H as (s & -> & Hs & ->).
    split; [reflexivity |]. right. exists s. auto.
Qed.

Section ListTasks.
Context {J : JsonWebToken}.

Lemma listTasks_run (options : JsValue) (i : ILoveIMGApi.ILoveIMGApi)
    (w : World) (v tok : JsValue) (a' : Auth.Auth) (w1 : World) :
  bad_string (ILoveIMGApi.secretKey i) = false ->
  parse ApiSchema.ListTasksOptions (default_arg options (JObj [])) = Some v ->
  Auth.getToken (ILoveIMGApi.auth i) w = (Normal tok, a', w1) ->
  let req :=
    mkRequest POST
      (with_header "Authorization" ("Bearer " ++ to_string tok)
         (ILoveIMGApi.fixedServer i))
      "/task"
      (JObj (spread [("secret_key", ILoveIMGApi.secretKey i)] v)) in
  ILoveIMGApi.listTasks options i w
  = (data_of (w_net w1 (w_sent w1) req), api_authorized i a' tok, sent w1 req).
Proof.
  intros Hs Hp Ht. cbv zeta.
  unfold ILoveIMGApi.listTasks. unfold bind at 1. unfold gets at 1.
  unfold bad_string in Hs. rewrite Hs.
  unfold bind at 1. unfold parseAsync. rewrite Hp. unfold ret at 1.
  unfold try_catch. unfold bind at 1. unfold on_field. rewrite Ht.
  unfold bind at 1. unfold modify at 1.
  unfold bind at 1. unfold gets at 1.
  unfold bind at 1. rewrite request_run.
  cbn [ILoveIMGApi.fixedServer ILoveIMGApi.set_fixedServer ILoveIMGApi.set_auth
       ILoveIMGApi.secretKey].
  unfold api_authorized, data_of.
  destruct (w_net w1 (w_sent w1) _) as [response | e]; [| reflexivity].
  unfold get. destruct (nullish response); reflexivity.
Qed.

(** X22.  [listTasks] first requires a secret key: when the secret key of
    the entry point is falsy or not a string it throws the [Error] "Secret
    key required for list tasks." whatever the options are, before they are
    validated.  With a secret key, options that the schema refuses give a
    validation error.  In both cases no token is fetched or signed, no
    request is sent and no field changes. *)
Theorem listTasks_guards (options : JsValue) (i : ILoveIMGApi.ILoveIMGApi)
    (w : World) :
  (bad_string (ILoveIMGApi.secretKey i) = true ->
   ILoveIMGApi.listTasks options i w
   = (Throw (new_Error "Secret key required for list tasks."), i, w))
  /\ (bad_string (ILoveIMGApi.secretKey i) = false ->
      parse ApiSchema.ListTasksOptions (default_arg options (JObj [])) = None ->
      ILoveIMGApi.listTasks options i w
      = (Throw (ErrorObj ZodError "Invalid input" []), i, w)).
Proof.
  unfold bad_string, ILoveIMGApi.listTasks. split.
  - intros Hs. unfold bind at 1. unfold gets at 1. rewrite Hs. reflexivity.
  - intros Hs Hp. unfold bind at 1. unfold gets at 1. rewrite Hs.
    unfold bind at 1. unfold parseAsync. rewrite Hp. reflexivity.
Qed.

(** X23.  With a secret key, accepted options and a token [tok],
    [listTasks] sends the single request [POST /task] through the fixed
    client with the header [Authorization: Bearer {tok}] and returns the
    [data] of the reply; a rejection [e] is thrown as [classifyError e].
    The body carries the secret key of the entry point under [secret_key],
    which the options cannot replace; [page] and [custom_int] are those of
    the options, numbers when present; [tool] is one of the four tool names
    and [status] one of the seven status names, when present; [debug] is
    that of the options; and there is no other key. *)
Theorem listTasks_request (options : JsValue) (i : ILoveIMGApi.ILoveIMGApi)
    (w : World) (tok : JsValue) (a' : Auth.Auth) (w1 : World) :
  bad_string (ILoveIMGApi.secretKey i) = false ->
  parse ApiSchema.ListTasksOptions (default_arg options (JObj [])) <> None ->
  Auth.getToken (ILoveIMGApi.auth i) w = (Normal tok, a', w1) ->
  exists body,
    let req :=
      mkRequest POST
        (with_header "Authorization" ("Bearer " ++ to_string tok)
           (ILoveIMGApi.fixedServer i))
        "/task" body in
    ILoveIMGApi.listTasks options i w
    = (data_of (w_net w1 (w_sent w1) req), api_authorized i a' tok, sent w1 req)
    /\ prop body "secret_key" = ILoveIMGApi.secretKey i
    /\ prop body "page" = prop options "page"
    /\ (prop body "page" = JUndefined \/ exists n, prop body "page" = JNum n)
    /\ prop body "custom_int" = prop options "custom_int"
    /\ (prop body "custom_int" = JUndefined
        \/ exists n, prop body "custom_int" = JNum n)
    /\ (prop body "tool" = JUndefined
        \/ exists s, prop body "tool" = JStr s /\ In s tool_names)
    /\ (prop body "status" = JUndefined
        \/ exists s, prop body "status" = JStr s /\ In s status_names)
    /\ prop body "debug" = prop options "debug"
    /\ forall k, ~ In k ("secret_key" :: keys_of ApiSchema.ListTasksOptions) ->
         prop body k = JUndefined.
Proof.
  intros Hs Hp Ht.
  destruct (parse ApiSchema.ListTasksOptions (default_arg options (JObj [])))
    as [v|] eqn:Ev; [clear Hp | congruence].
  exists (JObj (spread [("secret_key", ILoveIMGApi.secretKey i)] v)).
  cbv zeta. split; [exact (listTasks_run options i w v tok a' w1 Hs Ev Ht) |].
  assert (Hopt : forall k, prop (default_arg options (JObj [])) k = prop options k)
    by (intros k; destruct options; reflexivity).
  assert (Hbody : forall k, k <> "secret_key" ->
            prop (JObj (spread [("secret_key", ILoveIMGApi.secretKey i)] v)) k
            = prop v k).
  { intros k Hk.
    rewrite (prop_spread_schema ApiSchema.ListTasksOptions _ v _ k
               ltac:(discriminate) ListTasksOptions_nodup Ev).
    destruct (parse_object_inv _ _ _ Ev) as (fs & out & _ & -> & _).
    cbn [prop lookup]. destruct (lookup k out); [reflexivity |].
    destruct (String.eqb k "secret_key") eqn:E; [| reflexivity].
    apply String.eqb_eq in E. contradiction. }
  pose proof (parse_schema_field _ _ _ "page" _ ListTasksOptions_nodup Ev
                ltac:(simpl; auto 10)) as Hpage.
  pose proof (parse_schema_field _ _ _ "tool" _ ListTasksOptions_nodup Ev
                ltac:(simpl; auto 10)) as Htool.
  pose proof (parse_schema_field _ _ _ "status" _ ListTasksOptions_nodup Ev
                ltac:(simpl; auto 10)) as Hstatus.
  pose proof (parse_schema_field _ _ _ "custom_int" _ ListTasksOptions_nodup Ev
                ltac:(simpl; auto 10)) as Hint.
  pose proof (parse_schema_field _ _ _ "debug" _ ListTasksOptions_nodup Ev
                ltac:(simpl; auto 10)) as Hdebug.
  apply parse_optional_number in Hpage, Hint.
  apply parse_optional_enum in Htool, Hstatus.
  apply parse_optional_boolean_id in Hdebug.
  rewrite Hopt in Hpage, Hint, Hdebug.
  split.
  { rewrite (prop_spread_schema ApiSchema.ListTasksOptions _ v _ "secret_key"
               ltac:(discriminate) ListTasksOptions_nodup Ev).
    destruct (parse_object_inv _ _ _ Ev) as (fs & out & _ & -> & Hf).
    destruct (lookup "secret_key" out) eqn:E; [| reflexivity].
    exfalso.
    assert (Hin : In "secret_key" (keys_of ApiSchema.ListTasksOptions)).
    { apply (parse_fields_keys _ _ _ _ "secret_key" Hf). congruence. }
    simpl in Hin. intuition discriminate. }
  rewrite !Hbody by discriminate.
  split; [exact (proj1 Hpage) |]. split; [exact (proj2 Hpage) |].
  split; [exact (proj1 Hint) |]. split; [exact (proj2 Hint) |].
  split; [exact (proj2 Htool) |]. split; [exact (proj2 Hstatus) |].
  split; [exact Hdebug |].
  intros k Hk.
  rewrite Hbody by (intros ->; apply Hk; left; reflexivity).
  apply (parse_schema_keys ApiSchema.ListTasksOptions _ _ k ltac:(discriminate) Ev).
  intros Hin. apply Hk. right. exact Hin.
Qed.



End ListTasks.

Lemma listTasks_guards_witness :
  ILoveIMGApi.listTasks (JNum 1)
    (ILoveIMGApi.mkApi (JStr "publicKey") (JStr "")
       (Toy.auth_with JUndefined (JStr "")) Toy.client)
    (Toy.world 0 Toy.offline)
  = (Throw (new_Error "Secret key required for list tasks."),
     ILoveIMGApi.mkApi (JStr "publicKey") (JStr "")
       (Toy.auth_with JUndefined (JStr "")) Toy.client,
     Toy.world 0 Toy.offline)
  /\ ILoveIMGApi.listTasks (JObj [("tool", JStr "resizeimage")]) sample_api
       (Toy.world 0 Toy.offline)
     = (Throw (ErrorObj ZodError "Invalid input" []), sample_api,
        Toy.world 0 Toy.offline).
Proof.
  split.
  - apply (proj1 (listTasks_guards (JNum 1)
                    (ILoveIMGApi.mkApi (JStr "publicKey") (JStr "")
                       (Toy.auth_with JUndefined (JStr "")) Toy.client)
                    (Toy.world 0 Toy.offline))).
    reflexivity.
  - apply (proj2 (listTasks_guards (JObj [("tool", JStr "resizeimage")])
                    sample_api (Toy.world 0 Toy.offline)));
      reflexivity.
Defined.

Lemma listTasks_request_witness :
  exists body,
    ILoveIMGApi.listTasks (JObj [("page", JNum 2); ("secret_key", JStr "other")])
      sample_api assigning_world
    = (data_of (w_net (snd (Auth.getToken signer assigning_world))
                  (w_sent (snd (Auth.getToken signer assigning_world)))
                  (mkRequest POST
                     (with_header "Authorization" "Bearer 1700003600" Toy.client)
                     "/task" body)),
       api_authorized sample_api
         (snd (fst (Auth.getToken signer assigning_world))) (JStr "1700003600"),
       sent (snd (Auth.getToken signer assigning_world))
         (mkRequest POST
            (with_header "Authorization" "Bearer 1700003600" Toy.client)
            "/task" body))
    /\ prop body "secret_key" = JStr "secretKey"
    /\ prop body "page" = JNum 2.
Proof.
  destruct (listTasks_request
              (JObj [("page", JNum 2); ("secret_key", JStr "other")])
              sample_api assigning_world (JStr "1700003600")
              (snd (fst (Auth.getToken signer assigning_world)))
              (snd (Auth.getToken signer assigning_world))
              eq_refl ltac:(discriminate) eq_refl)
    as (body & E & Hsk & Hpage & _).
  exists body. split; [exact E |]. split; [exact Hsk | exact Hpage].
Defined.


(** *** [Task]: a handle on a known task *)

Lemma good_string_filled (x : JsValue) :
  (negb (truthy x) || negb (is_string x))%bool = false -> filled_string x.
Proof.
  intros H. apply orb_false_elim in H. destruct H as [Ht Hs].
  apply negb_false_iff in Ht, Hs.
  destruct x; try discriminate.
  exists s. split; [reflexivity |]. intros ->. discriminate.
Qed.

(** X25.  A handle that the [Task] constructor returns was given a task id
    and a task server that are non-empty strings; it holds that task id, a
    client for [https://{taskServer}/v1] with the JSON content type and no
    [Authorization] header yet, and the token manager that the [Auth]
    constructor makes of the same keys and options. *)
Theorem Task_new_accepts (publicKey secretKey taskId taskServer params : JsValue)
    (t : Task.Task) :
  Task.new publicKey secretKey taskId taskServer params = Normal t ->
  filled_string taskId /\ filled_string taskServer
  /\ Task.task_id t = taskId
  /\ Task.server t
     = mkAxios ("https://" ++ to_string taskServer ++ "/v1")
         [("Content-Type", "application/json;charset=UTF-8")]
  /\ Auth.new publicKey secretKey params = Normal (Task.auth t)
  /\ Auth.token (Task.auth t) = JUndefined.
Proof.
  unfold Task.new.
  destruct (negb (truthy taskId) || negb (truthy taskServer)
            || negb (is_string taskId) || negb (is_string taskServer))%bool
    eqn:Hg; [discriminate |].
  apply orb_false_elim in Hg. destruct Hg as [Hg Hss].
  apply orb_false_elim in Hg. destruct Hg as [Hg Hsi].
  apply orb_false_elim in Hg. destruct Hg as [Hti Hts].
  destruct (Auth.new publicKey (default_arg secretKey (JStr ""))
              (default_arg params (JObj []))) as [a | e] eqn:Ea;
    [| discriminate].
  intros [= <-]. cbn [Task.task_id Task.server Task.auth].
  assert (Hsame : Auth.new publicKey secretKey params = Normal a).
  { rewrite <- Ea. unfold Auth.new.
    destruct secretKey; destruct params; reflexivity. }
  split; [apply good_string_filled; rewrite Hti, Hsi; reflexivity |].
  split; [apply good_string_filled; rewrite Hts, Hss; reflexivity |].
  split; [reflexivity |]. split; [reflexivity |]. split; [exact Hsame |].
  exact (proj1 (proj2 (proj2 (Auth_new_tokenOptions _ _ _ _ Hsame)))).
Qed.

Lemma Task_new_accepts_witness :
  filled_string (JStr "assigned-task-id") /\ filled_string (JStr "assigned-server")
  /\ Task.task_id sample_task = JStr "assigned-task-id"
  /\ Task.server sample_task
     = mkAxios "https://assigned-server/v1"
         [("Content-Type", "application/json;charset=UTF-8")]
  /\ Auth.new (JStr "publicKey") (JStr "secretKey") JUndefined
     = Normal (Task.auth sample_task)
  /\ Auth.token (Task.auth sample_task) = JUndefined.
Proof.
  exact (Task_new_accepts (JStr "publicKey") (JStr "secretKey")
           (JStr "assigned-task-id") (JStr "assigned-server") JUndefined
           sample_task eq_refl).
Defined.

Section TaskRuns.
Context {J : JsonWebToken}.

(** X26.  With accepted options and a token [tok], [download] and
    [details] of a [Task] each send one request without body through the
    handle's client, which by then carries [Authorization: Bearer {tok}]:
    [GET /download/{id}] and [GET /task/{id}], with [?debug=true] appended
    exactly in debug mode.  [download] returns the whole response, or
    [response.data] in debug mode; [details] returns [response.data]; a
    rejection [e] is thrown as [classifyError e].  No earlier [start] is
    needed, and the task id does not change. *)
Theorem Task_handle_requests (options : JsValue) (t : Task.Task) (w : World)
    (tok : JsValue) (a' : Auth.Auth) (w1 : World) :
  parse Schema.debug_only (default_arg options (JObj [])) <> None ->
  Auth.getToken (Task.auth t) w = (Normal tok, a', w1) ->
  let debug := truthy (prop options "debug") in
  let client :=
    with_header "Authorization" ("Bearer " ++ to_string tok) (Task.server t) in
  let get_download :=
    mkRequest GET client (task_path "download" (Task.task_id t) debug)
      JUndefined in
  let get_task :=
    mkRequest GET client (task_path "task" (Task.task_id t) debug) JUndefined in
  Task.download options t w
  = (match w_net w1 (w_sent w1) get_download with
     | Resolved response =>
         if debug then data_of (Resolved response) else Normal response
     | Rejected e => Throw (classifyError e)
     end, task_authorized t a' tok, sent w1 get_download)
  /\ Task.details options t w
     = (data_of (w_net w1 (w_sent w1) get_task), task_authorized t a' tok,
        sent w1 get_task)
  /\ Task.task_id (task_authorized t a' tok) = Task.task_id t.
Proof.
  intros Hp Ht.
  destruct (parse Schema.debug_only (default_arg options (JObj [])))
    as [v|] eqn:Ev; [clear Hp | congruence].
  pose proof (parse_debug_only _ _ Ev) as Hv.
  cbv zeta. split; [| split; [| reflexivity]].
  - unfold Task.download, parseAsync.
    unfold Schema.TaskDownloadGenericOptions. rewrite Ev.
    unfold bind at 1. unfold ret at 1. rewrite Hv.
    unfold try_catch. unfold bind at 1. unfold on_field. rewrite Ht.
    unfold bind at 1. unfold modify at 1.
    unfold bind at 1. unfold gets at 1.
    unfold bind at 1. unfold gets at 1.
    unfold bind at 1.
    cbn [Task.server Task._setServer Task.set_auth Task.task_id].
    unfold task_path, task_authorized.
    destruct (truthy (prop options "debug")); rewrite request_run.
    + destruct (w_net w1 (w_sent w1) _) as [response | e]; [| reflexivity].
      unfold get, data_of. destruct (nullish response); reflexivity.
    + rewrite append_empty_r.
      destruct (w_net w1 (w_sent w1) _) as [response | e]; reflexivity.
  - unfold Task.details, parseAsync.
    unfold Schema.TaskDetailsGenericOptions. rewrite Ev.
    unfold bind at 1. unfold ret at 1. rewrite Hv.
    unfold try_catch. unfold bind at 1. unfold on_field. rewrite Ht.
    unfold bind at 1. unfold modify at 1.
    unfold bind at 1. unfold gets at 1.
    unfold bind at 1. unfold gets at 1.
    unfold bind at 1.
    cbn [Task.server Task._setServer Task.set_auth Task.task_id].
    unfold task_path, task_authorized.
    destruct (truthy (prop options "debug")); rewrite request_run.
    + destruct (w_net w1 (w_sent w1) _) as [response | e]; [| reflexivity].
      unfold get, data_of. destruct (nullish response); reflexivity.
    + rewrite append_empty_r.
      destruct (w_net w1 (w_sent w1) _) as [response | e]; [| reflexivity].
      unfold get, data_of. destruct (nullish response); reflexivity.
Qed.

(** X27.  The failures of [download] and [details] of a [Task] before any
    request of their own.  Options that the schema refuses give a
    validation error, and then no token is fetched or signed and nothing
    changes.  With accepted options, an error [e] thrown by [getToken] is
    thrown as [classifyError e]; the client of the handle is then
    untouched. *)
Theorem Task_handle_failures (options : JsValue) (t : Task.Task) (w : World) :
  (parse Schema.debug_only (default_arg options (JObj [])) = None ->
   Task.download options t w
   = (Throw (ErrorObj ZodError "Invalid input" []), t, w)
   /\ Task.details options t w
      = (Throw (ErrorObj ZodError "Invalid input" []), t, w))
  /\ (forall e a' w1,
        parse Schema.debug_only (default_arg options (JObj [])) <> None ->
        Auth.getToken (Task.auth t) w = (Throw e, a', w1) ->
        Task.download options t w
        = (Throw (classifyError e), Task.set_auth a' t, w1)
        /\ Task.details options t w
           = (Throw (classifyError e), Task.set_auth a' t, w1)).
Proof.
  split.
  - intros Hp.
    unfold Task.download, Task.details, parseAsync,
      Schema.TaskDownloadGenericOptions, Schema.TaskDetailsGenericOptions.
    rewrite Hp. split; reflexivity.
  - intros e a' w1 Hp Ht.
    destruct (parse Schema.debug_only (default_arg options (JObj [])))
      as [v|] eqn:Ev; [clear Hp | congruence].
    unfold Task.download, Task.details, parseAsync,
      Schema.TaskDownloadGenericOptions, Schema.TaskDetailsGenericOptions.
    rewrite Ev. unfold bind at 1. unfold bind at 3. unfold ret. cbv zeta.
    unfold try_catch, bind, on_field. rewrite Ht. split; reflexivity.
Qed.

End TaskRuns.

Lemma Task_handle_requests_witness :
  Task.download JUndefined sample_task assigning_world
  = (Normal (JObj [("status", JNum 200);
                   ("data", JObj [("server", JStr "assigned-server");
                                  ("task", JStr "assigned-task-id");
                                  ("remaining_files", JNum 255);
                                  ("server_filename", JStr "stored.jpg")])]),
     task_authorized sample_task
       (snd (fst (Auth.getToken signer assigning_world))) (JStr "1700003600"),
     sent (snd (Auth.getToken signer assigning_world))
       (mkRequest GET
          (with_header "Authorization" "Bearer 1700003600"
             (Task.server sample_task))
          "/download/assigned-task-id" JUndefined))
  /\ fst (fst (Task.details (JObj [("debug", JBool true)]) sample_task
                 assigning_world))
     = Normal (JObj [("server", JStr "assigned-server");
                     ("task", JStr "assigned-task-id");
                     ("remaining_files", JNum 255);
                     ("server_filename", JStr "stored.jpg")]).
Proof.
  split.
  - exact (proj1 (Task_handle_requests JUndefined sample_task assigning_world
                    (JStr "1700003600")
                    (snd (fst (Auth.getToken signer assigning_world)))
                    (snd (Auth.getToken signer assigning_world))
                    ltac:(discriminate) eq_refl)).
  - rewrite (proj1 (proj2 (Task_handle_requests (JObj [("debug", JBool true)])
                             sample_task assigning_world (JStr "1700003600")
                             (snd (fst (Auth.getToken signer assigning_world)))
                             (snd (Auth.getToken signer assigning_world))
                             ltac:(discriminate) eq_refl))).
    reflexivity.
Defined.

Lemma Task_handle_failures_witness :
  Task.download (JObj [("debug", JStr "yes")]) sample_task
    (Toy.world 0 Toy.offline)
  = (Throw (ErrorObj ZodError "Invalid input" []), sample_task,
     Toy.world 0 Toy.offline)
  /\ Task.details JUndefined
       (Task.mkTask (Toy.auth_with JUndefined (JStr ""))
          (JStr "assigned-task-id") Toy.client)
       (Toy.world 0 Toy.offline)
     = (Throw (new_NetworkError "No response received from the server."
                 (ErrorObj AxiosError "Network Error" [("request", JObj [])])),
        Task.mkTask (Toy.auth_with JUndefined (JStr ""))
          (JStr "assigned-task-id") Toy.client,
        sent (Toy.world 0 Toy.offline)
          (auth_request (Toy.auth_with JUndefined (JStr "")))).
Proof.
  split.
  - exact (proj1 (proj1 (Task_handle_failures (JObj [("debug", JStr "yes")]) sample_task
                           (Toy.world 0 Toy.offline)) eq_refl)).
  - exact (proj2 (proj2 (Task_handle_failures JUndefined
                           (Task.mkTask (Toy.auth_with JUndefined (JStr ""))
                              (JStr "assigned-task-id") Toy.client)
                           (Toy.world 0 Toy.offline))
                    (new_NetworkError "No response received from the server."
                       (ErrorObj AxiosError "Network Error"
                          [("request", JObj [])]))
                    (Toy.auth_with JUndefined (JStr ""))
                    (sent (Toy.world 0 Toy.offline)
                       (auth_request (Toy.auth_with JUndefined (JStr ""))))
                    ltac:(discriminate) eq_refl)).
Defined.

(** *** The schemas of the watermark and conversion tools *)

Lemma parse_array (elem : Schema) (n : nat) (xs : list JsValue) :
  parse (ZArrayMin elem n) (JArr xs)
  = match parse_each elem xs with
    | Some ys => if Nat.leb n (List.length xs) then Some (JArr ys) else None
    | None => None
    end.
Proof. reflexivity. Qed.

Lemma parse_each_Forall2 (elem : Schema) (xs ys : list JsValue) :
  parse_each elem xs = Some ys ->
  Forall2 (fun x y => parse elem x = Some y) xs ys.
Proof.
  revert ys. induction xs as [| x rest IH]; intros ys; simpl.
  - intros [= <-]. constructor.
  - destruct (parse elem x) as [y|] eqn:Ey; [| discriminate].
    destruct (parse_each elem rest) as [ys'|]; [| discriminate].
    intros [= <-]. constructor; [exact Ey | apply IH; reflexivity].
Qed.

Lemma parse_array_inv (elem : Schema) (n : nat) (v r : JsValue) :
  parse (ZArrayMin elem n) v = Some r ->
  exists xs ys, v = JArr xs /\ r = JArr ys /\ (n <= List.length xs)%nat
    /\ Forall2 (fun x y => parse elem x = Some y) xs ys.
Proof.
  destruct v as [ | | | | | |xs| ]; try discriminate.
  rewrite parse_array.
  destruct (parse_each elem xs) as [ys|] eqn:E; [| discriminate].
  destruct (Nat.leb n (List.length xs)) eqn:Hn; [| discriminate].
  intros [= <-]. exists xs, ys. apply Nat.leb_le in Hn.
  auto using parse_each_Forall2.
Qed.

Lemma parse_ZRefine (s : Schema) (check : JsValue -> bool) (x r : JsValue) :
  parse (ZRefine s check) x = Some r -> parse s x = Some r /\ check r = true.
Proof.
  cbn [parse]. destruct (parse s x) as [y|]; [| discriminate].
  destruct (check y) eqn:E; [| discriminate].
  intros [= <-]. auto.
Qed.

Lemma parse_ZDefault (s : Schema) (d x : JsValue) :
  parse (ZDefault s d) x = if is_undefined x then parse s d else parse s x.
Proof. reflexivity. Qed.

Lemma parse_default_range (lo hi d : Z) (x r : JsValue) :
  lo <= d <= hi ->
  parse (ZDefault (ZOptional (ZMax (ZMin ZNumber lo) hi)) (JNum d)) x = Some r ->
  number_within lo hi r /\ (x = JUndefined -> r = JNum d).
Proof.
  intros Hd. rewrite parse_ZDefault, !parse_ZOptional.
  destruct x; cbn [is_undefined parse]; try discriminate.
  - destruct (lo <=? d) eqn:E1; [| lia].
    destruct (d <=? hi) eqn:E2; [| lia].
    intros [= <-]. split; [exists d; auto | reflexivity].
  - destruct (lo <=? n) eqn:E1; [| discriminate].
    destruct (n <=? hi) eqn:E2; [| discriminate].
    intros [= <-]. split; [| discriminate].
    exists n. split; [reflexivity | lia].
Qed.

Lemma parse_default_enum (values : list string) (d : string) (x r : JsValue) :
  In d values ->
  parse (ZDefault (ZOptional (ZEnum values)) (JStr d)) x = Some r ->
  (exists s, r = JStr s /\ In s values) /\ (x = JUndefined -> r = JStr d).
Proof.
  intros Hd. rewrite parse_ZDefault, !parse_ZOptional.
  destruct (is_undefined x) eqn:Eu; cbn [is_undefined].
  - intros H. apply parse_ZEnum in H. destruct H as (s & [= <-] & _ & ->).
    split; [exists d; auto | reflexivity].
  - intros H. apply parse_ZEnum in H. destruct H as (s & -> & Hs & ->).
    split; [exists s; auto | discriminate].
Qed.

Lemma parse_default_boolean (d : bool) (x r : JsValue) :
  parse (ZDefault (ZOptional ZBoolean) (JBool d)) x = Some r ->
  (exists b, r = JBool b) /\ (x = JUndefined -> r = JBool d).
Proof.
  rewrite parse_ZDefault, !parse_ZOptional.
  destruct x; cbn [is_undefined parse]; try discriminate; intros [= <-];
    (split; [eexists; reflexivity | try reflexivity; discriminate]).
Qed.

Lemma parse_default_number (d : Z) (x r : JsValue) :
  parse (ZDefault (ZOptional ZNumber) (JNum d)) x = Some r ->
  (exists n, r = JNum n) /\ (x = JUndefined -> r = JNum d).
Proof.
  rewrite parse_ZDefault, !parse_ZOptional.
  destruct x; cbn [is_undefined parse]; try discriminate; intros [= <-];
    (split; [eexists; reflexivity | try reflexivity; discriminate]).
Qed.

Lemma parse_optional_string (x r : JsValue) :
  parse (ZOptional ZString) x = Some r ->
  r = x /\ (r = JUndefined \/ exists s, r = JStr s).
Proof.
  destruct x; cbn; try discriminate; intros [= <-]; split; eauto.
Qed.

Lemma truthy_string_filled (x : JsValue) :
  (x = JUndefined \/ exists s, x = JStr s) -> truthy x = true -> filled_string x.
Proof.
  intros [-> | [s ->]]; [discriminate |].
  intros H. exists s. split; [reflexivity |]. intros ->. discriminate.
Qed.

Lemma Element_nodup :
  NoDup (map fst
           (shape_of (match Schema.TaskProcessWatermarkImageElementsProps with
                      | ZRefine s _ => s
                      | s => s
                      end))).
Proof. nodup_keys. Qed.

Lemma element_accepted (x e : JsValue) :
  parse Schema.TaskProcessWatermarkImageElementsProps x = Some e ->
  element_wellformed e
  /\ (prop x "rotation" = JUndefined -> prop e "rotation" = JNum 0)
  /\ (prop x "transparency" = JUndefined -> prop e "transparency" = JNum 100)
  /\ (prop x "gravity" = JUndefined -> prop e "gravity" = JStr "Center")
  /\ (prop x "mosaic" = JUndefined -> prop e "mosaic" = JBool false).
Proof.
  unfold Schema.TaskProcessWatermarkImageElementsProps.
  intros H. apply parse_ZRefine in H. destruct H as [H Hok].
  pose proof (fun k s => parse_object_field _ x e k s Element_nodup H) as F.
  pose proof (F "type" _ ltac:(simpl; auto 20)) as Htype.
  pose proof (F "text" _ ltac:(simpl; auto 20)) as Htext.
  pose proof (F "image" _ ltac:(simpl; auto 20)) as Himage.
  pose proof (F "gravity" _ ltac:(simpl; auto 20)) as Hgravity.
  pose proof (F "rotation" _ ltac:(simpl; auto 20)) as Hrot.
  pose proof (F "font_style" _ ltac:(simpl; auto 20)) as Hstyle.
  pose proof (F "transparency" _ ltac:(simpl; auto 20)) as Htr.
  pose proof (F "mosaic" _ ltac:(simpl; auto 20)) as Hmosaic.
  clear F H.
  apply parse_ZEnum in Htype. destruct Htype as (ty & Hx & Hty & Etype).
  rewrite Hx in Etype. clear Hx.
  apply parse_optional_string in Htext, Himage.
  apply parse_default_range in Hrot; [| lia].
  apply parse_default_range in Htr; [| lia].
  apply parse_default_enum in Hgravity; [| simpl; auto 20].
  apply parse_default_boolean in Hmosaic.
  unfold element_wellformed.
  split; [| split; [exact (proj2 Hrot) |
            split; [exact (proj2 Htr) |
            split; [exact (proj2 Hgravity) | exact (proj2 Hmosaic)]]]].
  split; [| split; [exact (proj1 Hrot) | split; [exact (proj1 Htr) |]]].
  - unfold Schema.element_ok in Hok.
    rewrite Etype in Hok. rewrite Etype.
    simpl in Hty. destruct Hty as [<- | [<- | []]].
    + right. split; [reflexivity |].
      apply truthy_string_filled; [exact (proj2 Himage) | exact Hok].
    + left. split; [reflexivity |].
      apply truthy_string_filled; [exact (proj2 Htext) | exact Hok].
  - split; [destruct (proj1 Hgravity) as (g & Hg & _); eauto |].
    split; [| exact (proj1 Hmosaic)].
    rewrite parse_ZDefault, !parse_ZOptional in Hstyle.
    destruct (prop x "font_style") as [ | | | | |s| | ];
      cbn [is_undefined parse] in Hstyle; try discriminate;
      try (injection Hstyle as <-; left; reflexivity).
    destruct (existsb (String.eqb s) ["Bold"; "Italic"]) eqn:Es;
      [| discriminate].
    injection Hstyle as <-. right.
    apply existsb_exists in Es. destruct Es as (y & Hy & Hs).
    apply String.eqb_eq in Hs. subst y.
    simpl in Hy. destruct Hy as [<- | [<- | []]]; auto.
Qed.

(** X28.  Watermark options that the schema accepts give [{ elements }]
    alone, a list with as many elements as the one given and at least one.
    Every element of it has the type 'text' with a non-empty [text] or the
    type 'image' with a non-empty [image], a [rotation] between 0 and 360,
    a [transparency] between 1 and 100, a [gravity], a [font_style] that is
    null, 'Bold' or 'Italic', and a boolean [mosaic]; an element given
    without [rotation], [transparency], [gravity] or [mosaic] has 0, 100,
    'Center' and false there. *)
Theorem watermark_options_accepted (x r : JsValue) :
  parse Schema.TaskProcessWatermarkImageOptions x = Some r ->
  exists xs es,
    prop x "elements" = JArr xs /\ r = JObj [("elements", JArr es)]
    /\ es <> [] /\ List.length es = List.length xs
    /\ Forall2
         (fun xi e =>
            element_wellformed e
            /\ (prop xi "rotation" = JUndefined -> prop e "rotation" = JNum 0)
            /\ (prop xi "transparency" = JUndefined ->
                prop e "transparency" = JNum 100)
            /\ (prop xi "gravity" = JUndefined -> prop e "gravity" = JStr "Center")
            /\ (prop xi "mosaic" = JUndefined -> prop e "mosaic" = JBool false))
         xs es.
Proof.
  unfold Schema.TaskProcessWatermarkImageOptions. intros H.
  destruct (parse_object_inv _ _ _ H) as (fs & out & -> & -> & Hf).
  cbn [parse_fields] in Hf.
  destruct (parse (ZArrayMin Schema.TaskProcessWatermarkImageElementsProps 1)
              (prop (JObj fs) "elements")) as [arr|] eqn:Ea; [| discriminate].
  destruct (parse_array_inv _ _ _ _ Ea) as (xs & es & Hx & -> & Hn & Hall).
  cbn [is_undefined negb] in Hf. rewrite orb_true_r in Hf.
  injection Hf as <-.
  exists xs, es. split; [exact Hx |]. split; [reflexivity |].
  pose proof (Forall2_length Hall) as Hlen.
  split; [| split; [symmetry; exact Hlen |]].
  - intros ->. simpl in Hlen. rewrite Hlen in Hn. simpl in Hn. lia.
  - clear - Hall.
    induction Hall as [| xi e xs' es' He _ IH]; [constructor |].
    constructor; [exact (element_accepted _ _ He) | exact IH].
Qed.

Lemma watermark_options_accepted_witness :
  exists xs es,
    prop (JObj [("elements", JArr [JObj [("type", JStr "text");
                                         ("text", JStr "draft")]])])
      "elements" = JArr xs
    /\ JObj [("elements",
              JArr [JObj [("type", JStr "text"); ("text", JStr "draft");
                          ("gravity", JStr "Center");
                          ("vertical_adjustment_percent", JNum 0);
                          ("horizontal_adjustment_percent", JNum 0);
                          ("rotation", JNum 0); ("font_family", JStr "Arial");
                          ("font_style", JNull); ("font_size", JNum 14);
                          ("font_color", JStr "#000000");
                          ("transparency", JNum 100);
                          ("mosaic", JBool false)]])]
       = JObj [("elements", JArr es)]
    /\ es <> [] /\ List.length es = List.length xs
    /\ Forall2
         (fun xi e =>
            element_wellformed e
            /\ (prop xi "rotation" = JUndefined -> prop e "rotation" = JNum 0)
            /\ (prop xi "transparency" = JUndefined ->
                prop e "transparency" = JNum 100)
            /\ (prop xi "gravity" = JUndefined -> prop e "gravity" = JStr "Center")
            /\ (prop xi "mosaic" = JUndefined -> prop e "mosaic" = JBool false))
         xs es.
Proof.
  exact (watermark_options_accepted
           (JObj [("elements", JArr [JObj [("type", JStr "text");
                                           ("text", JStr "draft")]])])
           _ eq_refl).
Defined.

Lemma Convert_nodup :
  NoDup (map fst
           (shape_of (match Schema.TaskProcessConvertImageOptions with
                      | ZOptional s => s
                      | s => s
                      end))).
Proof. nodup_keys. Qed.

(** X29.  Conversion options that the schema accepts are [undefined], and
    then so is the result, or an object, and then the result has a [to]
    among 'jpg', 'png', 'gif', 'gif_animation' and 'heic', a numeric
    [gif_time] and a boolean [gif_loop], each the one given when one was
    given and else 'jpg', 50 and true; it has no other key. *)
Theorem convert_options_accepted (x r : JsValue) :
  parse Schema.TaskProcessConvertImageOptions x = Some r ->
  (x = JUndefined /\ r = JUndefined)
  \/ ((exists fs, x = JObj fs)
      /\ (exists s, prop r "to" = JStr s /\ In s convert_formats)
      /\ (exists n, prop r "gif_time" = JNum n)
      /\ (exists b, prop r "gif_loop" = JBool b)
      /\ (prop x "to" = JUndefined -> prop r "to" = JStr "jpg")
      /\ (prop x "to" <> JUndefined -> prop r "to" = prop x "to")
      /\ (prop x "gif_time" = JUndefined -> prop r "gif_time" = JNum 50)
      /\ (prop x "gif_time" <> JUndefined -> prop r "gif_time" = prop x "gif_time")
      /\ (prop x "gif_loop" = JUndefined -> prop r "gif_loop" = JBool true)
      /\ (prop x "gif_loop" <> JUndefined -> prop r "gif_loop" = prop x "gif_loop")
      /\ forall k, ~ In k ["to"; "gif_time"; "gif_loop"] -> prop r k = JUndefined).
Proof.
  unfold Schema.TaskProcessConvertImageOptions. rewrite parse_ZOptional.
  destruct (is_undefined x) eqn:Eu.
  - intros [= <-]. left. destruct x; try discriminate. auto.
  - intros H. right.
    pose proof (fun k s => parse_object_field _ x r k s Convert_nodup H) as F.
    pose proof (F "to" _ ltac:(simpl; auto)) as Hto.
    pose proof (F "gif_time" _ ltac:(simpl; auto)) as Htime.
    pose proof (F "gif_loop" _ ltac:(simpl; auto)) as Hloop.
    clear F.
    assert (Hsame : forall s d v y,
              parse (ZDefault (ZOptional s) d) v = Some y ->
              (forall a b, parse s a = Some b -> b = a) ->
              v <> JUndefined -> y = v).
    { intros s d v y Hp Hid Hv. rewrite parse_ZDefault, !parse_ZOptional in Hp.
      destruct (is_undefined v) eqn:E.
      - destruct v; try discriminate. congruence.
      - apply Hid. exact Hp. }
    assert (Hjpg : In "jpg" convert_formats) by (simpl; auto).
    split; [destruct (parse_object_inv _ _ _ H) as (fs & _ & -> & _); eauto |].
    split; [exact (proj1 (parse_default_enum _ _ _ _ Hjpg Hto)) |].
    split; [exact (proj1 (parse_default_number _ _ _ Htime)) |].
    split; [exact (proj1 (parse_default_boolean _ _ _ Hloop)) |].
    split; [exact (proj2 (parse_default_enum _ _ _ _ Hjpg Hto)) |].
    split.
    { apply (Hsame _ _ _ _ Hto).
      intros a b Hp. apply parse_ZEnum in Hp.
      destruct Hp as (s & _ & _ & ->). reflexivity. }
    split; [exact (proj2 (parse_default_number _ _ _ Htime)) |].
    split.
    { apply (Hsame _ _ _ _ Htime).
      intros a b Hp. destruct a; cbn in Hp; congruence. }
    split; [exact (proj2 (parse_default_boolean _ _ _ Hloop)) |].
    split.
    { apply (Hsame _ _ _ _ Hloop).
      intros a b Hp. destruct a; cbn in Hp; congruence. }
    intros k Hk. exact (parse_object_keys _ _ _ k H Hk).
Qed.

Lemma convert_options_accepted_witness :
  (JObj [("to", JStr "png")] = JUndefined
   /\ JObj [("to", JStr "png"); ("gif_time", JNum 50); ("gif_loop", JBool true)]
      = JUndefined)
  \/ ((exists fs, JObj [("to", JStr "png")] = JObj fs)
      /\ (exists s,
            prop (JObj [("to", JStr "png"); ("gif_time", JNum 50);
                        ("gif_loop", JBool true)]) "to" = JStr s
            /\ In s convert_formats)
      /\ True).
Proof.
  destruct (convert_options_accepted (JObj [("to", JStr "png")])
              (JObj [("to", JStr "png"); ("gif_time", JNum 50);
                     ("gif_loop", JBool true)]) eq_refl)
    as [H | (Hfs & Hto & _)].
  - left. exact H.
  - right. split; [exact Hfs |]. split; [exact Hto | exact I].
Defined.

(** *** [verifyToken] has no abrupt exit *)

Lemma verifies_iff {J : JsonWebToken} (a : Auth.Auth) (now : Z) :
  verifies a now = true
  <-> exists claims,
        jwt_decode (Auth.token a) = Normal claims
        /\ if truthy (Auth.secretKey a)
           then exists x,
                  jwt_verify now (Auth.token a) (Auth.secretKey a) = Normal x
           else nullish claims = false
                /\ gt_number (now / 1000) (to_number (prop claims "exp"))
                   = false.
Proof.
  unfold verifies. split.
  - destruct (jwt_decode (Auth.token a)) as [claims | e]; [| discriminate].
    intros H. exists claims. split; [reflexivity |].
    destruct (truthy (Auth.secretKey a)).
    + destruct (jwt_verify now (Auth.token a) (Auth.secretKey a)) as [x | e];
        [eauto | discriminate].
    + apply andb_true_iff in H. destruct H as [Hn Hg].
      apply negb_true_iff in Hn, Hg. auto.
  - intros (claims & -> & H).
    destruct (truthy (Auth.secretKey a)).
    + destruct H as [x ->]. reflexivity.
    + destruct H as [-> ->]. reflexivity.
Qed.

(** X30.  [verifyToken] never throws, whatever [jsonwebtoken] does with the
    cached token, and never sends a request.  When the cached token is
    falsy it returns that token and leaves the manager and the world as
    they are.  A truthy token passes the checks when it decodes and either
    a secret key is set and [jsonwebtoken.verify] returns, or no secret key
    is set, the payload is neither [null] nor [undefined] and the clock in
    whole seconds is not greater than [Number(exp)].  When it passes, the
    decoded payload is returned and the manager is as before; when it does
    not, [undefined] is returned and the cached token is cleared. *)
Theorem verifyToken_never_throws {J : JsonWebToken} (a : Auth.Auth) (w : World) :
  let passes :=
    exists claims,
      jwt_decode (Auth.token a) = Normal claims
      /\ if truthy (Auth.secretKey a)
         then exists x,
                jwt_verify (w_now w) (Auth.token a) (Auth.secretKey a)
                = Normal x
         else nullish claims = false
              /\ gt_number (w_now w / 1000) (to_number (prop claims "exp"))
                 = false in
  exists v a' w',
    Auth.verifyToken a w = (Normal v, a', w')
    /\ w_sent w' = w_sent w /\ w_now w' = w_now w /\ w_net w' = w_net w
    /\ (truthy (Auth.token a) = false -> v = Auth.token a /\ a' = a /\ w' = w)
    /\ (truthy (Auth.token a) = true -> passes ->
        jwt_decode (Auth.token a) = Normal v /\ a' = a)
    /\ (truthy (Auth.token a) = true -> ~ passes ->
        v = JUndefined /\ a' = Auth.set_token JUndefined a).
Proof.
  intros passes.
  destruct (truthy (Auth.token a)) eqn:Ht.
  - destruct (verifyToken_cached a w Ht) as (w' & (Hnow & Hnet & Hsent & _) & E).
    destruct (verifies a (w_now w)) eqn:Hv.
    + pose proof (proj1 (verifies_iff a (w_now w)) Hv) as Hp.
      destruct Hp as (claims & Hd & Hrest).
      exists claims, a, w'. rewrite E, Hd.
      split; [reflexivity |].
      split; [exact Hsent |]. split; [exact Hnow |]. split; [exact Hnet |].
      split; [discriminate |].
      split; [auto |].
      intros _ Hno. exfalso. apply Hno. exists claims. auto.
    + exists JUndefined, (Auth.set_token JUndefined a), w'. rewrite E.
      split; [reflexivity |].
      split; [exact Hsent |]. split; [exact Hnow |]. split; [exact Hnet |].
      split; [discriminate |].
      split; [| auto].
      intros _ Hp. apply (proj2 (verifies_iff a (w_now w))) in Hp. congruence.
  - exists (Auth.token a), a, w. rewrite (verifyToken_absent a w Ht).
    split; [reflexivity |].
    repeat split; discriminate.
Qed.
